(** * Context Gateway telemetry report: the analysis functions

    A shallow embedding of the analysis part of
    [docs/quickstart/telemetry-report.py] ([get_price], [analyze_tokens],
    [analyze_sizes], [analyze_daily]) and the properties its specification
    states about them.

    Conventions of the embedding.
    - A log record is a JSON object read with [dict.get]: every field is an
      [option], [None] standing for an absent key.  Field types follow the
      record shapes of the specification (sections 3 and 6): strings,
      booleans, and non-negative integers ([N]); once read, an integer is a
      Python [int], that is a [Z].
    - A Python [float] is modelled by an exact rational ([Q]); the true
      division [a / b] of two integers is [inject_Z a / inject_Z b].  The
      properties below are about which records are counted and summed, and
      none of them depends on rounding.
    - A [dict] used as a map is a [gmap]; the one dict that is iterated for
      its order ([FALLBACK_PRICES]) is an association list.
    - A function that can raise returns an [outcome]. *)

From Stdlib Require Import QArith Ascii.
From stdpp Require Import base gmap list strings sorting.

Open Scope Z_scope.

(** ** Python built-ins used by the report *)

Module Py.

(** [key in s] on strings: [key] occurs in [s] as a substring. *)
Fixpoint str_in (key s : string) : bool :=
  String.prefix key s ||
  match s with
  | EmptyString => false
  | String _ s' => str_in key s'
  end.

(** [s[:n]]; a string is its sequence of bytes, which for the ASCII
    timestamps of the log are its characters. *)
Definition str_take (n : nat) (s : string) : string := String.substring 0 n s.

(** [len(l)]. *)
Definition len {A} (l : list A) : Z := Z.of_nat (length l).

(** [sum(l)] over integers: a left fold starting from [0]. *)
Definition sum (l : list Z) : Z := foldl Z.add 0 l.

(** [sum(l)] over floats. *)
Definition fsum (l : list Q) : Q := foldl Qplus 0%Q l.

(** [a / b] on integers (true division).  Python raises on [b = 0]; every
    use below is guarded by [b ≠ 0]. *)
Definition truediv (a b : Z) : Q := (inject_Z a / inject_Z b)%Q.

(** Comparisons of floats. *)
Definition fge (x y : Q) : bool := Qle_bool y x.
Definition flt (x y : Q) : bool := negb (Qle_bool y x).
Definition fgt (x y : Q) : bool := negb (Qle_bool x y).

(** [sorted(l)] on integers. *)
Definition sorted (l : list Z) : list Z := merge_sort Z.le l.

(** [min(l)] and [max(l)] of the non-empty list [x :: l]. *)
Definition min_of (x : Z) (l : list Z) : Z := foldl Z.min x l.
Definition max_of (x : Z) (l : list Z) : Z := foldl Z.max x l.

(** [statistics.mean(l)] on integers: the exact quotient. Raises on an
    empty list; every use below is on a non-empty one. *)
Definition mean (l : list Z) : Q := truediv (sum l) (len l).

(** [statistics.mean(l)] on floats. *)
Definition fmean (l : list Q) : Q := (fsum l / inject_Z (len l))%Q.

(** [statistics.median(l)]: sort, then the middle element, or the mean of
    the two middle elements. *)
Definition median (l : list Z) : Q :=
  let data := sorted l in
  let n := length data in
  if Nat.odd n then inject_Z (nth (n / 2)%nat data 0)
  else let i := (n / 2)%nat in
       truediv (nth (i - 1)%nat data 0 + nth i data 0) 2.

End Py.

(** ** Results of functions that can raise *)

Inductive exn := ValueError.

Inductive outcome (A : Type) :=
| Return (a : A)
| Raise (e : exn).
Arguments Return {A} a.
Arguments Raise {A} e.

(** ** Log records *)

Module Entry.
(** Modelled from the spec: the shape of a record of the request log
    [telemetry.jsonl] (sections 3 and 6), which the source reads as an
    untyped dict written by the gateway.  Counts are non-negative
    integers; every field may be absent. *)
Record t := mk {
  path : option string;
  model : option string;
  compression_used : option bool;
  original_tokens : option N;
  tokens_saved : option N;
  shadow_refs_created : option N;
  expand_calls_found : option N;
  timestamp : option string
}.
End Entry.

Module Rec.
(** Modelled from the spec: the shape of a record of the compression log
    [compression.jsonl] (sections 3 and 6), which the source reads as an
    untyped dict written by the gateway.  Sizes are non-negative integers;
    every field may be absent. *)
Record t := mk {
  tool_name : option string;
  status : option string;
  original_bytes : option N;
  compressed_bytes : option N;
  min_threshold : option N
}.
End Rec.

(** [d.get(key, 0)] on an integer field. *)
Definition get_int (field : option N) : Z := from_option Z.of_N 0 field.

(** [d.get(key, dflt)] on an integer field with an integer default. *)
Definition get_int_or (field : option N) (dflt : Z) : Z := from_option Z.of_N dflt field.

(** [d.get(key)] on a boolean field, used as a condition. *)
Definition truthy (field : option bool) : bool := default false field.

(** ** Data structures *)

Module ModelStats.
Record t := mk {
  name : string;
  count : Z;
  orig_tokens : Z;
  saved_tokens : Z;
  money_saved : Q
}.
(** [ModelStats(name=model)]. *)
Definition init (model : string) : t := mk model 0 0 0 0%Q.
End ModelStats.

Module TokenStats.
Record t := mk {
  total_requests : Z;
  compressed_requests : Z;
  passthrough_requests : Z;
  total_orig_tokens : Z;
  total_saved_tokens : Z;
  total_shadows : Z;
  total_expands : Z;
  total_money_saved : Q;
  models : gmap string ModelStats.t
}.
End TokenStats.

Module DailyStats.
Record t := mk {
  active_days : Z;
  avg_tokens_per_day : Q;
  min_tokens_per_day : Z;
  max_tokens_per_day : Z;
  median_tokens_per_day : Q;
  daily_values : list Z;
  total_saved_tokens : Z;
  total_money_saved : Q;
  total_shadows : Z;
  total_expands : Z;
  models : gmap string ModelStats.t
}.
End DailyStats.

Module ToolStats.
Record t := mk {
  name : string;
  total : Z;
  compressed : Z;
  orig_bytes : Z;
  saved_bytes : Z
}.
Definition init (tool : string) : t := mk tool 0 0 0 0.
End ToolStats.

Module ThresholdResult.
Record t := mk {
  threshold : Z;
  calls : Z;
  ratio : Q;
  saved : Z;
  wasted : Z;
  roi : Q
}.
End ThresholdResult.

Module SizeStats.
Record t := mk {
  all_sizes : list Z;
  compressed_sizes : list Z;
  passthrough_sizes : list Z;
  ratios : list Q;
  tools : gmap string ToolStats.t;
  status_counts : gmap string Z;
  current_threshold : Z;
  thresholds : list ThresholdResult.t;
  sweet_spot : Z;
  compression_cost : Q
}.
End SizeStats.

(** One compressed sample of the threshold analysis:
    [{"orig": orig, "comp": comp, "ratio": comp / orig}]. *)
Module Sample.
Record t := mk { orig : Z; comp : Z; ratio : Q }.
End Sample.

(** ** A date parser to run the daily aggregation on concrete logs

    [analyze_daily] is parametric in the library's date parser.  This
    instance reads the extended ISO-8601 shape [YYYY-MM-DD], optionally
    followed by one separator character and [HH], [HH:MM] or [HH:MM:SS],
    checks the ranges of every component and returns the date part. *)

Module IsoFormat.

Definition digit (c : Ascii.ascii) : option N :=
  let n := Ascii.N_of_ascii c in
  if ((48 <=? n) && (n <=? 57))%N then Some (n - 48)%N else None.

(** The value of a string of decimal digits, [acc] being the value read so
    far; [None] on any other character. *)
Fixpoint number (acc : N) (s : string) : option N :=
  match s with
  | EmptyString => Some acc
  | String c s' =>
      match digit c with
      | Some d => number (10 * acc + d)%N s'
      | None => None
      end
  end.

(** A field of exactly [width] digits at offset [pos]. *)
Definition field (pos width : nat) (s : string) : option N :=
  let part := String.substring pos width s in
  if bool_decide (String.length part = width) then number 0%N part else None.

Definition char_is (pos : nat) (c : Ascii.ascii) (s : string) : bool :=
  bool_decide (String.get pos s = Some c).

Definition leap (y : N) : bool :=
  ((y mod 4 =? 0) && (negb (y mod 100 =? 0) || (y mod 400 =? 0)))%N.

Definition days_in_month (y m : N) : N :=
  if (m =? 2)%N then (if leap y then 29 else 28)%N
  else if ((m =? 4) || (m =? 6) || (m =? 9) || (m =? 11))%N then 30%N
  else 31%N.

Definition valid_date (s : string) : bool :=
  match field 0 4 s, field 5 2 s, field 8 2 s with
  | Some y, Some m, Some d =>
      char_is 4 "-"%char s && char_is 7 "-"%char s &&
      ((1 <=? y) && (1 <=? m) && (m <=? 12) && (1 <=? d) && (d <=? days_in_month y m))%N
  | _, _, _ => false
  end.

Definition below (bound : N) (o : option N) : bool :=
  match o with
  | Some n => (n <? bound)%N
  | None => false
  end.

(** The time part, after the separator. *)
Definition valid_time (s : string) : bool :=
  match String.length s with
  | 2%nat => below 24 (field 0 2 s)
  | 5%nat => below 24 (field 0 2 s) && char_is 2 ":"%char s && below 60 (field 3 2 s)
  | 8%nat => below 24 (field 0 2 s) && char_is 2 ":"%char s && below 60 (field 3 2 s)
             && char_is 5 ":"%char s && below 60 (field 6 2 s)
  | _ => false
  end.

Definition isodate (s : string) : option string :=
  let n := String.length s in
  if valid_date s &&
     (bool_decide (n = 10%nat) || valid_time (String.substring 11 (n - 11) s))
  then Some (String.substring 0 10 s)
  else None.

End IsoFormat.

(** ** Pricing *)

Definition FALLBACK_PRICES : list (string * Q) :=
  [("opus", 15%Q); ("sonnet", 3%Q); ("haiku", 1%Q)].

(** The loop [for key, price in FALLBACK_PRICES.items(): if key in model:
    return price]; [None] when the loop falls through. *)
Fixpoint first_fallback (items : list (string * Q)) (model : string) : option Q :=
  match items with
  | [] => None
  | (key, price) :: items' =>
      if Py.str_in key model then Some price else first_fallback items' model
  end.

(** [tokens / 1e6 * price]. *)
Definition money (tokens : Z) (price : Q) : Q :=
  (inject_Z tokens / 1000000 * price)%Q.

Section Report.

(** The table fetched once at start-up from the pricing catalogue; empty
    when the fetch failed. *)
Variable LIVE_PRICES : gmap string Q.

(** [str(datetime.fromisoformat(s).date())] of the Python library; [None]
    when [fromisoformat] raises [ValueError]. *)
Variable isodate : string → option string.

Definition get_price (model : string) : Q :=
  match (if bool_decide (LIVE_PRICES = ∅) then None else LIVE_PRICES !! model) with
  | Some price => price
  | None =>
      match first_fallback FALLBACK_PRICES model with
      | Some price => price
      | None => 3%Q
      end
  end.

(** *** analyze_tokens *)

(** [e.get("path") == "/v1/messages"]. *)
Definition is_message (e : Entry.t) : Prop := Entry.path e = Some "/v1/messages"%string.

Definition compression_used (m : Entry.t) : Prop := truthy (Entry.compression_used m) = true.

(** The key of [m] in the per-model breakdown: [m.get("model", "unknown")]. *)
Definition model_key (m : Entry.t) : string := default "unknown"%string (Entry.model m).

(** One iteration of [for m in msgs] building [models]. *)
Definition models_step (models : gmap string ModelStats.t) (m : Entry.t)
  : gmap string ModelStats.t :=
  let model := model_key m in
  let s := default (ModelStats.init model) (models !! model) in
  <[model := ModelStats.mk (ModelStats.name s)
               (ModelStats.count s + 1)
               (ModelStats.orig_tokens s + get_int (Entry.original_tokens m))
               (ModelStats.saved_tokens s + get_int (Entry.tokens_saved m))
               (ModelStats.money_saved s)]> models.

(** The body of [for s in models.values()]. *)
Definition price_model (s : ModelStats.t) : ModelStats.t :=
  ModelStats.mk (ModelStats.name s) (ModelStats.count s) (ModelStats.orig_tokens s)
    (ModelStats.saved_tokens s)
    (money (ModelStats.saved_tokens s) (get_price (ModelStats.name s))).

Definition analyze_tokens (entries : list Entry.t) : option TokenStats.t :=
  let msgs := filter is_message entries in
  match msgs with
  | [] => None
  | _ =>
      let compressed := filter compression_used msgs in
      let passthrough := filter (λ m, ¬ compression_used m) msgs in
      let models := foldl models_step ∅ msgs in
      Some (TokenStats.mk
              (Py.len msgs)
              (Py.len compressed)
              (Py.len passthrough)
              (Py.sum ((λ m, get_int (Entry.original_tokens m)) <$> msgs))
              (Py.sum ((λ m, get_int (Entry.tokens_saved m)) <$> compressed))
              (Py.sum ((λ m, get_int (Entry.shadow_refs_created m)) <$> compressed))
              (Py.sum ((λ m, get_int (Entry.expand_calls_found m)) <$> compressed))
              (Py.fsum ((λ m, money (get_int (Entry.tokens_saved m))
                                (get_price (default ""%string (Entry.model m))))
                        <$> compressed))
              (price_model <$> models))
  end.

(** *** analyze_sizes *)

(** [SizeStats()]. *)
Definition SizeStats_init : SizeStats.t :=
  SizeStats.mk [] [] [] [] ∅ ∅ 0 [] 0 0%Q.

(** One iteration of the first [for rec in entries]. *)
Definition sizes_step (stats : SizeStats.t) (rec : Rec.t) : SizeStats.t :=
  let orig := get_int (Rec.original_bytes rec) in
  if bool_decide (orig = 0) then stats
  else
    let status := default ""%string (Rec.status rec) in
    let tool := default "unknown"%string (Rec.tool_name rec) in
    let all_sizes := SizeStats.all_sizes stats ++ [orig] in
    let status_counts :=
      <[status := default 0 (SizeStats.status_counts stats !! status) + 1]>
        (SizeStats.status_counts stats) in
    let t := default (ToolStats.init tool) (SizeStats.tools stats !! tool) in
    if bool_decide (status = "compressed"%string) then
      let comp := get_int_or (Rec.compressed_bytes rec) orig in
      let t' := ToolStats.mk (ToolStats.name t) (ToolStats.total t + 1)
                  (ToolStats.compressed t + 1) (ToolStats.orig_bytes t + orig)
                  (ToolStats.saved_bytes t + (orig - comp)) in
      SizeStats.mk all_sizes
        (SizeStats.compressed_sizes stats ++ [orig])
        (SizeStats.passthrough_sizes stats)
        (if bool_decide (0 < orig)
         then SizeStats.ratios stats ++ [Py.truediv comp orig]
         else SizeStats.ratios stats)
        (<[tool := t']> (SizeStats.tools stats))
        status_counts
        (SizeStats.current_threshold stats) (SizeStats.thresholds stats)
        (SizeStats.sweet_spot stats) (SizeStats.compression_cost stats)
    else
      let t' := ToolStats.mk (ToolStats.name t) (ToolStats.total t + 1)
                  (ToolStats.compressed t) (ToolStats.orig_bytes t + orig)
                  (ToolStats.saved_bytes t) in
      SizeStats.mk all_sizes
        (SizeStats.compressed_sizes stats)
        (SizeStats.passthrough_sizes stats ++ [orig])
        (SizeStats.ratios stats)
        (<[tool := t']> (SizeStats.tools stats))
        status_counts
        (SizeStats.current_threshold stats) (SizeStats.thresholds stats)
        (SizeStats.sweet_spot stats) (SizeStats.compression_cost stats).

(** [for rec in reversed(entries)]: the first [min_threshold > 0], here on
    the list already reversed; [current] when there is none. *)
Fixpoint last_threshold (recs : list Rec.t) (current : Z) : Z :=
  match recs with
  | [] => current
  | rec :: recs' =>
      let t := get_int (Rec.min_threshold rec) in
      if bool_decide (0 < t) then t else last_threshold recs' current
  end.

(** The body of the loop that fills [compressed_data]: [None] when the
    record is skipped by [continue]. *)
Definition sample_of (rec : Rec.t) : option Sample.t :=
  let orig := get_int (Rec.original_bytes rec) in
  if bool_decide (orig = 0) || bool_decide (Rec.status rec ≠ Some "compressed"%string)
  then None
  else
    let comp := get_int_or (Rec.compressed_bytes rec) orig in
    Some (Sample.mk orig comp (Py.truediv comp orig)).

Definition compressed_data (entries : list Rec.t) : list Sample.t :=
  omap sample_of entries.

Definition CANDIDATES : list Z := [256; 512; 768; 1024; 1536; 2048; 3072; 4096].

Definition HAIKU : string := "claude-haiku-4-5-20251001".

(** [[c for c in compressed_data if c["orig"] >= threshold]]. *)
Definition eligible_at (data : list Sample.t) (threshold : Z) : list Sample.t :=
  filter (λ c, threshold ≤ Sample.orig c) data.

(** The [ThresholdResult] built in one iteration of the sweep from the
    (non-empty) eligible list. *)
Definition threshold_result (eligible : list Sample.t) (threshold : Z)
  : ThresholdResult.t :=
  let wasted :=
    Py.sum ((λ _, 1) <$> filter (λ c, Py.fge (Sample.ratio c) 0.9%Q) eligible) in
  let saved :=
    Py.sum ((λ c, Sample.orig c - Sample.comp c)
            <$> filter (λ c, Py.flt (Sample.ratio c) 0.9%Q) eligible) in
  let avg_ratio := Py.fmean (Sample.ratio <$> eligible) in
  let api_input := Py.sum (Sample.orig <$> eligible) in
  let api_cost := (Py.truediv api_input 4 / 1000000 * get_price HAIKU)%Q in
  let main_savings := (Py.truediv saved 4 / 1000000 * 15)%Q in
  let roi := if Py.fgt api_cost 0%Q then (main_savings / api_cost)%Q else 0%Q in
  ThresholdResult.mk threshold (Py.len eligible) avg_ratio saved wasted roi.

(** [for threshold in candidates], threading [stats.thresholds] and
    [total_comp_input]. *)
Fixpoint sweep (data : list Sample.t) (current_threshold : Z) (candidates : list Z)
    (thresholds : list ThresholdResult.t) (total_comp_input : Z)
  : list ThresholdResult.t * Z :=
  match candidates with
  | [] => (thresholds, total_comp_input)
  | threshold :: candidates' =>
      match eligible_at data threshold with
      | [] => sweep data current_threshold candidates' thresholds total_comp_input
      | eligible =>
          sweep data current_threshold candidates'
            (thresholds ++ [threshold_result eligible threshold])
            (if bool_decide (threshold = current_threshold)
             then Py.sum (Sample.orig <$> eligible)
             else total_comp_input)
      end
  end.

(** [for r in stats.thresholds: if r.wasted == 0: sweet_spot = r.threshold;
    break]. *)
Fixpoint find_sweet_spot (thresholds : list ThresholdResult.t) (sweet_spot : Z) : Z :=
  match thresholds with
  | [] => sweet_spot
  | r :: thresholds' =>
      if bool_decide (ThresholdResult.wasted r = 0) then ThresholdResult.threshold r
      else find_sweet_spot thresholds' sweet_spot
  end.

Definition analyze_sizes (entries : list Rec.t) : option SizeStats.t :=
  match entries with
  | [] => None
  | _ =>
      let stats := foldl sizes_step SizeStats_init entries in
      match SizeStats.all_sizes stats with
      | [] => None
      | _ =>
          let current_threshold := last_threshold (reverse entries) 0 in
          let data := compressed_data entries in
          let '(thresholds, sweet_spot, compression_cost) :=
            if bool_decide (10 ≤ Py.len data) then
              let '(thresholds, total_comp_input) :=
                sweep data current_threshold CANDIDATES [] 0 in
              (thresholds,
               find_sweet_spot thresholds 0,
               if bool_decide (total_comp_input ≠ 0)
               then (Py.truediv total_comp_input 4 / 1000000 * get_price HAIKU)%Q
               else 0%Q)
            else ([], 0, 0%Q) in
          Some (SizeStats.mk
                  (SizeStats.all_sizes stats) (SizeStats.compressed_sizes stats)
                  (SizeStats.passthrough_sizes stats) (SizeStats.ratios stats)
                  (SizeStats.tools stats) (SizeStats.status_counts stats)
                  current_threshold thresholds sweet_spot compression_cost)
      end
  end.

(** *** analyze_daily *)

(** [for m in msgs], filling [daily_tokens]; raises when a timestamp does
    not parse. *)
Fixpoint daily_loop (daily_tokens : gmap string Z) (msgs : list Entry.t)
  : outcome (gmap string Z) :=
  match msgs with
  | [] => Return daily_tokens
  | m :: msgs' =>
      let ts := default ""%string (Entry.timestamp m) in
      if bool_decide (ts = ""%string) then daily_loop daily_tokens msgs'
      else
        match isodate (Py.str_take 19 ts) with
        | None => Raise ValueError
        | Some date =>
            daily_loop
              (<[date := default 0 (daily_tokens !! date)
                         + get_int (Entry.original_tokens m)]> daily_tokens)
              msgs'
        end
  end.

(** [daily_tokens.values()]. *)
Definition dict_values (d : gmap string Z) : list Z := (map_to_list d).*2.

Definition analyze_daily (entries : list Entry.t) : outcome (option DailyStats.t) :=
  let msgs := filter is_message entries in
  match msgs with
  | [] => Return None
  | _ =>
      match daily_loop ∅ msgs with
      | Raise e => Raise e
      | Return daily_tokens =>
          let active_values := filter (λ tokens, 0 < tokens) (dict_values daily_tokens) in
          match active_values with
          | [] => Return None
          | v :: vs =>
              Return (Some (DailyStats.mk
                              (Py.len active_values)
                              (Py.mean active_values)
                              (Py.min_of v vs)
                              (Py.max_of v vs)
                              (Py.median active_values)
                              (Py.sorted active_values)
                              0 0%Q 0 0 ∅))
          end
      end
  end.

End Report.

(** ** The live price table *)

Module Catalogue.
(** One entry of the LiteLLM price catalogue, as far as [fetch_prices]
    reads it: [info.get("input_cost_per_token")]. *)
Record info := mk { input_cost_per_token : option Q }.
End Catalogue.

(** The body of the loop of [fetch_prices] for one item of the catalogue. *)
Definition fetch_step (model_id : string) (info : Catalogue.info)
    (prices : gmap string Q) : gmap string Q :=
  match Catalogue.input_cost_per_token info with
  | Some cost =>
      if negb (Qeq_bool cost 0) && Py.str_in "claude" model_id
      then <[model_id := (cost * 1000000)%Q]> prices
      else prices
  | None => prices
  end.

(** [fetch_prices], given the catalogue that the download and
    [json.loads] produced; [None] when they, or the loop on a catalogue
    that is not of this shape, raised, which the function catches. *)
Definition fetch_prices (response : option (gmap string Catalogue.info))
  : gmap string Q :=
  match response with
  | Some data => map_fold fetch_step ∅ data
  | None => ∅
  end.

(** ** Formatting helpers

    A string that is laid out on the terminal is the list of its code
    points, so that [len] counts the box-drawing characters as Python
    does. *)

Abbreviation text := (list N).

(** An ASCII literal. *)
Definition ascii_text (s : string) : text := Ascii.N_of_ascii <$> String.list_ascii_of_string s.

Module Glyph.
Definition space : N := 32.
Definition l : N := 108.
Definition r : N := 114.
Definition dash : N := 0x2500.
Definition bar : N := 0x2502.
Definition top_left : N := 0x250C.
Definition top_right : N := 0x2510.
Definition bottom_left : N := 0x2514.
Definition bottom_right : N := 0x2518.
Definition tee_right : N := 0x251C.
Definition tee_left : N := 0x2524.
Definition tee_down : N := 0x252C.
Definition tee_up : N := 0x2534.
Definition cross : N := 0x253C.
Definition round_left : N := 0x256D.
Definition round_right : N := 0x256E.
Definition full : N := 0x2588.
Definition light : N := 0x2591.
End Glyph.

(** [c * n] for a one-character string [c]: empty when [n ≤ 0]. *)
Definition times (c : N) (n : Z) : text := replicate (Z.to_nat n) c.

(** [s.ljust(w, fill)] and [s.rjust(w, fill)]. *)
Definition ljust (s : text) (w : Z) (fill : N) : text := s ++ times fill (w - Py.len s).
Definition rjust (s : text) (w : Z) (fill : N) : text := times fill (w - Py.len s) ++ s.

(** [sep.join(parts)]. *)
Fixpoint join (sep : text) (parts : list text) : text :=
  match parts with
  | [] => []
  | [part] => part
  | part :: parts' => part ++ sep ++ join sep parts'
  end.

(** [int(x)] on a float: truncation towards zero.  Where [x] is a product,
    it is the exact product here and the rounded one in Python, so the
    two integers can differ by one; the properties below state lengths
    and counts that do not depend on which of the two it is. *)
Definition float_to_int (x : Q) : Z := Z.quot (Qnum x) (Z.pos (Qden x)).

Definition bar (ratio : Q) (width : Z) : text :=
  let filled := float_to_int (ratio * inject_Z width) in
  times Glyph.full filled ++ times Glyph.light (width - filled).

Definition header (title : text) (width : Z) : text :=
  let pad := width - Py.len title - 4 in
  let left := pad / 2 in
  let right := pad - left in
  [Glyph.round_left] ++ times Glyph.dash left ++ ascii_text "  " ++ title
  ++ ascii_text "  " ++ times Glyph.dash right ++ [Glyph.round_right].

(** What a call of [print_table] has printed, and whether it returned or
    raised [IndexError]. *)
Inductive printed :=
| Finished (lines : list text)
| IndexError (lines : list text).

(** The loop [for i, cell in enumerate(row): widths[i] = max(widths[i],
    len(cell))], from index [i]; [None] when [widths[i]] is out of range. *)
Fixpoint widen (widths : list Z) (i : nat) (row : list text) : option (list Z) :=
  match row with
  | [] => Some widths
  | cell :: row' =>
      match widths !! i with
      | Some w => widen (<[i := Z.max w (Py.len cell)]> widths) (S i) row'
      | None => None
      end
  end.

(** [for row in rows], around the loop above. *)
Fixpoint widen_all (widths : list Z) (rows : list (list text)) : option (list Z) :=
  match rows with
  | [] => Some widths
  | row :: rows' =>
      match widen widths 0 row with
      | Some widths' => widen_all widths' rows'
      | None => None
      end
  end.

(** The loop of [fmt_row], from index [i]; [None] when [aligns[i]] or
    [widths[i]] is out of range. *)
Fixpoint fmt_cells (aligns : text) (widths : list Z) (i : nat) (cells : list text)
  : option (list text) :=
  match cells with
  | [] => Some []
  | cell :: cells' =>
      match aligns !! i, widths !! i with
      | Some a, Some w =>
          let part := if bool_decide (a = Glyph.r)
                      then rjust cell w Glyph.space
                      else ljust cell w Glyph.space in
          match fmt_cells aligns widths (S i) cells' with
          | Some parts => Some (part :: parts)
          | None => None
          end
      | _, _ => None
      end
  end.

Definition fmt_row (aligns : text) (widths : list Z) (cells : list text)
  : option text :=
  match fmt_cells aligns widths 0 cells with
  | Some parts =>
      Some (ascii_text "  " ++ [Glyph.bar] ++ ascii_text " "
            ++ join (ascii_text " " ++ [Glyph.bar] ++ ascii_text " ") parts
            ++ ascii_text " " ++ [Glyph.bar])
  | None => None
  end.

(** The three horizontal rules of a table. *)
Definition rule (left mid right : N) (widths : list Z) : text :=
  ascii_text "  " ++ [left; Glyph.dash]
  ++ join [Glyph.dash; mid; Glyph.dash] (times Glyph.dash <$> widths)
  ++ [Glyph.dash; right].

(** [for row, ann in zip(rows, annotations): print(fmt_row(row) + ann)],
    after the lines [out]. *)
Fixpoint print_rows (aligns : text) (widths : list Z)
    (pairs : list (list text * text)) (out : list text) : printed :=
  match pairs with
  | [] => Finished out
  | (row, ann) :: pairs' =>
      match fmt_row aligns widths row with
      | Some line => print_rows aligns widths pairs' (out ++ [line ++ ann])
      | None => IndexError out
      end
  end.

(** [annotations] is the empty list where the caller passes [None]. *)
Definition print_table (headers : list text) (rows : list (list text))
    (aligns : text) (annotations : list text) : printed :=
  match rows with
  | [] => Finished []
  | _ =>
      let cols := Py.len headers in
      let aligns := match aligns with [] => times Glyph.l cols | _ => aligns end in
      let aligns := ljust aligns cols Glyph.l in
      let annotations :=
        match annotations with [] => replicate (length rows) [] | _ => annotations end in
      match widen_all (Py.len <$> headers) rows with
      | None => IndexError []
      | Some widths =>
          let divider := rule Glyph.tee_right Glyph.cross Glyph.tee_left widths in
          let top := rule Glyph.top_left Glyph.tee_down Glyph.top_right widths in
          let bottom := rule Glyph.bottom_left Glyph.tee_up Glyph.bottom_right widths in
          match fmt_row aligns widths headers with
          | None => IndexError [top]
          | Some head =>
              match print_rows aligns widths (zip rows annotations)
                      [top; head; divider] with
              | Finished out => Finished (out ++ [bottom])
              | IndexError out => IndexError out
              end
          end
      end
  end.

(** ** Size buckets

    A line that [print_size_buckets] prints is kept as the values that it
    formats: the label of the bucket, its number of outputs, their mean
    ratio, the bytes saved and the number of wasted outputs. *)

Module BucketLine.
Record t := mk {
  label : string;
  n : Z;
  avg : Q;
  saved : Z;
  bad : Z
}.
End BucketLine.

Definition BUCKETS : list (Z * Z * string) :=
  [ (0, 512, "0B-512B"); (512, 1024, "512B-1KB"); (1024, 2048, "1KB-2KB");
    (2048, 4096, "2KB-4KB"); (4096, 65536, "4KB-64KB") ]%string.

(** [[c for c in compressed if lo <= c["orig"] < hi]]. *)
Definition in_bucket (lo hi : Z) (compressed : list Sample.t) : list Sample.t :=
  filter (λ c, lo ≤ Sample.orig c < hi) compressed.

(** One iteration of [for lo, hi, label in buckets]: [None] on [continue].
    [saved] is built from [int(size * ratio)], see [float_to_int]. *)
Definition bucket_line (compressed : list Sample.t) (b : Z * Z * string)
  : option BucketLine.t :=
  match in_bucket b.1.1 b.1.2 compressed with
  | [] => None
  | bucket =>
      Some (BucketLine.mk b.2
              (Py.len bucket)
              (Py.fmean (Sample.ratio <$> bucket))
              (Py.sum ((λ c, Sample.orig c - Sample.comp c) <$> bucket))
              (Py.sum ((λ _, 1)
                       <$> filter (λ c, Py.fge (Sample.ratio c) 0.9%Q) bucket)))
  end.

Definition print_size_buckets (stats : SizeStats.t) : list BucketLine.t :=
  match SizeStats.compressed_sizes stats, SizeStats.ratios stats with
  | [], _ | _, [] => []
  | sizes, ratios =>
      let compressed :=
        zip_with (λ size ratio,
                    Sample.mk size (float_to_int (inject_Z size * ratio)) ratio)
          sizes ratios in
      omap (bucket_line compressed) BUCKETS
  end.

(** ** The gateway toggle

    [claude-toggle-gateway.py] rewrites [~/.claude/settings.json].  The
    model works on the parsed settings: a JSON object whose values are
    either objects, which the script may update, or anything else. *)

Module Toggle.

Definition KEY : string := "ANTHROPIC_BASE_URL".
Definition VALUE : string := "http://localhost:18080".

Section Settings.

(** The JSON values, and the JSON string among them. *)
Variable json : Type.
Variable json_string : string → json.

Inductive setting :=
| Object (fields : gmap string json)
| Other (value : json).

Inductive message := Gateway_OFF | Gateway_ON.

(** The two files after a run, and what the run printed; [settings] is
    [None] and nothing is printed when the run raised [TypeError] before
    it rewrote the settings. *)
Record files := mk {
  backup : gmap string setting;
  settings : option (gmap string setting);
  said : option message
}.

Definition toggle (before : gmap string setting) : files :=
  match default (Object ∅) (before !! "env"%string) with
  | Object env =>
      if bool_decide (is_Some (env !! KEY))
      then mk before (Some (<["env"%string := Object (delete KEY env)]> before))
             (Some Gateway_OFF)
      else mk before
             (Some (<["env"%string := Object (<[KEY := json_string VALUE]> env)]> before))
             (Some Gateway_ON)
  | Other _ => mk before None None
  end.

End Settings.

Arguments Object {json} fields.
Arguments Other {json} value.
Arguments backup {json} f.
Arguments settings {json} f.
Arguments said {json} f.
Arguments toggle {json} json_string before.

End Toggle.

(** ** The statements of the specification, in its own words *)

(** The resolution order of the pricing resolver, step (2) and (3): the
    static keys in the order opus, sonnet, haiku, then the default. *)
Definition static_price (model : string) : Q :=
  if Py.str_in "opus" model then 15%Q
  else if Py.str_in "sonnet" model then 3%Q
  else if Py.str_in "haiku" model then 1%Q
  else 3%Q.

(** Step (1): the live table, when it is non-empty and has [model] as a
    key. *)
Definition price_resolution (live : gmap string Q) (model : string) : Q :=
  match live !! model with
  | Some price => if bool_decide (live ≠ ∅) then price else static_price model
  | None => static_price model
  end.

(** The tokens saved by the records of [model]: all of them, and the
    compressed ones only. *)
Definition model_saved (entries : list Entry.t) (model : string) : Z :=
  Py.sum ((λ m, get_int (Entry.tokens_saved m))
          <$> filter (λ m, is_message m ∧ model_key m = model) entries).

Definition model_saved_compressed (entries : list Entry.t) (model : string) : Z :=
  Py.sum ((λ m, get_int (Entry.tokens_saved m))
          <$> filter (λ m, is_message m ∧ compression_used m ∧ model_key m = model)
                entries).

(** What the per-model loop has added to [s] after the records [l] of one
    model. *)
Definition tally (l : list Entry.t) (s : ModelStats.t) : ModelStats.t :=
  ModelStats.mk (ModelStats.name s)
    (ModelStats.count s + Py.len l)
    (ModelStats.orig_tokens s + Py.sum ((λ m, get_int (Entry.original_tokens m)) <$> l))
    (ModelStats.saved_tokens s + Py.sum ((λ m, get_int (Entry.tokens_saved m)) <$> l))
    (ModelStats.money_saved s).

(** The data model's reading of [tokens_saved]: [0] when not compressed. *)
Definition passthrough_saves_nothing (entries : list Entry.t) : Prop :=
  Forall (λ m, is_message m → ¬ compression_used m →
               get_int (Entry.tokens_saved m) = 0) entries.

(** The compressed samples of the compression log: the records with
    status "compressed" and [original_bytes > 0], with their sizes and
    ratio. *)
Definition rec_orig (rec : Rec.t) : Z := get_int (Rec.original_bytes rec).

Definition rec_comp (rec : Rec.t) : Z :=
  get_int_or (Rec.compressed_bytes rec) (rec_orig rec).

Definition rec_ratio (rec : Rec.t) : Q := Py.truediv (rec_comp rec) (rec_orig rec).

Definition compressed_sample (rec : Rec.t) : Prop :=
  Rec.status rec = Some "compressed"%string ∧ 0 < rec_orig rec.

Definition compressed_samples (entries : list Rec.t) : list Rec.t :=
  filter compressed_sample entries.

(** The eligible set of a threshold, and its wasted and worthwhile parts. *)
Definition eligible_samples (entries : list Rec.t) (T : Z) : list Rec.t :=
  filter (λ rec, compressed_sample rec ∧ T ≤ rec_orig rec) entries.

Definition wasted_samples (entries : list Rec.t) (T : Z) : list Rec.t :=
  filter (λ rec, compressed_sample rec ∧ T ≤ rec_orig rec
                 ∧ Py.fge (rec_ratio rec) 0.9%Q) entries.

Definition worthwhile_samples (entries : list Rec.t) (T : Z) : list Rec.t :=
  filter (λ rec, compressed_sample rec ∧ T ≤ rec_orig rec
                 ∧ Py.flt (rec_ratio rec) 0.9%Q) entries.

(** One iteration of the sweep as a function of the threshold: [None] when
    the eligible list is empty. *)
Definition evaluate (live : gmap string Q) (data : list Sample.t) (threshold : Z)
  : option ThresholdResult.t :=
  match eligible_at data threshold with
  | [] => None
  | eligible => Some (threshold_result live eligible threshold)
  end.

(** Strictly increasing thresholds. *)
Definition ascending (thresholds : list ThresholdResult.t) : Prop :=
  StronglySorted (λ r r', ThresholdResult.threshold r < ThresholdResult.threshold r')
    thresholds.

(** The day of a request: [None] when it has no timestamp, or one that is
    not a date. *)
Definition stamp (m : Entry.t) : string := default ""%string (Entry.timestamp m).

Definition day (isodate : string → option string) (m : Entry.t) : option string :=
  if bool_decide (stamp m = ""%string) then None
  else isodate (Py.str_take 19 (stamp m)).


(** The dates of the log, the tokens of a date, and the totals of the
    active days. *)
Definition days (isodate : string → option string) (entries : list Entry.t)
  : list string :=
  remove_dups (omap (day isodate) (filter is_message entries)).

Definition day_total (isodate : string → option string) (entries : list Entry.t)
    (date : string) : Z :=
  Py.sum ((λ m, get_int (Entry.original_tokens m))
          <$> filter (λ m, is_message m ∧ day isodate m = Some date) entries).

Definition active_totals (isodate : string → option string) (entries : list Entry.t)
  : list Z :=
  filter (λ tokens, 0 < tokens) (day_total isodate entries <$> days isodate entries).


(** The records that the size analysis keeps, and the passthrough ones
    among them. *)
Definition retained (rec : Rec.t) : Prop := rec_orig rec ≠ 0.

Definition passthrough_sample (rec : Rec.t) : Prop :=
  rec_orig rec ≠ 0 ∧ Rec.status rec ≠ Some "compressed"%string.

(** The width of the lines of a table whose columns have the widths
    [widths]: the frame, the columns and the separators between them. *)
Definition table_width (widths : list Z) : Z :=
  6 + match widths with
      | [] => 0
      | _ => Py.sum widths + 3 * (Py.len widths - 1)
      end.

(** Every cell of [row] has a column, at least as wide as the cell. *)
Definition covers (widths : list Z) (row : list text) : Prop :=
  ∀ k cell, row !! k = Some cell → ∃ w, widths !! k = Some w ∧ Py.len cell ≤ w.

(** The widths [wider] are those of [widths], each one possibly enlarged. *)
Definition enlarges (widths wider : list Z) : Prop :=
  length wider = length widths
  ∧ ∀ j w, widths !! j = Some w → ∃ w', wider !! j = Some w' ∧ w ≤ w'.

(** [sum(f(v) for v in d.values())]. *)
Definition dict_sum {V} (f : V → Z) (d : gmap string V) : Z :=
  Py.sum (f <$> (map_to_list d).*2).

(** ** Sample logs *)

Module Samples.
Open Scope string_scope.

Definition request (model : string) (used : bool) (orig saved : N) (ts : string)
  : Entry.t :=
  Entry.mk (Some "/v1/messages") (Some model) (Some used) (Some orig) (Some saved)
    None None (Some ts).

(** The scenario of the specification: three requests of one model, two
    of them compressed; a fourth request on another endpoint. *)
Definition opus_log : list Entry.t :=
  [ request "claude-opus-4" true 200 100 "2025-01-31T10:20:30.120Z";
    request "claude-opus-4" false 200 0 "2025-01-31T23:59:59Z";
    request "claude-opus-4" true 200 50 "2025-02-01T00:00:00Z";
    Entry.mk (Some "/v1/models") None None None None None None None ].

(** What [analyze_tokens] returns on it, without a live price table. *)
Definition opus_model : ModelStats.t :=
  ModelStats.mk "claude-opus-4" 3 600 150 (money 150 15%Q).

Definition opus_stats : TokenStats.t :=
  TokenStats.mk 3 2 1 600 150 0 0 (Py.fsum [money 100 15%Q; money 50 15%Q])
    {[ "claude-opus-4" := opus_model ]}.

(** A passthrough request that still reports saved tokens. *)
Definition stray_log : list Entry.t :=
  [ request "claude-opus-4" false 200 7 "2025-01-31T10:20:30Z" ].

(** A request whose timestamp is not a date. *)
Definition broken_log : list Entry.t :=
  [ request "claude-opus-4" true 200 100 "2025-01-31T10:20:30Z";
    request "claude-opus-4" true 200 100 "yesterday" ].

(** A day without tokens next to two active days. *)
Definition idle_day_log : list Entry.t :=
  [ request "claude-opus-4" true 200 100 "2025-01-31T10:20:30Z";
    request "claude-haiku-4-5" false 0 0 "2025-02-01T08:00:00Z";
    request "claude-opus-4" false 300 0 "2025-02-02T09:00:00Z";
    request "claude-opus-4" false 50 0 "2025-01-31T12:00:00Z" ].

Definition compressed (orig comp : N) : Rec.t :=
  Rec.mk (Some "bash") (Some "compressed") (Some orig) (Some comp) (Some 512%N).

(** Six small outputs, six large ones that hardly shrink, one very large
    one that shrinks well. *)
Definition mixed_log : list Rec.t :=
  (replicate 6 (compressed 300 50) ++ replicate 6 (compressed 1000 990)
   ++ [compressed 5000 100])%list.

(** What [analyze_sizes] returns on it, without a live price table, and
    its results for the thresholds 256 and 1024. *)
Definition mixed_stats : SizeStats.t :=
  Eval vm_compute in default SizeStats_init (analyze_sizes ∅ mixed_log).

Definition mixed_at_256 : ThresholdResult.t :=
  Eval vm_compute in
    nth 0 (SizeStats.thresholds mixed_stats) (ThresholdResult.mk 0 0 0%Q 0 0 0%Q).

Definition mixed_at_1024 : ThresholdResult.t :=
  Eval vm_compute in
    nth 3 (SizeStats.thresholds mixed_stats) (ThresholdResult.mk 0 0 0%Q 0 0 0%Q).

(** The scenario of the specification: six outputs under 256 bytes and six
    that hardly shrink. *)
Definition wasteful_log : list Rec.t :=
  (replicate 6 (compressed 100 50) ++ replicate 6 (compressed 1000 990))%list.

(** Nine compressed outputs and a passthrough one. *)
Definition short_log : list Rec.t :=
  (replicate 9 (compressed 5000 100)
   ++ [Rec.mk (Some "bash") (Some "passthrough") (Some 9000%N) None (Some 512%N)])%list.

Definition short_stats : SizeStats.t :=
  Eval vm_compute in default SizeStats_init (analyze_sizes ∅ short_log).

End Samples.

(** ** Further samples *)

Module Fixtures.
Open Scope string_scope.

(** What [analyze_tokens] returns on the passthrough request that reports
    saved tokens. *)
Definition stray_stats : TokenStats.t :=
  Eval vm_compute in default Samples.opus_stats (analyze_tokens ∅ Samples.stray_log).

(** What [analyze_daily] returns on the log with an idle day. *)
Definition idle_day_stats : DailyStats.t :=
  Eval vm_compute in
    match analyze_daily IsoFormat.isodate Samples.idle_day_log with
    | Return (Some s) => s
    | _ => DailyStats.mk 0 0%Q 0 0 0%Q [] 0 0%Q 0 0 ∅
    end.

(** A log without an active day: its one request has a timestamp that is
    not a date. *)
Definition yesterday_log : list Entry.t :=
  [ Samples.request "claude-opus-4" true 200 100 "yesterday" ].

(** What [analyze_daily] returns on the three opus requests. *)
Definition opus_daily : option DailyStats.t :=
  Eval vm_compute in
    match analyze_daily IsoFormat.isodate Samples.opus_log with
    | Return r => r
    | Raise _ => None
    end.

(** A price catalogue: two models of the family, one of them free, a
    model of another family and an entry without an input price. *)
Definition catalogue : gmap string Catalogue.info :=
  {[ "claude-opus-4" := Catalogue.mk (Some (15 # 1000000)%Q);
     "claude-free" := Catalogue.mk (Some 0%Q);
     "gpt-4o" := Catalogue.mk (Some (5 # 1000000)%Q);
     "claude-embed" := Catalogue.mk None ]}.

(** A table of two columns, a row that fits it and a row with a third
    cell. *)
Definition headers : list text := [ascii_text "Tool"; ascii_text "Calls"].

Definition rows : list (list text) :=
  [ [ascii_text "bash"; ascii_text "12"]; [ascii_text "read_file"; ascii_text "3"] ].

Definition long_row : list text :=
  [ascii_text "bash"; ascii_text "12"; ascii_text "extra"].

(** Settings files, their JSON values kept as text: one without the
    gateway, one with it. *)
Definition direct : gmap string (Toggle.setting string) :=
  {[ "env" := Toggle.Object {[ "EDITOR" := "vi" ]};
     "model" := Toggle.Other "opus" ]}.

Definition proxied : gmap string (Toggle.setting string) :=
  {[ "env" := Toggle.Object {[ "EDITOR" := "vi"; Toggle.KEY := Toggle.VALUE ]};
     "model" := Toggle.Other "opus" ]}.

End Fixtures.

(** ** Properties *)

(** *** Sums and lengths *)

Lemma sum_shift (l : list Z) (a : Z) : foldl Z.add a l = a + Py.sum l.
Proof.
  unfold Py.sum. revert a.
  induction l as [|x l IH]; intros a; simpl; [lia|].
  rewrite (IH (a + x)), (IH (0 + x)). lia.
Qed.

Lemma sum_nil : Py.sum [] = 0.
Proof. reflexivity. Qed.

Lemma sum_cons (x : Z) (l : list Z) : Py.sum (x :: l) = x + Py.sum l.
Proof. unfold Py.sum at 1. simpl. apply sum_shift. Qed.

Lemma sum_permutation (l k : list Z) : l ≡ₚ k → Py.sum l = Py.sum k.
Proof.
  induction 1 as [|x l k _ IH|x y l|l k j _ IH1 _ IH2];
    rewrite ?sum_cons; try lia; congruence.
Qed.

Lemma sum_ones {A} (l : list A) : Py.sum ((λ _, 1) <$> l) = Py.len l.
Proof.
  unfold Py.len. induction l as [|x l IH]; [reflexivity|].
  rewrite fmap_cons, sum_cons, IH. simpl length. lia.
Qed.

Lemma sum_nonneg (l : list Z) : Forall (λ x, 0 ≤ x) l → 0 ≤ Py.sum l.
Proof.
  induction 1 as [|x l Hx _ IH]; [rewrite sum_nil; lia|].
  rewrite sum_cons. lia.
Qed.

Lemma len_cons {A} (x : A) (l : list A) : Py.len (x :: l) = 1 + Py.len l.
Proof. unfold Py.len. simpl length. lia. Qed.

Lemma len_permutation {A} (l k : list A) : l ≡ₚ k → Py.len l = Py.len k.
Proof. unfold Py.len. intros ->. reflexivity. Qed.

Lemma filter_nil_iff {A} (P : A → Prop) `{∀ x, Decision (P x)} (l : list A) :
  filter P l = [] ↔ Forall (λ x, ¬ P x) l.
Proof.
  induction l as [|x l IH]; [by split|].
  destruct (decide (P x)) as [Hx|Hx].
  - rewrite filter_cons_True by done. split; [done|].
    intros Hall. by apply Forall_cons in Hall as [? _].
  - rewrite filter_cons_False by done. rewrite IH, Forall_cons. tauto.
Qed.

Lemma filter_filter_and {A} (P R : A → Prop)
    `{∀ x, Decision (P x)} `{∀ x, Decision (R x)} (l : list A) :
  filter R (filter P l) = filter (λ x, P x ∧ R x) l.
Proof.
  induction l as [|x l IH]; [reflexivity|].
  destruct (decide (P x)) as [HP|HP].
  - rewrite (filter_cons_True P) by done.
    destruct (decide (R x)) as [HR|HR].
    + rewrite !filter_cons_True by done. by rewrite IH.
    + rewrite !filter_cons_False by tauto. done.
  - rewrite (filter_cons_False P) by done.
    rewrite filter_cons_False by tauto. done.
Qed.

Lemma get_int_nonneg (field : option N) : 0 ≤ get_int field.
Proof. destruct field; simpl; lia. Qed.

(** *** Pricing and token savings *)

Section TokenProperties.

Variable LIVE_PRICES : gmap string Q.

(** Case analysis on the static keys that occur in the model string. *)
Ltac case_keys :=
  repeat match goal with
         | |- context [Py.str_in ?key ?model] =>
             destruct (Py.str_in key model); try reflexivity
         end.

Lemma first_fallback_static (model : string) :
  first_fallback FALLBACK_PRICES model =
    if Py.str_in "opus" model then Some 15%Q
    else if Py.str_in "sonnet" model then Some 3%Q
    else if Py.str_in "haiku" model then Some 1%Q
    else None.
Proof.
  unfold FALLBACK_PRICES. simpl.
  case_keys.
Qed.

(** C5. For every model string, [get_price] returns the live table's value
    when the live table is non-empty and has the model as an exact key;
    otherwise the price of the first static key, in the order opus (15.0),
    sonnet (3.0), haiku (1.0), that is a substring of the model; otherwise
    the default 3.0. *)
Theorem get_price_resolution (model : string) :
  get_price LIVE_PRICES model = price_resolution LIVE_PRICES model.
Proof.
  unfold get_price, price_resolution, static_price.
  rewrite first_fallback_static.
  destruct (decide (LIVE_PRICES = ∅)) as [Hempty|Hfull].
  - rewrite Hempty, lookup_empty, bool_decide_eq_true_2 by reflexivity.
    case_keys.
  - rewrite (bool_decide_eq_false_2 _ Hfull).
    destruct (LIVE_PRICES !! model).
    + by rewrite bool_decide_eq_true_2.
    + case_keys.
Qed.

Lemma tally_cons (m : Entry.t) (l : list Entry.t) (s : ModelStats.t) :
  tally (m :: l) s =
    tally l (ModelStats.mk (ModelStats.name s) (ModelStats.count s + 1)
               (ModelStats.orig_tokens s + get_int (Entry.original_tokens m))
               (ModelStats.saved_tokens s + get_int (Entry.tokens_saved m))
               (ModelStats.money_saved s)).
Proof.
  unfold tally. rewrite !fmap_cons, !sum_cons, len_cons. simpl.
  f_equal; lia.
Qed.

Lemma tally_nil (s : ModelStats.t) : tally [] s = s.
Proof.
  destruct s. unfold tally. simpl. rewrite sum_nil. unfold Py.len. simpl.
  f_equal; lia.
Qed.

Lemma models_loop_lookup (msgs : list Entry.t) (acc : gmap string ModelStats.t)
    (k : string) :
  foldl models_step acc msgs !! k =
    match filter (λ m, model_key m = k) msgs with
    | [] => acc !! k
    | l => Some (tally l (default (ModelStats.init k) (acc !! k)))
    end.
Proof.
  revert acc. induction msgs as [|m msgs IH]; intros acc; [reflexivity|].
  simpl foldl. rewrite IH. unfold models_step.
  destruct (decide (model_key m = k)) as [Hk|Hk].
  - rewrite filter_cons_True by done. rewrite Hk, lookup_insert_eq.
    destruct (filter _ msgs) as [|m' l]; rewrite (tally_cons m); simpl default.
    + by rewrite tally_nil.
    + reflexivity.
  - rewrite filter_cons_False by done. rewrite lookup_insert_ne by done.
    reflexivity.
Qed.

Lemma models_lookup (msgs : list Entry.t) (k : string) :
  foldl models_step ∅ msgs !! k =
    match filter (λ m, model_key m = k) msgs with
    | [] => None
    | l => Some (tally l (ModelStats.init k))
    end.
Proof. rewrite models_loop_lookup, lookup_empty. reflexivity. Qed.

Lemma models_permutation (msgs msgs' : list Entry.t) :
  msgs ≡ₚ msgs' → foldl models_step ∅ msgs = foldl models_step ∅ msgs'.
Proof.
  intros Hperm. apply map_eq. intros k. rewrite !models_lookup.
  assert (Hf : filter (λ m, model_key m = k) msgs
               ≡ₚ filter (λ m, model_key m = k) msgs') by by rewrite Hperm.
  destruct (filter _ msgs) as [|m l], (filter _ msgs') as [|m' l'].
  - reflexivity.
  - by apply Permutation_nil_cons in Hf.
  - symmetry in Hf. by apply Permutation_nil_cons in Hf.
  - f_equal. unfold tally. f_equal.
    + f_equal. by apply len_permutation.
    + f_equal. apply sum_permutation. by rewrite Hf.
    + f_equal. apply sum_permutation. by rewrite Hf.
Qed.

Lemma filter_message_model (entries : list Entry.t) (k : string) :
  filter (λ m, model_key m = k) (filter is_message entries)
  = filter (λ m, is_message m ∧ model_key m = k) entries.
Proof.
  induction entries as [|e entries IH]; [reflexivity|].
  destruct (decide (is_message e)) as [He|He].
  - rewrite (filter_cons_True is_message) by done.
    destruct (decide (model_key e = k)) as [Hk|Hk].
    + rewrite !filter_cons_True by done. by rewrite IH.
    + rewrite !filter_cons_False by tauto. done.
  - rewrite (filter_cons_False is_message) by done.
    rewrite filter_cons_False by tauto. done.
Qed.

(** The models of the breakdown and their saved tokens. *)
Lemma analyze_tokens_model (entries : list Entry.t) (stats : TokenStats.t)
    (model : string) (s : ModelStats.t) :
  analyze_tokens LIVE_PRICES entries = Some stats →
  TokenStats.models stats !! model = Some s →
  ModelStats.name s = model
  ∧ ModelStats.saved_tokens s = model_saved entries model
  ∧ ModelStats.money_saved s
    = money (ModelStats.saved_tokens s) (get_price LIVE_PRICES model).
Proof.
  unfold analyze_tokens. intros Hstats Hs.
  destruct (filter is_message entries) as [|m0 msgs] eqn:Hmsgs; [done|].
  injection Hstats as <-. cbn [TokenStats.models] in Hs.
  change (foldl models_step (models_step ∅ m0) msgs)
    with (foldl models_step ∅ (m0 :: msgs)) in Hs.
  rewrite lookup_fmap, models_lookup, <- Hmsgs, filter_message_model in Hs.
  unfold model_saved. clear Hmsgs.
  destruct (filter (λ m, is_message m ∧ model_key m = model) entries) as [|m l];
    [done|].
  simpl in Hs. injection Hs as <-. simpl. repeat split; lia.
Qed.

Lemma compressed_saved (entries : list Entry.t) (model : string) :
  passthrough_saves_nothing entries →
  model_saved entries model = model_saved_compressed entries model.
Proof.
  unfold model_saved, model_saved_compressed.
  induction 1 as [|e entries He _ IH]; [reflexivity|].
  destruct (decide (is_message e ∧ model_key e = model)) as [[Hm Hk]|Hn].
  - rewrite (filter_cons_True (λ m, is_message m ∧ model_key m = model)) by done.
    rewrite fmap_cons, sum_cons, IH.
    destruct (decide (compression_used e)) as [Hc|Hc].
    + rewrite filter_cons_True by done. by rewrite fmap_cons, sum_cons.
    + rewrite filter_cons_False by tauto. rewrite He by done. lia.
  - rewrite !filter_cons_False by tauto. exact IH.
Qed.

(** C8. [analyze_tokens] returns the absent result exactly when no record
    has the path /v1/messages, and a [TokenStats] value as soon as one
    record matches; the result type has no error outcome. *)
Theorem analyze_tokens_absent_iff (entries : list Entry.t) :
  (analyze_tokens LIVE_PRICES entries = None
   ↔ Forall (λ e, Entry.path e ≠ Some "/v1/messages"%string) entries)
  ∧ (Exists (λ e, Entry.path e = Some "/v1/messages"%string) entries
     ↔ is_Some (analyze_tokens LIVE_PRICES entries)).
Proof.
  assert (Hnone : analyze_tokens LIVE_PRICES entries = None
                  ↔ Forall (λ e, ¬ is_message e) entries).
  { rewrite <- (filter_nil_iff is_message). unfold analyze_tokens.
    by destruct (filter is_message entries). }
  split; [exact Hnone|].
  rewrite <- not_eq_None_Some, Hnone, Forall_Exists_neg.
  split; [tauto|]. intros Hex.
  destruct (decide (Exists is_message entries)); tauto.
Qed.

(** C1. For every sequence of request records of the data model, in which
    a record that is not compressed carries [tokens_saved = 0], the
    per-model breakdown assigns each model a [money_saved] equal to the sum
    of [tokens_saved] over the compressed records of that model, divided
    by 1e6 and multiplied by the price of the model: priced once, on the
    model's total; and the breakdown is the same for every order of the
    records. *)
Theorem per_model_money (entries entries' : list Entry.t) (stats : TokenStats.t)
    (model : string) (s : ModelStats.t) :
  passthrough_saves_nothing entries →
  entries ≡ₚ entries' →
  analyze_tokens LIVE_PRICES entries = Some stats →
  TokenStats.models stats !! model = Some s →
  ModelStats.money_saved s
    = money (model_saved_compressed entries model) (get_price LIVE_PRICES model)
  ∧ ∃ stats', analyze_tokens LIVE_PRICES entries' = Some stats'
              ∧ TokenStats.models stats' = TokenStats.models stats.
Proof.
  intros Hmodel Hperm Hstats Hs.
  destruct (analyze_tokens_model _ _ _ _ Hstats Hs) as (_ & Hsaved & Hmoney).
  split; [by rewrite Hmoney, Hsaved, (compressed_saved _ _ Hmodel)|].
  assert (Hmsgs : filter is_message entries ≡ₚ filter is_message entries')
    by by rewrite Hperm.
  revert Hstats. unfold analyze_tokens.
  destruct (filter is_message entries) as [|m msgs] eqn:He; [done|].
  destruct (filter is_message entries') as [|m' msgs'] eqn:He'.
  { symmetry in Hmsgs. by apply Permutation_nil_cons in Hmsgs. }
  intros [= <-]. eexists. split; [reflexivity|].
  cbn [TokenStats.models]. f_equal.
  change (foldl models_step ∅ (m' :: msgs') = foldl models_step ∅ (m :: msgs)).
  symmetry. by apply models_permutation.
Qed.

End TokenProperties.

(** *** Sizes and thresholds *)

Lemma filter_omap_fmap {A B C} (f : A → option B)
    (P : B → Prop) `{∀ b, Decision (P b)} (R : A → Prop) `{∀ a, Decision (R a)}
    (g : B → C) (h : A → C) (l : list A) :
  (∀ a b, f a = Some b → (P b ↔ R a) ∧ g b = h a) →
  (∀ a, f a = None → ¬ R a) →
  g <$> filter P (omap f l) = h <$> filter R l.
Proof.
  intros Hsome Hnone. induction l as [|a l IH]; [reflexivity|].
  simpl omap. destruct (f a) as [b|] eqn:Hf.
  - destruct (Hsome a b Hf) as [HPR Hgh].
    destruct (decide (R a)) as [Ha|Ha].
    + rewrite !filter_cons_True by tauto. rewrite !fmap_cons. by f_equal.
    + rewrite !filter_cons_False by tauto. exact IH.
  - rewrite filter_cons_False by by apply Hnone. exact IH.
Qed.

Lemma len_filter_omap {A B} (f : A → option B)
    (P : B → Prop) `{∀ b, Decision (P b)} (R : A → Prop) `{∀ a, Decision (R a)}
    (l : list A) :
  (∀ a b, f a = Some b → (P b ↔ R a)) →
  (∀ a, f a = None → ¬ R a) →
  Py.len (filter P (omap f l)) = Py.len (filter R l).
Proof.
  intros Hsome Hnone. unfold Py.len. f_equal.
  rewrite <- (length_fmap (λ _, ()) (filter P _)), <- (length_fmap (λ _, ()) (filter R _)).
  f_equal. apply filter_omap_fmap; [|done].
  intros a b Hf. split; [by apply Hsome|done].
Qed.

Lemma length_filter_mono {A} (P R : A → Prop)
    `{∀ a, Decision (P a)} `{∀ a, Decision (R a)} (l : list A) :
  (∀ a, P a → R a) → (length (filter P l) ≤ length (filter R l))%nat.
Proof.
  intros HPR. induction l as [|a l IH]; [done|].
  destruct (decide (P a)) as [Ha|Ha].
  - rewrite !filter_cons_True by auto. simpl. lia.
  - rewrite (filter_cons_False P) by done.
    destruct (decide (R a)).
    + rewrite filter_cons_True by done. simpl. lia.
    + by rewrite filter_cons_False.
Qed.

(** The sample of a record, in terms of the record. *)
Lemma sample_of_Some (rec : Rec.t) (c : Sample.t) :
  sample_of rec = Some c →
  compressed_sample rec
  ∧ c = Sample.mk (rec_orig rec) (rec_comp rec) (rec_ratio rec).
Proof.
  unfold sample_of, compressed_sample, rec_ratio, rec_comp, rec_orig.
  pose proof (get_int_nonneg (Rec.original_bytes rec)).
  repeat case_bool_decide; simpl; try done.
  intros [= <-]. split; [|done]. split; [|lia].
  by destruct (decide (Rec.status rec = Some "compressed"%string)).
Qed.

Lemma sample_of_None (rec : Rec.t) : sample_of rec = None → ¬ compressed_sample rec.
Proof.
  unfold sample_of, compressed_sample, rec_orig.
  repeat case_bool_decide; simpl; try done; intros _ [? ?]; try done; lia.
Qed.

Lemma compressed_data_len (entries : list Rec.t) :
  Py.len (compressed_data entries) = Py.len (compressed_samples entries).
Proof.
  unfold compressed_data, compressed_samples.
  rewrite <- (len_filter_omap sample_of (λ _, True) compressed_sample).
  - f_equal. induction (omap sample_of entries) as [|c l IH]; [done|].
    rewrite filter_cons_True by done. by f_equal.
  - intros rec c Hc. by apply sample_of_Some in Hc as [? _].
  - apply sample_of_None.
Qed.

Lemma CANDIDATES_ascending : StronglySorted Z.lt CANDIDATES.
Proof. unfold CANDIDATES. repeat (constructor; [|repeat constructor; lia]). constructor. Qed.

Lemma CANDIDATES_large (T : Z) : T ∈ CANDIDATES → 256 ≤ T.
Proof. unfold CANDIDATES. rewrite !elem_of_cons, elem_of_nil. lia. Qed.

(** The loop that picks the sweet spot stops at the first result without
    waste. *)
Lemma find_sweet_spot_first (thresholds : list ThresholdResult.t) (unset : Z) :
  (Forall (λ r, ThresholdResult.wasted r ≠ 0) thresholds
   ∧ find_sweet_spot thresholds unset = unset)
  ∨ (∃ before r after,
        thresholds = before ++ r :: after
        ∧ Forall (λ r, ThresholdResult.wasted r ≠ 0) before
        ∧ ThresholdResult.wasted r = 0
        ∧ find_sweet_spot thresholds unset = ThresholdResult.threshold r).
Proof.
  induction thresholds as [|r rs IH]; [by left|].
  simpl. case_bool_decide as Hr.
  - right. by exists [], r, rs.
  - destruct IH as [[Hall Heq]|(before & r' & after & -> & Hall & Hr' & Heq)].
    + left. split; [by constructor|done].
    + right. exists (r :: before), r', after. repeat split; try done.
      by constructor.
Qed.

Section SizeProperties.

Variable LIVE_PRICES : gmap string Q.

Lemma sweep_thresholds (data : list Sample.t) (current : Z) (candidates : list Z)
    (thresholds : list ThresholdResult.t) (total : Z) :
  (sweep LIVE_PRICES data current candidates thresholds total).1
  = thresholds ++ omap (evaluate LIVE_PRICES data) candidates.
Proof.
  revert thresholds total.
  induction candidates as [|T candidates IH]; intros thresholds total; simpl.
  - by rewrite app_nil_r.
  - unfold evaluate at 1. destruct (eligible_at data T); rewrite IH; [done|].
    by rewrite <- app_assoc.
Qed.

Lemma evaluate_Some (data : list Sample.t) (T : Z) (r : ThresholdResult.t) :
  evaluate LIVE_PRICES data T = Some r →
  eligible_at data T ≠ []
  ∧ r = threshold_result LIVE_PRICES (eligible_at data T) T.
Proof.
  unfold evaluate. destruct (eligible_at data T); [done|]. by intros [= <-].
Qed.

Lemma evaluate_ascending (data : list Sample.t) (candidates : list Z) :
  StronglySorted Z.lt candidates →
  ascending (omap (evaluate LIVE_PRICES data) candidates).
Proof.
  unfold ascending.
  induction 1 as [|T candidates _ IH Hall]; simpl; [constructor|].
  destruct (evaluate LIVE_PRICES data T) as [r|] eqn:Hr; [|exact IH].
  constructor; [exact IH|].
  apply evaluate_Some in Hr as [_ ->].
  rewrite Forall_forall. intros r' Hr'.
  apply list_elem_of_omap in Hr' as (T' & HT' & Hr').
  apply evaluate_Some in Hr' as [_ ->]. simpl.
  rewrite Forall_forall in Hall. by apply Hall.
Qed.

(** What [analyze_sizes] returns for the threshold analysis. *)
Lemma analyze_sizes_thresholds (entries : list Rec.t) (stats : SizeStats.t) :
  analyze_sizes LIVE_PRICES entries = Some stats →
  SizeStats.thresholds stats
  = (if bool_decide (10 ≤ Py.len (compressed_data entries))
     then omap (evaluate LIVE_PRICES (compressed_data entries)) CANDIDATES
     else [])
  ∧ SizeStats.sweet_spot stats = find_sweet_spot (SizeStats.thresholds stats) 0
  ∧ (¬ 10 ≤ Py.len (compressed_data entries) →
     SizeStats.compression_cost stats = 0%Q).
Proof.
  unfold analyze_sizes. destruct entries as [|rec entries]; [done|].
  destruct (SizeStats.all_sizes _); [done|].
  case_bool_decide as Hlen.
  - pose proof (sweep_thresholds (compressed_data (rec :: entries))
                  (last_threshold (reverse (rec :: entries)) 0) CANDIDATES [] 0) as Hths.
    destruct (sweep _ _ _ _ _ _) as [ths total]. simpl in Hths. subst ths.
    intros [= <-]. by cbn [SizeStats.thresholds SizeStats.sweet_spot].
  - intros [= <-]. by cbn.
Qed.

(** Every recorded result is the evaluation of a candidate threshold whose
    eligible list is not empty. *)
Lemma recorded (entries : list Rec.t) (stats : SizeStats.t) (r : ThresholdResult.t) :
  analyze_sizes LIVE_PRICES entries = Some stats →
  r ∈ SizeStats.thresholds stats →
  ThresholdResult.threshold r ∈ CANDIDATES
  ∧ eligible_at (compressed_data entries) (ThresholdResult.threshold r) ≠ []
  ∧ r = threshold_result LIVE_PRICES
          (eligible_at (compressed_data entries) (ThresholdResult.threshold r))
          (ThresholdResult.threshold r).
Proof.
  intros Hstats Hr. apply analyze_sizes_thresholds in Hstats as (Hths & _ & _).
  rewrite Hths in Hr. case_bool_decide; [|by apply elem_of_nil in Hr].
  apply list_elem_of_omap in Hr as (T & HT & Hr).
  apply evaluate_Some in Hr as [Hne Hr].
  assert (ThresholdResult.threshold r = T) as -> by by rewrite Hr.
  done.
Qed.

Lemma thresholds_ascending (entries : list Rec.t) (stats : SizeStats.t) :
  analyze_sizes LIVE_PRICES entries = Some stats →
  ascending (SizeStats.thresholds stats).
Proof.
  intros Hstats. apply analyze_sizes_thresholds in Hstats as (-> & _ & _).
  case_bool_decide; [|constructor].
  apply evaluate_ascending, CANDIDATES_ascending.
Qed.

(** The fields of a result, in terms of the records of the log. *)
Lemma eligible_len (entries : list Rec.t) (T : Z) :
  Py.len (eligible_at (compressed_data entries) T)
  = Py.len (eligible_samples entries T).
Proof.
  unfold eligible_at, compressed_data, eligible_samples.
  apply len_filter_omap.
  - intros rec c Hc. apply sample_of_Some in Hc as [Hrec ->]. simpl. tauto.
  - intros rec Hc [Hrec _]. by apply sample_of_None in Hc.
Qed.

Lemma eligible_nonempty (entries : list Rec.t) (T : Z) :
  eligible_at (compressed_data entries) T ≠ [] ↔ eligible_samples entries T ≠ [].
Proof.
  pose proof (eligible_len entries T) as Hlen. unfold Py.len in Hlen.
  destruct (eligible_at _ T), (eligible_samples entries T); simpl in Hlen;
    split; (done || lia).
Qed.

Lemma result_wasted (entries : list Rec.t) (T : Z) :
  ThresholdResult.wasted
    (threshold_result LIVE_PRICES (eligible_at (compressed_data entries) T) T)
  = Py.len (wasted_samples entries T).
Proof.
  cbn [threshold_result ThresholdResult.wasted]. rewrite sum_ones.
  unfold eligible_at, compressed_data, wasted_samples.
  rewrite list_filter_filter. apply len_filter_omap.
  - intros rec c Hc. apply sample_of_Some in Hc as [Hrec ->]. simpl. tauto.
  - intros rec Hc [Hrec _]. by apply sample_of_None in Hc.
Qed.

Lemma result_saved (entries : list Rec.t) (T : Z) :
  ThresholdResult.saved
    (threshold_result LIVE_PRICES (eligible_at (compressed_data entries) T) T)
  = Py.sum ((λ rec, rec_orig rec - rec_comp rec) <$> worthwhile_samples entries T).
Proof.
  cbn [threshold_result ThresholdResult.saved]. f_equal.
  unfold eligible_at, compressed_data, worthwhile_samples.
  rewrite list_filter_filter. apply filter_omap_fmap.
  - intros rec c Hc. apply sample_of_Some in Hc as [Hrec ->]. simpl. tauto.
  - intros rec Hc [Hrec _]. by apply sample_of_None in Hc.
Qed.

Lemma result_calls (entries : list Rec.t) (T : Z) :
  ThresholdResult.calls
    (threshold_result LIVE_PRICES (eligible_at (compressed_data entries) T) T)
  = Py.len (eligible_samples entries T).
Proof. cbn [threshold_result ThresholdResult.calls]. apply eligible_len. Qed.

(** A ratio under 0.9 means that the output shrank. *)
Lemma ratio_below (comp orig : Z) :
  0 < orig → Py.flt (Py.truediv comp orig) 0.9%Q = true → comp < orig.
Proof.
  intros Horig Hlt. unfold Py.flt in Hlt. apply negb_true_iff in Hlt.
  destruct (decide (comp < orig)) as [|Hge]; [done|]. exfalso.
  assert (Hle : Qle_bool 0.9%Q (Py.truediv comp orig) = true); [|congruence].
  apply Qle_bool_iff. unfold Py.truediv. apply Qle_shift_div_l.
  - unfold Qlt. simpl. lia.
  - unfold Qle. simpl. lia.
Qed.

(** C2. Whenever the threshold sweep runs, the sweet spot is the smallest
    evaluated threshold without waste: either it is left unset (0) and every
    recorded result has waste, or it is the threshold of a recorded result
    with [wasted = 0] and every recorded result with a strictly smaller
    threshold has waste. *)
Theorem sweet_spot_smallest (entries : list Rec.t) (stats : SizeStats.t) :
  analyze_sizes LIVE_PRICES entries = Some stats →
  10 ≤ Py.len (compressed_samples entries) →
  (SizeStats.sweet_spot stats = 0
   ∧ Forall (λ r, ThresholdResult.wasted r ≠ 0) (SizeStats.thresholds stats))
  ∨ (SizeStats.sweet_spot stats ≠ 0
     ∧ ∃ r, r ∈ SizeStats.thresholds stats
            ∧ ThresholdResult.threshold r = SizeStats.sweet_spot stats
            ∧ ThresholdResult.wasted r = 0
            ∧ ∀ r', r' ∈ SizeStats.thresholds stats →
                    ThresholdResult.threshold r' < SizeStats.sweet_spot stats →
                    ThresholdResult.wasted r' ≠ 0).
Proof.
  intros Hstats _.
  pose proof (thresholds_ascending _ _ Hstats) as Hasc.
  pose proof (λ r, recorded entries stats r Hstats) as Hrec.
  apply analyze_sizes_thresholds in Hstats as (_ & -> & _).
  destruct (find_sweet_spot_first (SizeStats.thresholds stats) 0)
    as [[Hall ->]|(before & r & after & Hths & Hall & Hr & ->)]; [by left|].
  right. rewrite Hths in Hasc, Hrec |- *.
  assert (Hin : r ∈ before ++ r :: after) by (rewrite elem_of_app, elem_of_cons; auto).
  split.
  { destruct (Hrec r Hin) as (HT%CANDIDATES_large & _). lia. }
  exists r. repeat split; try done.
  intros r' Hr' Hsmall.
  apply elem_of_app in Hr' as [Hr'|Hr'].
  { rewrite Forall_forall in Hall. by apply Hall. }
  apply elem_of_cons in Hr' as [->|Hr']; [lia|].
  apply StronglySorted_app_1_r, StronglySorted_inv in Hasc as [_ Hafter].
  rewrite Forall_forall in Hafter. specialize (Hafter r' Hr'). simpl in Hafter. lia.
Qed.

(** C3. When the sweep runs, every candidate threshold whose eligible set
    is not empty is recorded, and every recorded result for a threshold [T]
    has [wasted] equal to the number of compressed samples with [orig ≥ T]
    and ratio [≥ 0.9], and [saved] equal to the sum of [orig - comp] over the
    compressed samples with [orig ≥ T] and ratio [< 0.9]. *)
Theorem threshold_wasted_saved (entries : list Rec.t) (stats : SizeStats.t) :
  analyze_sizes LIVE_PRICES entries = Some stats →
  10 ≤ Py.len (compressed_samples entries) →
  (∀ T, T ∈ CANDIDATES → eligible_samples entries T ≠ [] →
        ∃ r, r ∈ SizeStats.thresholds stats ∧ ThresholdResult.threshold r = T)
  ∧ (∀ r, r ∈ SizeStats.thresholds stats →
          let T := ThresholdResult.threshold r in
          T ∈ CANDIDATES
          ∧ eligible_samples entries T ≠ []
          ∧ ThresholdResult.wasted r = Py.len (wasted_samples entries T)
          ∧ ThresholdResult.saved r
            = Py.sum ((λ rec, rec_orig rec - rec_comp rec)
                      <$> worthwhile_samples entries T)).
Proof.
  intros Hstats Hruns. split.
  - intros T HT Hne. apply analyze_sizes_thresholds in Hstats as (-> & _ & _).
    rewrite compressed_data_len, bool_decide_eq_true_2 by done.
    apply eligible_nonempty in Hne.
    exists (threshold_result LIVE_PRICES (eligible_at (compressed_data entries) T) T).
    split; [|done]. apply list_elem_of_omap. exists T. split; [done|].
    unfold evaluate. by destruct (eligible_at (compressed_data entries) T).
  - intros r Hr T. destruct (recorded _ _ _ Hstats Hr) as (HT & Hne & Heq).
    fold T in HT, Hne, Heq. repeat split.
    + done.
    + by apply eligible_nonempty.
    + rewrite Heq. apply result_wasted.
    + rewrite Heq. apply result_saved.
Qed.

(** C4. With fewer than 10 compressed samples the threshold analysis is
    skipped: no result is recorded, the sweet spot is 0 and the compression
    cost is 0. *)
Theorem few_samples_skip (entries : list Rec.t) (stats : SizeStats.t) :
  analyze_sizes LIVE_PRICES entries = Some stats →
  Py.len (compressed_samples entries) < 10 →
  SizeStats.thresholds stats = []
  ∧ SizeStats.sweet_spot stats = 0
  ∧ SizeStats.compression_cost stats = 0%Q.
Proof.
  intros Hstats Hfew.
  apply analyze_sizes_thresholds in Hstats as (Hths & Hsweet & Hcost).
  rewrite compressed_data_len in Hths, Hcost.
  rewrite bool_decide_eq_false_2 in Hths by lia.
  rewrite Hsweet, Hths. repeat split. apply Hcost. lia.
Qed.

(** C6. When the sweep runs, the [calls] of a recorded result is the number
    of eligible samples of its threshold, and of two recorded results the
    one with the larger threshold has at most as many calls. *)
Theorem calls_antitone (entries : list Rec.t) (stats : SizeStats.t)
    (r1 r2 : ThresholdResult.t) :
  analyze_sizes LIVE_PRICES entries = Some stats →
  10 ≤ Py.len (compressed_samples entries) →
  r1 ∈ SizeStats.thresholds stats →
  r2 ∈ SizeStats.thresholds stats →
  ThresholdResult.threshold r1 < ThresholdResult.threshold r2 →
  ThresholdResult.calls r1
    = Py.len (eligible_samples entries (ThresholdResult.threshold r1))
  ∧ ThresholdResult.calls r2
    = Py.len (eligible_samples entries (ThresholdResult.threshold r2))
  ∧ ThresholdResult.calls r2 ≤ ThresholdResult.calls r1.
Proof.
  intros Hstats _ Hr1 Hr2 Hlt.
  destruct (recorded _ _ _ Hstats Hr1) as (_ & _ & Heq1).
  destruct (recorded _ _ _ Hstats Hr2) as (_ & _ & Heq2).
  assert (Hc1 : ThresholdResult.calls r1
                = Py.len (eligible_samples entries (ThresholdResult.threshold r1)))
    by (rewrite Heq1 at 1; apply result_calls).
  assert (Hc2 : ThresholdResult.calls r2
                = Py.len (eligible_samples entries (ThresholdResult.threshold r2)))
    by (rewrite Heq2 at 1; apply result_calls).
  repeat split; try done.
  rewrite Hc1, Hc2. unfold Py.len, eligible_samples.
  apply inj_le, length_filter_mono. intros rec [? ?]. split; [done|lia].
Qed.

(** C10. The recorded results are in strictly increasing order of
    threshold, and each of them has [calls ≥ 1] and [saved ≥ 0], [saved]
    being a sum of strictly positive contributions. *)
Theorem thresholds_invariant (entries : list Rec.t) (stats : SizeStats.t) :
  analyze_sizes LIVE_PRICES entries = Some stats →
  ascending (SizeStats.thresholds stats)
  ∧ ∀ r, r ∈ SizeStats.thresholds stats →
         let contributions :=
           (λ rec, rec_orig rec - rec_comp rec)
           <$> worthwhile_samples entries (ThresholdResult.threshold r) in
         1 ≤ ThresholdResult.calls r
         ∧ 0 ≤ ThresholdResult.saved r
         ∧ ThresholdResult.saved r = Py.sum contributions
         ∧ Forall (λ x, 0 < x) contributions.
Proof.
  intros Hstats. split; [by eapply thresholds_ascending|].
  intros r Hr contributions.
  destruct (recorded _ _ _ Hstats Hr) as (_ & Hne & Heq).
  assert (Hpos : Forall (λ x, 0 < x) contributions).
  { subst contributions. rewrite Forall_fmap, Forall_forall.
    intros rec Hrec. unfold worthwhile_samples in Hrec.
    apply list_elem_of_filter in Hrec as [([_ Horig] & _ & Hratio) _].
    apply Is_true_true in Hratio. unfold rec_ratio in Hratio.
    apply ratio_below in Hratio; [simpl; lia|done]. }
  assert (Hsaved : ThresholdResult.saved r = Py.sum contributions)
    by (rewrite Heq at 1; apply result_saved).
  repeat split; try done.
  - rewrite Heq. cbn [threshold_result ThresholdResult.calls].
    unfold Py.len. destruct (eligible_at _ _); [done|]. simpl length. lia.
  - rewrite Hsaved. apply sum_nonneg.
    eapply Forall_impl; [exact Hpos|]. simpl. lia.
Qed.

End SizeProperties.

(** *** Daily usage *)

Lemma min_of_least (l : list Z) (x : Z) :
  Py.min_of x l ∈ x :: l ∧ Forall (λ y, Py.min_of x l ≤ y) (x :: l).
Proof.
  unfold Py.min_of. revert x. induction l as [|y l IH]; intros x; simpl.
  - split; [by apply elem_of_cons; left|]. repeat constructor. lia.
  - destruct (IH (Z.min x y)) as [Hin Hall].
    apply Forall_cons in Hall as [Hxy Hall]. split.
    + rewrite !elem_of_cons. apply elem_of_cons in Hin as [Hin|Hin]; [|tauto].
      rewrite Hin. destruct (Z.min_spec x y) as [[_ ->]|[_ ->]]; tauto.
    + repeat constructor; [lia..|done].
Qed.

Lemma max_of_greatest (l : list Z) (x : Z) :
  Py.max_of x l ∈ x :: l ∧ Forall (λ y, y ≤ Py.max_of x l) (x :: l).
Proof.
  unfold Py.max_of. revert x. induction l as [|y l IH]; intros x; simpl.
  - split; [by apply elem_of_cons; left|]. repeat constructor. lia.
  - destruct (IH (Z.max x y)) as [Hin Hall].
    apply Forall_cons in Hall as [Hxy Hall]. split.
    + rewrite !elem_of_cons. apply elem_of_cons in Hin as [Hin|Hin]; [|tauto].
      rewrite Hin. destruct (Z.max_spec x y) as [[_ ->]|[_ ->]]; tauto.
    + repeat constructor; [lia..|done].
Qed.




Section DailyProperties.

Variable isodate : string → option string.


Lemma daily_loop_raises (msgs : list Entry.t) (acc : gmap string Z) :
  Exists (λ m, stamp m ≠ ""%string ∧ isodate (Py.str_take 19 (stamp m)) = None) msgs →
  daily_loop isodate acc msgs = Raise ValueError.
Proof.
  intros Hex. revert acc.
  induction msgs as [|m msgs IH]; intros acc; [by apply Exists_nil in Hex|].
  simpl daily_loop. fold (stamp m).
  apply Exists_cons in Hex as [[Hts Hbad]|Hex].
  - by rewrite bool_decide_eq_false_2, Hbad.
  - case_bool_decide; [by apply IH|].
    destruct (isodate _); [by apply IH|done].
Qed.





(** C9. A /v1/messages record with a non-empty timestamp whose first 19
    characters are not a date makes [analyze_daily] raise: the daily
    aggregation returns no result on a log that contains one. *)
Theorem analyze_daily_raises (entries : list Entry.t) (m : Entry.t) :
  m ∈ entries →
  Entry.path m = Some "/v1/messages"%string →
  stamp m ≠ ""%string →
  isodate (Py.str_take 19 (stamp m)) = None →
  analyze_daily isodate entries = Raise ValueError.
Proof.
  intros Hin Hmsg Hts Hbad.
  assert (Hm : m ∈ filter is_message entries) by by apply list_elem_of_filter.
  unfold analyze_daily. rewrite daily_loop_raises.
  - destruct (filter is_message entries); [by apply elem_of_nil in Hm|done].
  - apply Exists_exists. by exists m.
Qed.

End DailyProperties.

(** ** Further properties of the analysis *)

(** *** Totals over a dict *)

Lemma dict_sum_empty {V} (f : V → Z) : dict_sum f (∅ : gmap string V) = 0.
Proof. unfold dict_sum. by rewrite map_to_list_empty. Qed.

Lemma dict_sum_insert_fresh {V} (f : V → Z) (d : gmap string V) (k : string) (v : V) :
  d !! k = None → dict_sum f (<[k := v]> d) = f v + dict_sum f d.
Proof.
  intros Hk. unfold dict_sum.
  rewrite (sum_permutation _ (f <$> ((k, v) :: map_to_list d).*2)).
  - by rewrite !fmap_cons, sum_cons.
  - by rewrite (map_to_list_insert d k v Hk).
Qed.

(** An assignment [d[k] = v] replaces the share of [k] in the total. *)
Lemma dict_sum_insert {V} (f : V → Z) (d : gmap string V) (k : string) (v : V) :
  dict_sum f (<[k := v]> d) = dict_sum f d - from_option f 0 (d !! k) + f v.
Proof.
  destruct (d !! k) as [x|] eqn:Hk; simpl.
  - rewrite <- (insert_delete_eq d k v).
    rewrite <- (insert_delete_id d k x Hk) at 2.
    rewrite !dict_sum_insert_fresh by apply lookup_delete_eq. lia.
  - rewrite dict_sum_insert_fresh by done. lia.
Qed.

Lemma dict_sum_fmap {V W} (f : W → Z) (g : V → W) (d : gmap string V) :
  dict_sum f (g <$> d) = dict_sum (f ∘ g) d.
Proof.
  unfold dict_sum. rewrite map_to_list_fmap. f_equal.
  rewrite <- !list_fmap_compose. by apply list_fmap_ext; intros ? [??].
Qed.

(** *** Token savings: totals and breakdown *)

Lemma sum_append (l k : list Z) : Py.sum (l ++ k) = Py.sum l + Py.sum k.
Proof.
  induction l as [|x l IH]; simpl; [rewrite sum_nil; lia|].
  rewrite !sum_cons, IH. lia.
Qed.

(** A list splits into the elements that satisfy a test and the others. *)
Lemma len_filter_split {A} (P : A → Prop) `{∀ x, Decision (P x)} (l : list A) :
  Py.len l = Py.len (filter P l) + Py.len (filter (λ x, ¬ P x) l).
Proof.
  unfold Py.len. rewrite <- Nat2Z.inj_add, <- length_app.
  by rewrite (filter_app_complement P l).
Qed.

Lemma sum_filter_split {A} (P : A → Prop) `{∀ x, Decision (P x)}
    (g : A → Z) (l : list A) :
  Py.sum (g <$> l)
  = Py.sum (g <$> filter P l) + Py.sum (g <$> filter (λ x, ¬ P x) l).
Proof.
  rewrite <- sum_append, <- fmap_app. apply sum_permutation.
  by rewrite (filter_app_complement P l).
Qed.

(** The per-model loop adds to the total of a counter what each message
    adds to the counter of its model. *)
Lemma models_loop_total (f : ModelStats.t → Z) (g : Entry.t → Z) :
  (∀ k, f (ModelStats.init k) = 0) →
  (∀ s m, f (ModelStats.mk (ModelStats.name s) (ModelStats.count s + 1)
               (ModelStats.orig_tokens s + get_int (Entry.original_tokens m))
               (ModelStats.saved_tokens s + get_int (Entry.tokens_saved m))
               (ModelStats.money_saved s)) = f s + g m) →
  ∀ msgs acc,
    dict_sum f (foldl models_step acc msgs) = dict_sum f acc + Py.sum (g <$> msgs).
Proof.
  intros Hinit Hstep msgs.
  induction msgs as [|m msgs IH]; intros acc; simpl foldl.
  - rewrite fmap_nil, sum_nil. lia.
  - rewrite IH, fmap_cons, sum_cons. unfold models_step.
    rewrite dict_sum_insert, Hstep.
    destruct (acc !! model_key m); simpl; [lia|]. rewrite Hinit. lia.
Qed.

Section TokenTotals.

Variable LIVE_PRICES : gmap string Q.

(** The fields of the result, in terms of the matching records. *)
Lemma analyze_tokens_fields (entries : list Entry.t) (stats : TokenStats.t) :
  analyze_tokens LIVE_PRICES entries = Some stats →
  let msgs := filter is_message entries in
  msgs ≠ []
  ∧ TokenStats.total_requests stats = Py.len msgs
  ∧ TokenStats.compressed_requests stats = Py.len (filter compression_used msgs)
  ∧ TokenStats.passthrough_requests stats
    = Py.len (filter (λ m, ¬ compression_used m) msgs)
  ∧ TokenStats.total_orig_tokens stats
    = Py.sum ((λ m, get_int (Entry.original_tokens m)) <$> msgs)
  ∧ TokenStats.total_saved_tokens stats
    = Py.sum ((λ m, get_int (Entry.tokens_saved m)) <$> filter compression_used msgs)
  ∧ TokenStats.models stats
    = price_model LIVE_PRICES <$> foldl models_step ∅ msgs.
Proof.
  unfold analyze_tokens.
  destruct (filter is_message entries) as [|m msgs] eqn:Hmsgs; [done|].
  by intros [= <-].
Qed.

(** X1. Every request is counted once, as compressed or as passthrough. *)
Theorem requests_partition (entries : list Entry.t) (stats : TokenStats.t) :
  analyze_tokens LIVE_PRICES entries = Some stats →
  TokenStats.total_requests stats
  = TokenStats.compressed_requests stats + TokenStats.passthrough_requests stats
  ∧ 1 ≤ TokenStats.total_requests stats
  ∧ 0 ≤ TokenStats.compressed_requests stats
  ∧ 0 ≤ TokenStats.passthrough_requests stats.
Proof.
  intros Hstats.
  destruct (analyze_tokens_fields _ _ Hstats) as (Hne & -> & -> & -> & _).
  split; [apply (len_filter_split compression_used)|].
  destruct (filter is_message entries); [done|].
  unfold Py.len. simpl length. lia.
Qed.

(** X2. The counts and the original tokens of the per-model breakdown add up to
    the totals of the report. *)
Theorem breakdown_totals (entries : list Entry.t) (stats : TokenStats.t) :
  analyze_tokens LIVE_PRICES entries = Some stats →
  dict_sum ModelStats.count (TokenStats.models stats) = TokenStats.total_requests stats
  ∧ dict_sum ModelStats.orig_tokens (TokenStats.models stats)
    = TokenStats.total_orig_tokens stats.
Proof.
  intros Hstats.
  destruct (analyze_tokens_fields _ _ Hstats) as (_ & -> & _ & _ & -> & _ & ->).
  rewrite !dict_sum_fmap. split.
  - rewrite (models_loop_total _ (λ _, 1)); [|done|intros; simpl; lia].
    by rewrite dict_sum_empty, sum_ones.
  - rewrite (models_loop_total _ (λ m, get_int (Entry.original_tokens m)));
      [|done|intros; simpl; lia].
    by rewrite dict_sum_empty.
Qed.

Lemma stray_savings (entries : list Entry.t) :
  passthrough_saves_nothing entries →
  Py.sum ((λ m, get_int (Entry.tokens_saved m))
          <$> filter (λ m, ¬ compression_used m) (filter is_message entries)) = 0.
Proof.
  unfold passthrough_saves_nothing.
  induction 1 as [|e entries He _ IH]; [done|].
  destruct (decide (is_message e)) as [Hmsg|Hmsg].
  - rewrite (filter_cons_True is_message) by done.
    destruct (decide (compression_used e)) as [Hc|Hc].
    + rewrite filter_cons_False by tauto. exact IH.
    + rewrite filter_cons_True by done.
      rewrite fmap_cons, sum_cons, He, IH by done. lia.
  - rewrite (filter_cons_False is_message) by done. exact IH.
Qed.

(** X3. The saved tokens of the breakdown exceed the total of the report by
    the tokens that passthrough requests report as saved; the two agree
    when passthrough requests report none. *)
Theorem breakdown_saved (entries : list Entry.t) (stats : TokenStats.t) :
  analyze_tokens LIVE_PRICES entries = Some stats →
  dict_sum ModelStats.saved_tokens (TokenStats.models stats)
  = TokenStats.total_saved_tokens stats
    + Py.sum ((λ m, get_int (Entry.tokens_saved m))
              <$> filter (λ m, ¬ compression_used m) (filter is_message entries))
  ∧ TokenStats.total_saved_tokens stats
    ≤ dict_sum ModelStats.saved_tokens (TokenStats.models stats)
  ∧ (passthrough_saves_nothing entries →
     dict_sum ModelStats.saved_tokens (TokenStats.models stats)
     = TokenStats.total_saved_tokens stats).
Proof.
  intros Hstats.
  destruct (analyze_tokens_fields _ _ Hstats) as (_ & _ & _ & _ & _ & -> & ->).
  pose proof (stray_savings entries) as Hnone.
  set (stray := Py.sum ((λ m, get_int (Entry.tokens_saved m))
                        <$> filter (λ m, ¬ compression_used m)
                              (filter is_message entries))) in *.
  assert (Hstray : 0 ≤ stray).
  { apply sum_nonneg, Forall_fmap, Forall_forall. intros m _. apply get_int_nonneg. }
  assert (Hsum : dict_sum ModelStats.saved_tokens
                   (price_model LIVE_PRICES
                    <$> foldl models_step ∅ (filter is_message entries))
                 = Py.sum ((λ m, get_int (Entry.tokens_saved m))
                           <$> filter compression_used (filter is_message entries))
                   + stray).
  { rewrite dict_sum_fmap.
    rewrite (models_loop_total _ (λ m, get_int (Entry.tokens_saved m)));
      [|done|intros; simpl; lia].
    rewrite dict_sum_empty. subst stray.
    rewrite (sum_filter_split compression_used _ (filter is_message entries)). lia. }
  split; [exact Hsum|]. split; [lia|].
  intros Hall. rewrite Hsum, (Hnone Hall). lia.
Qed.

(** X4. The breakdown has one entry for each model of a matching request, and
    no other: the entry carries the model as its name, counts at least one
    request, and totals the original tokens of the requests of the model. *)
Theorem breakdown_entries (entries : list Entry.t) (stats : TokenStats.t)
    (model : string) :
  analyze_tokens LIVE_PRICES entries = Some stats →
  let requests := filter (λ m, is_message m ∧ model_key m = model) entries in
  (requests = [] → TokenStats.models stats !! model = None)
  ∧ (requests ≠ [] →
     ∃ s, TokenStats.models stats !! model = Some s
          ∧ ModelStats.name s = model
          ∧ ModelStats.count s = Py.len requests
          ∧ 1 ≤ ModelStats.count s
          ∧ ModelStats.orig_tokens s
            = Py.sum ((λ m, get_int (Entry.original_tokens m)) <$> requests)).
Proof.
  intros Hstats requests.
  destruct (analyze_tokens_fields _ _ Hstats) as (_ & _ & _ & _ & _ & _ & ->).
  rewrite lookup_fmap, models_lookup, filter_message_model. fold requests.
  destruct requests as [|m l]; [by split|].
  split; [done|]. intros _. eexists. split; [reflexivity|].
  simpl. unfold Py.len. simpl length. repeat split; lia.
Qed.

End TokenTotals.

(** *** Sizes: lists, tools and statuses *)

Lemma status_compressed (rec : Rec.t) :
  default ""%string (Rec.status rec) = "compressed"%string
  ↔ Rec.status rec = Some "compressed"%string.
Proof. destruct (Rec.status rec); simpl; split; congruence. Qed.

Lemma rec_orig_pos (rec : Rec.t) : rec_orig rec ≠ 0 ↔ 0 < rec_orig rec.
Proof. unfold rec_orig. pose proof (get_int_nonneg (Rec.original_bytes rec)). lia. Qed.

(** The four lists after the first loop. *)
Lemma sizes_loop_lists (entries : list Rec.t) (acc : SizeStats.t) :
  let stats := foldl sizes_step acc entries in
  SizeStats.all_sizes stats
  = SizeStats.all_sizes acc ++ (rec_orig <$> filter retained entries)
  ∧ SizeStats.compressed_sizes stats
    = SizeStats.compressed_sizes acc ++ (rec_orig <$> compressed_samples entries)
  ∧ SizeStats.passthrough_sizes stats
    = SizeStats.passthrough_sizes acc
      ++ (rec_orig <$> filter passthrough_sample entries)
  ∧ SizeStats.ratios stats
    = SizeStats.ratios acc ++ (rec_ratio <$> compressed_samples entries).
Proof.
  unfold compressed_samples. revert acc.
  induction entries as [|rec entries IH]; intros acc; simpl.
  { by rewrite !app_nil_r. }
  destruct (IH (sizes_step acc rec)) as (-> & -> & -> & ->). clear IH.
  unfold sizes_step. fold (rec_orig rec).
  pose proof (rec_orig_pos rec) as Hpos.
  pose proof (status_compressed rec) as Hstatus.
  unfold retained, passthrough_sample, compressed_sample.
  case_bool_decide as Horig.
  - rewrite !filter_cons_False by (try tauto; lia). done.
  - rewrite (filter_cons_True (λ rec, rec_orig rec ≠ 0)) by done.
    case_bool_decide as Hcomp; cbn [SizeStats.all_sizes SizeStats.compressed_sizes
      SizeStats.passthrough_sizes SizeStats.ratios].
    + rewrite filter_cons_True by tauto. rewrite filter_cons_False by tauto.
      rewrite bool_decide_eq_true_2 by tauto.
      rewrite !fmap_cons, <- !app_assoc. done.
    + rewrite filter_cons_False by tauto. rewrite filter_cons_True by tauto.
      rewrite !fmap_cons, <- !app_assoc. done.
Qed.

(** The totals of the tools and of the statuses after the first loop. *)
Lemma sizes_loop_tools (f : ToolStats.t → Z) (g : Rec.t → Z) :
  (∀ k, f (ToolStats.init k) = 0) →
  (∀ t rec, rec_orig rec ≠ 0 → Rec.status rec = Some "compressed"%string →
     f (ToolStats.mk (ToolStats.name t) (ToolStats.total t + 1)
          (ToolStats.compressed t + 1) (ToolStats.orig_bytes t + rec_orig rec)
          (ToolStats.saved_bytes t + (rec_orig rec - rec_comp rec))) = f t + g rec) →
  (∀ t rec, rec_orig rec ≠ 0 → Rec.status rec ≠ Some "compressed"%string →
     f (ToolStats.mk (ToolStats.name t) (ToolStats.total t + 1)
          (ToolStats.compressed t) (ToolStats.orig_bytes t + rec_orig rec)
          (ToolStats.saved_bytes t)) = f t + g rec) →
  ∀ entries acc,
    dict_sum f (SizeStats.tools (foldl sizes_step acc entries))
    = dict_sum f (SizeStats.tools acc) + Py.sum (g <$> filter retained entries).
Proof.
  intros Hinit Hcomp Hpass entries.
  induction entries as [|rec entries IH]; intros acc; simpl foldl.
  { rewrite filter_nil, fmap_nil, sum_nil. lia. }
  rewrite IH. clear IH. unfold sizes_step. fold (rec_orig rec).
  pose proof (status_compressed rec) as Hstatus. unfold retained.
  case_bool_decide as Horig.
  - rewrite filter_cons_False by tauto. done.
  - rewrite filter_cons_True by done. rewrite fmap_cons, sum_cons.
    case_bool_decide as Hc; cbn [SizeStats.tools]; rewrite dict_sum_insert.
    + fold (rec_comp rec). rewrite Hcomp by tauto.
      destruct (SizeStats.tools acc !! _); simpl; [lia|]. rewrite Hinit. lia.
    + rewrite Hpass by tauto.
      destruct (SizeStats.tools acc !! _); simpl; [lia|]. rewrite Hinit. lia.
Qed.

Lemma sizes_loop_statuses (entries : list Rec.t) (acc : SizeStats.t) :
  dict_sum id (SizeStats.status_counts (foldl sizes_step acc entries))
  = dict_sum id (SizeStats.status_counts acc) + Py.len (filter retained entries).
Proof.
  revert acc. induction entries as [|rec entries IH]; intros acc; simpl foldl.
  { rewrite filter_nil. unfold Py.len. simpl. lia. }
  rewrite IH. clear IH. unfold sizes_step. fold (rec_orig rec). unfold retained.
  case_bool_decide as Horig.
  - rewrite filter_cons_False by tauto. done.
  - rewrite filter_cons_True by done. rewrite len_cons.
    case_bool_decide; cbn [SizeStats.status_counts]; rewrite dict_sum_insert;
      destruct (SizeStats.status_counts acc !! _); simpl; unfold id; lia.
Qed.

Section SizeTotals.

Variable LIVE_PRICES : gmap string Q.

(** The fields that [analyze_sizes] takes from the first two loops. *)
Lemma analyze_sizes_fields (entries : list Rec.t) (stats : SizeStats.t) :
  analyze_sizes LIVE_PRICES entries = Some stats →
  let first := foldl sizes_step SizeStats_init entries in
  SizeStats.all_sizes stats = SizeStats.all_sizes first
  ∧ SizeStats.compressed_sizes stats = SizeStats.compressed_sizes first
  ∧ SizeStats.passthrough_sizes stats = SizeStats.passthrough_sizes first
  ∧ SizeStats.ratios stats = SizeStats.ratios first
  ∧ SizeStats.tools stats = SizeStats.tools first
  ∧ SizeStats.status_counts stats = SizeStats.status_counts first
  ∧ SizeStats.current_threshold stats = last_threshold (reverse entries) 0.
Proof.
  unfold analyze_sizes. destruct entries as [|rec entries]; [done|].
  destruct (SizeStats.all_sizes _); [done|].
  case_bool_decide.
  - destruct (sweep _ _ _ _ _ _). by intros [= <-].
  - by intros [= <-].
Qed.

(** X5. [analyze_sizes] has nothing to report exactly when no record has a
    non-zero [original_bytes]. *)
Theorem analyze_sizes_absent_iff (entries : list Rec.t) :
  analyze_sizes LIVE_PRICES entries = None ↔ Forall (λ rec, rec_orig rec = 0) entries.
Proof.
  assert (Hall : SizeStats.all_sizes (foldl sizes_step SizeStats_init entries)
                 = rec_orig <$> filter retained entries)
    by by destruct (sizes_loop_lists entries SizeStats_init) as (-> & _).
  assert (Hnil : filter retained entries = []
                 ↔ Forall (λ rec, rec_orig rec = 0) entries).
  { rewrite filter_nil_iff. unfold retained. apply Forall_proper; [|done].
    intros rec. split; [apply dec_stable|tauto]. }
  rewrite <- Hnil. unfold analyze_sizes.
  destruct entries as [|rec entries]; [done|].
  rewrite Hall. destruct (filter retained (rec :: entries)) as [|r l]; [done|].
  rewrite fmap_cons. split; [|done].
  case_bool_decide; [destruct (sweep _ _ _ _ _ _)|]; done.
Qed.

Lemma retained_split (entries : list Rec.t) :
  filter retained entries
  ≡ₚ compressed_samples entries ++ filter passthrough_sample entries.
Proof.
  unfold compressed_samples, retained, passthrough_sample, compressed_sample.
  induction entries as [|rec entries IH]; [done|].
  pose proof (rec_orig_pos rec) as Hpos.
  destruct (decide (rec_orig rec ≠ 0)) as [Horig|Horig].
  - rewrite (filter_cons_True (λ rec, rec_orig rec ≠ 0)) by done.
    destruct (decide (Rec.status rec = Some "compressed"%string)) as [Hc|Hc].
    + rewrite filter_cons_True by tauto. rewrite filter_cons_False by tauto.
      simpl. by rewrite IH.
    + rewrite filter_cons_False by tauto. rewrite filter_cons_True by tauto.
      by rewrite IH, Permutation_middle.
  - rewrite !filter_cons_False by tauto. exact IH.
Qed.

(** What a tool's counter adds up to when only compressed records feed it. *)
Lemma sum_compressed_only (h : Rec.t → Z) (entries : list Rec.t) :
  Py.sum ((λ rec, if decide (Rec.status rec = Some "compressed"%string)
                  then h rec else 0) <$> filter retained entries)
  = Py.sum (h <$> compressed_samples entries).
Proof.
  unfold compressed_samples, retained, compressed_sample.
  induction entries as [|rec entries IH]; [done|].
  pose proof (rec_orig_pos rec) as Hpos.
  destruct (decide (rec_orig rec ≠ 0)) as [Horig|Horig].
  - rewrite (filter_cons_True (λ rec, rec_orig rec ≠ 0)) by done.
    rewrite fmap_cons, sum_cons, IH.
    destruct (decide (Rec.status rec = Some "compressed"%string)) as [Hc|Hc].
    + rewrite filter_cons_True by tauto. by rewrite fmap_cons, sum_cons.
    + rewrite filter_cons_False by tauto. lia.
  - rewrite !filter_cons_False by tauto. exact IH.
Qed.

(** X6. The size lists: every kept size is positive and is either a compressed
    or a passthrough size, and the ratios are those of the compressed sizes,
    position by position. *)
Theorem size_lists (entries : list Rec.t) (stats : SizeStats.t) :
  analyze_sizes LIVE_PRICES entries = Some stats →
  SizeStats.all_sizes stats
  ≡ₚ SizeStats.compressed_sizes stats ++ SizeStats.passthrough_sizes stats
  ∧ Forall (λ size, 0 < size) (SizeStats.all_sizes stats)
  ∧ SizeStats.compressed_sizes stats = rec_orig <$> compressed_samples entries
  ∧ SizeStats.ratios stats = rec_ratio <$> compressed_samples entries
  ∧ Py.len (SizeStats.ratios stats) = Py.len (SizeStats.compressed_sizes stats).
Proof.
  intros Hstats.
  destruct (analyze_sizes_fields _ _ Hstats) as (-> & -> & -> & -> & _).
  destruct (sizes_loop_lists entries SizeStats_init) as (-> & -> & -> & ->).
  simpl. repeat split.
  - by rewrite retained_split, fmap_app.
  - rewrite Forall_fmap, Forall_forall. intros rec Hrec.
    apply list_elem_of_filter in Hrec as [Hrec _]. by apply rec_orig_pos.
  - unfold Py.len. by rewrite !length_fmap.
Qed.

(** X7. The per-tool and per-status breakdowns add up to the lists: outputs,
    compressed outputs, original bytes, saved bytes, and statuses. *)
Theorem tool_totals (entries : list Rec.t) (stats : SizeStats.t) :
  analyze_sizes LIVE_PRICES entries = Some stats →
  dict_sum ToolStats.total (SizeStats.tools stats) = Py.len (SizeStats.all_sizes stats)
  ∧ dict_sum ToolStats.compressed (SizeStats.tools stats)
    = Py.len (SizeStats.compressed_sizes stats)
  ∧ dict_sum ToolStats.orig_bytes (SizeStats.tools stats)
    = Py.sum (SizeStats.all_sizes stats)
  ∧ dict_sum ToolStats.saved_bytes (SizeStats.tools stats)
    = Py.sum ((λ rec, rec_orig rec - rec_comp rec) <$> compressed_samples entries)
  ∧ dict_sum id (SizeStats.status_counts stats) = Py.len (SizeStats.all_sizes stats).
Proof.
  intros Hstats.
  destruct (analyze_sizes_fields _ _ Hstats) as (-> & -> & _ & _ & -> & -> & _).
  destruct (sizes_loop_lists entries SizeStats_init) as (-> & -> & _).
  simpl app. repeat split.
  - rewrite (sizes_loop_tools _ (λ _, 1)); [|done|intros; simpl; lia..].
    cbn [SizeStats_init SizeStats.tools]. rewrite dict_sum_empty, sum_ones.
    unfold Py.len. by rewrite length_fmap.
  - rewrite (sizes_loop_tools _
               (λ rec, if decide (Rec.status rec = Some "compressed"%string)
                       then 1 else 0)); [|done|..].
    + cbn [SizeStats_init SizeStats.tools].
      rewrite dict_sum_empty, (sum_compressed_only (λ _, 1)), sum_ones.
      unfold Py.len. by rewrite length_fmap.
    + intros t rec _ Hc. rewrite decide_True by done. simpl. lia.
    + intros t rec _ Hc. rewrite decide_False by done. simpl. lia.
  - rewrite (sizes_loop_tools _ rec_orig); [|done|intros; simpl; lia..].
    cbn [SizeStats_init SizeStats.tools]. rewrite dict_sum_empty. lia.
  - rewrite (sizes_loop_tools _
               (λ rec, if decide (Rec.status rec = Some "compressed"%string)
                       then rec_orig rec - rec_comp rec else 0)); [|done|..].
    + cbn [SizeStats_init SizeStats.tools].
      rewrite dict_sum_empty, (sum_compressed_only (λ rec, rec_orig rec - rec_comp rec)).
      lia.
    + intros t rec _ Hc. rewrite decide_True by done. simpl. lia.
    + intros t rec _ Hc. rewrite decide_False by done. simpl. lia.
  - rewrite sizes_loop_statuses. cbn [SizeStats_init SizeStats.status_counts].
    rewrite dict_sum_empty. unfold Py.len. rewrite length_fmap. lia.
Qed.

Lemma last_threshold_first (recs : list Rec.t) (unset : Z) :
  (Forall (λ rec, get_int (Rec.min_threshold rec) = 0) recs
   ∧ last_threshold recs unset = unset)
  ∨ (∃ before rec after,
        recs = before ++ rec :: after
        ∧ Forall (λ rec, get_int (Rec.min_threshold rec) = 0) before
        ∧ 0 < get_int (Rec.min_threshold rec)
        ∧ last_threshold recs unset = get_int (Rec.min_threshold rec)).
Proof.
  induction recs as [|rec recs IH]; [by left|].
  simpl. pose proof (get_int_nonneg (Rec.min_threshold rec)) as Hnn.
  case_bool_decide as Hrec.
  - right. by exists [], rec, recs.
  - destruct IH as [[Hall Heq]|(before & r & after & -> & Hall & Hr & Heq)].
    + left. split; [constructor; [lia|done]|done].
    + right. exists (rec :: before), r, after. repeat split; try done.
      constructor; [lia|done].
Qed.

(** X8. The current threshold is the [min_threshold] of the last record that
    reports one; it is 0 when no record does. *)
Theorem current_threshold_latest (entries : list Rec.t) (stats : SizeStats.t) :
  analyze_sizes LIVE_PRICES entries = Some stats →
  (SizeStats.current_threshold stats = 0
   ∧ Forall (λ rec, get_int (Rec.min_threshold rec) = 0) entries)
  ∨ (∃ earlier rec later,
        entries = earlier ++ rec :: later
        ∧ Forall (λ rec, get_int (Rec.min_threshold rec) = 0) later
        ∧ 0 < SizeStats.current_threshold stats
        ∧ SizeStats.current_threshold stats = get_int (Rec.min_threshold rec)).
Proof.
  intros Hstats.
  destruct (analyze_sizes_fields _ _ Hstats) as (_ & _ & _ & _ & _ & _ & ->).
  destruct (last_threshold_first (reverse entries) 0)
    as [[Hall ->]|(before & rec & after & Hrev & Hall & Hrec & ->)].
  - left. split; [done|]. by apply Forall_reverse.
  - right. exists (reverse after), rec, (reverse before).
    repeat split; try done.
    + apply (inj reverse). by rewrite Hrev, reverse_app, reverse_cons,
        !reverse_involutive, <- app_assoc.
    + by apply Forall_reverse.
Qed.

(** *** The sweep: prefix, waste and cost *)

Lemma eligible_at_empty (data : list Sample.t) (T T' : Z) :
  eligible_at data T = [] → T ≤ T' → eligible_at data T' = [].
Proof.
  unfold eligible_at. rewrite !filter_nil_iff, !Forall_forall.
  intros Hall Hle c Hc. specialize (Hall c Hc). lia.
Qed.

Lemma evaluate_prefix (data : list Sample.t) (candidates : list Z) :
  StronglySorted Z.lt candidates →
  ThresholdResult.threshold <$> omap (evaluate LIVE_PRICES data) candidates
  `prefix_of` candidates.
Proof.
  induction 1 as [|T candidates Hsorted IH Hall]; simpl; [done|].
  destruct (evaluate LIVE_PRICES data T) as [r|] eqn:Hr.
  - apply evaluate_Some in Hr as [_ ->]. rewrite fmap_cons. simpl.
    by apply prefix_cons.
  - assert (Hnone : omap (evaluate LIVE_PRICES data) candidates = []).
    { clear IH Hsorted. unfold evaluate in Hr.
      destruct (eligible_at data T) eqn:Hel; [|done].
      induction candidates as [|T' candidates IH]; [done|].
      apply Forall_cons in Hall as [HT' Hall]. simpl. unfold evaluate at 1.
      rewrite (eligible_at_empty data T T') by (done || lia). by apply IH. }
    change (list_omap Z ThresholdResult.t (evaluate LIVE_PRICES data) candidates)
      with (omap (evaluate LIVE_PRICES data) candidates).
    rewrite Hnone. apply prefix_nil.
Qed.

(** X9. The recorded thresholds are an initial part of the candidate list:
    once a candidate has no eligible sample, no larger one is recorded. *)
Theorem thresholds_prefix (entries : list Rec.t) (stats : SizeStats.t) :
  analyze_sizes LIVE_PRICES entries = Some stats →
  ThresholdResult.threshold <$> SizeStats.thresholds stats `prefix_of` CANDIDATES.
Proof.
  intros Hstats. apply analyze_sizes_thresholds in Hstats as (-> & _ & _).
  case_bool_decide; [|apply prefix_nil].
  apply evaluate_prefix, CANDIDATES_ascending.
Qed.

Lemma eligible_split (entries : list Rec.t) (T : Z) :
  eligible_samples entries T
  ≡ₚ wasted_samples entries T ++ worthwhile_samples entries T.
Proof.
  unfold eligible_samples, wasted_samples, worthwhile_samples.
  induction entries as [|rec entries IH]; [done|].
  destruct (decide (compressed_sample rec ∧ T ≤ rec_orig rec)) as [Hel|Hel].
  - rewrite (filter_cons_True (λ rec, compressed_sample rec ∧ T ≤ rec_orig rec))
      by done.
    assert (Hratio : (Py.fge (rec_ratio rec) 0.9%Q ∧ ¬ Py.flt (rec_ratio rec) 0.9%Q)
                     ∨ (¬ Py.fge (rec_ratio rec) 0.9%Q ∧ Py.flt (rec_ratio rec) 0.9%Q)).
    { unfold Py.flt, Py.fge. destruct (Qle_bool _ _); simpl; tauto. }
    destruct Hratio as [[Hw Hn]|[Hn Hw]].
    + rewrite filter_cons_True by tauto. rewrite filter_cons_False by tauto.
      simpl. by rewrite IH.
    + rewrite filter_cons_False by tauto. rewrite filter_cons_True by tauto.
      by rewrite IH, Permutation_middle.
  - rewrite !filter_cons_False by tauto. exact IH.
Qed.

Lemma rec_comp_nonneg (rec : Rec.t) : 0 ≤ rec_comp rec.
Proof.
  unfold rec_comp, rec_orig, get_int_or.
  pose proof (get_int_nonneg (Rec.original_bytes rec)).
  destruct (Rec.compressed_bytes rec); simpl; lia.
Qed.

Lemma sum_le (g h : Rec.t → Z) (l : list Rec.t) :
  (∀ rec, g rec ≤ h rec) → Py.sum (g <$> l) ≤ Py.sum (h <$> l).
Proof.
  intros Hle. induction l as [|rec l IH]; [done|].
  rewrite !fmap_cons, !sum_cons. specialize (Hle rec). lia.
Qed.

(** X10. Every eligible sample of a recorded result is either wasted or
    worthwhile: [wasted] never exceeds [calls], [saved] never exceeds the
    bytes of the worthwhile samples, and a result that is all waste saves
    nothing. *)
Theorem waste_within_calls (entries : list Rec.t) (stats : SizeStats.t)
    (r : ThresholdResult.t) :
  analyze_sizes LIVE_PRICES entries = Some stats →
  r ∈ SizeStats.thresholds stats →
  let T := ThresholdResult.threshold r in
  ThresholdResult.calls r
  = ThresholdResult.wasted r + Py.len (worthwhile_samples entries T)
  ∧ 0 ≤ ThresholdResult.wasted r ≤ ThresholdResult.calls r
  ∧ ThresholdResult.saved r ≤ Py.sum (rec_orig <$> worthwhile_samples entries T)
  ∧ (ThresholdResult.wasted r = ThresholdResult.calls r → ThresholdResult.saved r = 0).
Proof.
  intros Hstats Hr T.
  destruct (recorded _ _ _ _ Hstats Hr) as (_ & _ & Heq). fold T in Heq.
  assert (Hcalls : ThresholdResult.calls r = Py.len (eligible_samples entries T))
    by (rewrite Heq; apply result_calls).
  assert (Hwasted : ThresholdResult.wasted r = Py.len (wasted_samples entries T))
    by (rewrite Heq; apply result_wasted).
  assert (Hsaved : ThresholdResult.saved r
                   = Py.sum ((λ rec, rec_orig rec - rec_comp rec)
                             <$> worthwhile_samples entries T))
    by (rewrite Heq; apply result_saved).
  assert (Hsplit : Py.len (eligible_samples entries T)
                   = Py.len (wasted_samples entries T)
                     + Py.len (worthwhile_samples entries T)).
  { rewrite (len_permutation _ _ (eligible_split entries T)).
    unfold Py.len. rewrite length_app. lia. }
  rewrite Hcalls, Hwasted, Hsaved, Hsplit.
  assert (Hbound : Py.sum ((λ rec, rec_orig rec - rec_comp rec)
                           <$> worthwhile_samples entries T)
                   ≤ Py.sum (rec_orig <$> worthwhile_samples entries T)).
  { apply sum_le. intros rec. pose proof (rec_comp_nonneg rec). lia. }
  unfold Py.len in *. repeat split; try lia.
  intros Hall. destruct (worthwhile_samples entries T); [done|].
  simpl length in Hall. lia.
Qed.

Lemma sum_filter_mono {A} (P R : A → Prop)
    `{∀ a, Decision (P a)} `{∀ a, Decision (R a)} (g : A → Z) (l : list A) :
  (∀ a, P a → R a) → (∀ a, R a → 0 ≤ g a) →
  Py.sum (g <$> filter P l) ≤ Py.sum (g <$> filter R l).
Proof.
  intros HPR Hpos. induction l as [|a l IH]; [done|].
  destruct (decide (P a)) as [Ha|Ha].
  - rewrite !filter_cons_True by auto. rewrite !fmap_cons, !sum_cons. lia.
  - rewrite (filter_cons_False P) by done.
    destruct (decide (R a)) as [Hb|Hb].
    + rewrite filter_cons_True by done. rewrite fmap_cons, sum_cons.
      specialize (Hpos a Hb). lia.
    + by rewrite filter_cons_False.
Qed.

(** The wasted calls of two recorded results. *)
Lemma wasted_antitone (entries : list Rec.t) (stats : SizeStats.t)
    (r1 r2 : ThresholdResult.t) :
  analyze_sizes LIVE_PRICES entries = Some stats →
  r1 ∈ SizeStats.thresholds stats →
  r2 ∈ SizeStats.thresholds stats →
  ThresholdResult.threshold r1 ≤ ThresholdResult.threshold r2 →
  ThresholdResult.wasted r2 ≤ ThresholdResult.wasted r1.
Proof.
  intros Hstats Hr1 Hr2 Hle.
  destruct (recorded _ _ _ _ Hstats Hr1) as (_ & _ & Heq1).
  destruct (recorded _ _ _ _ Hstats Hr2) as (_ & _ & Heq2).
  rewrite Heq1, Heq2, !result_wasted.
  unfold Py.len, wasted_samples. apply inj_le, length_filter_mono.
  intros rec (? & ? & ?). split; [done|]. split; [lia|done].
Qed.

(** X11. Raising the threshold never adds waste nor savings: of two recorded
    results, the one with the larger threshold has at most as many wasted
    calls and at most as many saved bytes. *)
Theorem waste_antitone (entries : list Rec.t) (stats : SizeStats.t)
    (r1 r2 : ThresholdResult.t) :
  analyze_sizes LIVE_PRICES entries = Some stats →
  r1 ∈ SizeStats.thresholds stats →
  r2 ∈ SizeStats.thresholds stats →
  ThresholdResult.threshold r1 ≤ ThresholdResult.threshold r2 →
  ThresholdResult.wasted r2 ≤ ThresholdResult.wasted r1
  ∧ ThresholdResult.saved r2 ≤ ThresholdResult.saved r1.
Proof.
  intros Hstats Hr1 Hr2 Hle.
  split; [by apply (wasted_antitone entries stats)|].
  destruct (recorded _ _ _ _ Hstats Hr1) as (_ & _ & Heq1).
  destruct (recorded _ _ _ _ Hstats Hr2) as (_ & _ & Heq2).
  rewrite Heq1, Heq2, !result_saved.
  unfold worthwhile_samples. apply sum_filter_mono.
  - intros rec (? & ? & ?). split; [done|]. split; [lia|done].
  - intros rec ([_ Horig] & _ & Hratio).
    apply Is_true_true in Hratio. unfold rec_ratio in Hratio.
    apply ratio_below in Hratio; [lia|done].
Qed.

(** X12. Every recorded threshold at or above the sweet spot is free of waste. *)
Theorem no_waste_above_sweet_spot (entries : list Rec.t) (stats : SizeStats.t)
    (r : ThresholdResult.t) :
  analyze_sizes LIVE_PRICES entries = Some stats →
  SizeStats.sweet_spot stats ≠ 0 →
  r ∈ SizeStats.thresholds stats →
  SizeStats.sweet_spot stats ≤ ThresholdResult.threshold r →
  ThresholdResult.wasted r = 0.
Proof.
  intros Hstats Hset Hr Hle.
  pose proof (analyze_sizes_thresholds _ _ _ Hstats) as (_ & Hsweet & _).
  destruct (find_sweet_spot_first (SizeStats.thresholds stats) 0)
    as [[_ Hnone]|(before & r0 & after & Hths & _ & Hr0 & Hfound)]; [congruence|].
  assert (Hin : r0 ∈ SizeStats.thresholds stats)
    by (rewrite Hths, elem_of_app, elem_of_cons; auto).
  destruct (recorded _ _ _ _ Hstats Hr) as (_ & _ & Heq).
  assert (0 ≤ ThresholdResult.wasted r)
    by (rewrite Heq, result_wasted; unfold Py.len; lia).
  assert (Hw : ThresholdResult.wasted r ≤ ThresholdResult.wasted r0); [|lia].
  apply (wasted_antitone entries stats); [done..|].
  rewrite <- Hfound, <- Hsweet. exact Hle.
Qed.

Lemma sweep_total (data : list Sample.t) (current : Z) (candidates : list Z)
    (thresholds : list ThresholdResult.t) (total : Z) :
  (sweep LIVE_PRICES data current candidates thresholds total).2
  = if decide (current ∈ candidates ∧ eligible_at data current ≠ [])
    then Py.sum (Sample.orig <$> eligible_at data current)
    else total.
Proof.
  revert thresholds total.
  induction candidates as [|T candidates IH]; intros thresholds total;
    cbn [sweep].
  { rewrite decide_False; [done|]. intros [Hin _]. by apply elem_of_nil in Hin. }
  destruct (eligible_at data T) as [|c l] eqn:Hel; rewrite IH.
  - destruct (decide (current ∈ candidates ∧ _)) as [[Hin Hne]|Hout].
    + rewrite decide_True; [done|]. split; [by apply elem_of_cons; right|done].
    + rewrite decide_False; [done|]. intros [Hin Hne]. apply Hout.
      apply elem_of_cons in Hin as [->|Hin]; [congruence|done].
  - destruct (decide (current ∈ candidates ∧ _)) as [[Hin Hne]|Hout].
    + rewrite decide_True; [done|]. split; [by apply elem_of_cons; right|done].
    + case_bool_decide as HT.
      * subst T. rewrite decide_True; [by rewrite Hel|].
        split; [by apply elem_of_cons; left|by rewrite Hel].
      * rewrite decide_False; [done|]. intros [Hin Hne]. apply Hout.
        apply elem_of_cons in Hin as [->|Hin]; [done|done].
Qed.

Lemma eligible_bytes (entries : list Rec.t) (T : Z) :
  Py.sum (Sample.orig <$> eligible_at (compressed_data entries) T)
  = Py.sum (rec_orig <$> eligible_samples entries T).
Proof.
  f_equal. unfold eligible_at, compressed_data, eligible_samples.
  apply filter_omap_fmap.
  - intros rec c Hc. apply sample_of_Some in Hc as [Hrec ->]. simpl. tauto.
  - intros rec Hc [Hrec _]. by apply sample_of_None in Hc.
Qed.

Lemma eligible_bytes_pos (entries : list Rec.t) (T : Z) :
  eligible_samples entries T ≠ [] →
  0 < Py.sum (rec_orig <$> eligible_samples entries T).
Proof.
  unfold eligible_samples.
  assert (Hall : Forall (λ rec, 0 < rec_orig rec)
                   (filter (λ rec, compressed_sample rec ∧ T ≤ rec_orig rec) entries)).
  { rewrite Forall_forall. intros rec Hrec.
    by apply list_elem_of_filter in Hrec as [[[_ ?] _] _]. }
  destruct (filter _ entries) as [|rec l]; [done|]. intros _.
  apply Forall_cons in Hall as [Hrec Hall].
  rewrite fmap_cons, sum_cons.
  assert (0 ≤ Py.sum (rec_orig <$> l)); [|lia].
  apply sum_nonneg, Forall_fmap. eapply Forall_impl; [exact Hall|]. simpl. lia.
Qed.

(** X13. The estimated compression cost is that of the eligible bytes of the
    current threshold when this threshold is among the recorded ones, a
    quarter of them priced as Haiku input; it is 0 in every other case. *)
Theorem compression_cost_current (entries : list Rec.t) (stats : SizeStats.t) :
  analyze_sizes LIVE_PRICES entries = Some stats →
  let current := SizeStats.current_threshold stats in
  ((∃ r, r ∈ SizeStats.thresholds stats ∧ ThresholdResult.threshold r = current) →
   SizeStats.compression_cost stats
   = (Py.truediv (Py.sum (rec_orig <$> eligible_samples entries current)) 4
      / 1000000 * get_price LIVE_PRICES HAIKU)%Q)
  ∧ (¬ (∃ r, r ∈ SizeStats.thresholds stats ∧ ThresholdResult.threshold r = current) →
     SizeStats.compression_cost stats = 0%Q).
Proof.
  intros Hstats current.
  pose proof (λ r, recorded _ _ _ r Hstats) as Hrec.
  pose proof (analyze_sizes_thresholds _ _ _ Hstats) as (Hths & _ & Hskip).
  assert (Hcur : current = last_threshold (reverse entries) 0)
    by (subst current;
        by destruct (analyze_sizes_fields _ _ Hstats) as (_ & _ & _ & _ & _ & _ & ?)).
  assert (Hiff : 10 ≤ Py.len (compressed_data entries) →
                 (∃ r, r ∈ SizeStats.thresholds stats
                       ∧ ThresholdResult.threshold r = current)
                 ↔ current ∈ CANDIDATES
                   ∧ eligible_at (compressed_data entries) current ≠ []).
  { intros Hruns. split.
    - intros (r & Hr & <-). by destruct (Hrec r Hr) as (? & ? & _).
    - intros [Hin Hne].
      exists (threshold_result LIVE_PRICES
                (eligible_at (compressed_data entries) current) current).
      split; [|done]. rewrite Hths, bool_decide_eq_true_2 by done.
      apply list_elem_of_omap. exists current. split; [done|].
      unfold evaluate. by destruct (eligible_at (compressed_data entries) current). }
  assert (Hcost : 10 ≤ Py.len (compressed_data entries) →
                  SizeStats.compression_cost stats
                  = let total := (sweep LIVE_PRICES (compressed_data entries) current
                                    CANDIDATES [] 0).2 in
                    if bool_decide (total ≠ 0)
                    then (Py.truediv total 4 / 1000000 * get_price LIVE_PRICES HAIKU)%Q
                    else 0%Q).
  { intros Hruns. rewrite Hcur. clear -Hstats Hruns. revert Hstats.
    unfold analyze_sizes. destruct entries as [|rec entries]; [done|].
    destruct (SizeStats.all_sizes _); [done|].
    rewrite bool_decide_eq_true_2 by done.
    destruct (sweep _ _ _ _ _ _) as [ths total]. by intros [= <-]. }
  destruct (decide (10 ≤ Py.len (compressed_data entries))) as [Hruns|Hfew].
  - rewrite (Hiff Hruns), (Hcost Hruns), sweep_total. simpl. split.
    + intros Hin. rewrite decide_True by done. rewrite eligible_bytes.
      pose proof (eligible_bytes_pos entries current) as Hpos.
      rewrite bool_decide_eq_true_2; [done|].
      destruct Hin as [_ Hne]. apply eligible_nonempty in Hne.
      specialize (Hpos Hne). lia.
    + intros Hout. rewrite decide_False by done.
      by rewrite bool_decide_eq_false_2 by tauto.
  - split; [|intros _; by apply Hskip].
    intros (r & Hr & _). rewrite Hths, bool_decide_eq_false_2 in Hr by done.
    by apply elem_of_nil in Hr.
Qed.

End SizeTotals.

(** *** Size buckets *)

Lemma zip_with_fmap_same {A B C D} (f : B → C → D) (g : A → B) (h : A → C)
    (l : list A) :
  zip_with f (g <$> l) (h <$> l) = (λ x, f (g x) (h x)) <$> l.
Proof. induction l as [|x l IH]; [done|]. rewrite !fmap_cons. simpl. by rewrite IH. Qed.

Lemma len_filter_cons {A} (P : A → Prop) `{!∀ x, Decision (P x)} (x : A)
    (l : list A) :
  Py.len (filter P (x :: l)) = (if decide (P x) then 1 else 0) + Py.len (filter P l).
Proof.
  destruct (decide (P x)).
  - rewrite filter_cons_True by done. by rewrite len_cons.
  - rewrite filter_cons_False by done. lia.
Qed.

Lemma len_filter_fmap {A B} (f : A → B) (P : B → Prop) `{!∀ y, Decision (P y)}
    (l : list A) :
  Py.len (filter P (f <$> l)) = Py.len (filter (λ x, P (f x)) l).
Proof.
  induction l as [|x l IH]; [done|].
  rewrite fmap_cons, !len_filter_cons, IH.
  destruct (decide (P (f x))); done.
Qed.

(** The counts of the printed lines are those of all the buckets: a bucket
    without a line is empty. *)
Lemma bucket_lines_counts (compressed : list Sample.t)
    (buckets : list (Z * Z * string)) :
  Py.sum (BucketLine.n <$> omap (bucket_line compressed) buckets)
  = Py.sum ((λ b, Py.len (in_bucket b.1.1 b.1.2 compressed)) <$> buckets)
  ∧ Py.sum (BucketLine.bad <$> omap (bucket_line compressed) buckets)
    = Py.sum ((λ b, Py.len (filter (λ c, Py.fge (Sample.ratio c) 0.9%Q)
                              (in_bucket b.1.1 b.1.2 compressed))) <$> buckets)
  ∧ Forall (λ line, 1 ≤ BucketLine.n line
                    ∧ 0 ≤ BucketLine.bad line ≤ BucketLine.n line)
      (omap (bucket_line compressed) buckets).
Proof.
  induction buckets as [|b buckets (IHn & IHbad & IHall)]; [done|].
  assert (Hcons : omap (bucket_line compressed) (b :: buckets)
                  = match bucket_line compressed b with
                    | Some line => line :: omap (bucket_line compressed) buckets
                    | None => omap (bucket_line compressed) buckets
                    end) by done.
  rewrite Hcons. clear Hcons. rewrite !fmap_cons, !sum_cons.
  destruct (bucket_line compressed b) as [line|] eqn:Hline;
    unfold bucket_line in Hline;
    destruct (in_bucket b.1.1 b.1.2 compressed) as [|c bucket]; try done.
  injection Hline as <-.
  rewrite !fmap_cons, !sum_cons. cbn [BucketLine.n BucketLine.bad].
    rewrite sum_ones. split; [lia|]. split; [lia|].
    constructor; [|done]. cbn [BucketLine.n BucketLine.bad].
    rewrite len_cons.
    assert (0 ≤ Py.len bucket) by (unfold Py.len; lia).
    assert (0 ≤ Py.len (filter (λ c, Py.fge (Sample.ratio c) 0.9%Q) (c :: bucket)))
      by (unfold Py.len; lia).
    assert (Py.len (filter (λ c, Py.fge (Sample.ratio c) 0.9%Q) (c :: bucket))
            ≤ Py.len (c :: bucket)) as Hbad
      by (unfold Py.len; apply inj_le, length_filter).
    rewrite len_cons in Hbad. lia.
Qed.

(** The buckets are disjoint and cover the sizes from 0 to 65536. *)
Lemma buckets_cover (P : Sample.t → Prop) `{!∀ c, Decision (P c)}
    (compressed : list Sample.t) :
  Forall (λ c, 0 ≤ Sample.orig c) compressed →
  Py.sum ((λ b, Py.len (filter P (in_bucket b.1.1 b.1.2 compressed))) <$> BUCKETS)
  = Py.len (filter (λ c, Sample.orig c < 65536 ∧ P c) compressed).
Proof.
  unfold BUCKETS, in_bucket. rewrite !fmap_cons, fmap_nil, !sum_cons, sum_nil.
  cbn [fst snd].
  induction 1 as [|c compressed Hc _ IH]; [done|].
  rewrite len_filter_cons, <- IH. clear IH.
  rewrite !(filter_cons (λ c, _ ≤ Sample.orig c < _)).
  repeat case_decide; rewrite ?len_filter_cons;
    repeat case_decide; try lia; try tauto;
    match goal with Hout : ¬ (_ ∧ P _) |- _ => exfalso; apply Hout; split; [lia|done] end.
Qed.

Lemma filter_all {A} (l : list A) : filter (λ _, True) l = l.
Proof. induction l as [|x l IH]; [done|]. by rewrite filter_cons_True, IH. Qed.

Lemma buckets_cover_all (compressed : list Sample.t) :
  Forall (λ c, 0 ≤ Sample.orig c) compressed →
  Py.sum ((λ b, Py.len (in_bucket b.1.1 b.1.2 compressed)) <$> BUCKETS)
  = Py.len (filter (λ c, Sample.orig c < 65536) compressed).
Proof.
  intros Hpos.
  rewrite (list_filter_iff (λ c, Sample.orig c < 65536)
             (λ c, Sample.orig c < 65536 ∧ True)) by tauto.
  rewrite <- (buckets_cover (λ _, True)) by done.
  f_equal. apply list_fmap_ext. intros _ b _. by rewrite filter_all.
Qed.

Section BucketProperties.

Variable LIVE_PRICES : gmap string Q.

(** X14. The size buckets: the counts of the printed lines add up to the number
    of compressed outputs smaller than 65536 bytes, their wasted counts to
    the number of those whose ratio is 0.9 or more, and no line is printed
    for an empty bucket. *)
Theorem size_buckets_counts (entries : list Rec.t) (stats : SizeStats.t) :
  analyze_sizes LIVE_PRICES entries = Some stats →
  let lines := print_size_buckets stats in
  Py.sum (BucketLine.n <$> lines)
  = Py.len (filter (λ rec, rec_orig rec < 65536) (compressed_samples entries))
  ∧ Py.sum (BucketLine.bad <$> lines)
    = Py.len (filter (λ rec, rec_orig rec < 65536 ∧ Py.fge (rec_ratio rec) 0.9%Q)
                (compressed_samples entries))
  ∧ Forall (λ line, 1 ≤ BucketLine.n line
                    ∧ 0 ≤ BucketLine.bad line ≤ BucketLine.n line) lines.
Proof.
  intros Hstats lines. subst lines. unfold print_size_buckets.
  destruct (analyze_sizes_fields _ _ _ Hstats) as (_ & -> & _ & -> & _).
  destruct (sizes_loop_lists entries SizeStats_init) as (_ & -> & _ & ->).
  cbn [SizeStats_init SizeStats.compressed_sizes SizeStats.ratios app].
  destruct (compressed_samples entries) as [|rec samples] eqn:Hsamples; [done|].
  rewrite <- Hsamples. clear Hsamples.
  set (sample := λ rec, Sample.mk (rec_orig rec)
                          (float_to_int (inject_Z (rec_orig rec) * rec_ratio rec))
                          (rec_ratio rec)).
  assert (Hzip : ∀ l : list Rec.t,
             zip_with (λ size ratio,
                         Sample.mk size (float_to_int (inject_Z size * ratio)) ratio)
               (rec_orig <$> l) (rec_ratio <$> l) = sample <$> l)
    by (intros l; apply zip_with_fmap_same).
  assert (Hlines : ∀ l : list Rec.t,
             match rec_orig <$> l, rec_ratio <$> l with
             | [], _ | _, [] => []
             | sizes, ratios =>
                 omap (bucket_line
                         (zip_with (λ size ratio,
                            Sample.mk size (float_to_int (inject_Z size * ratio))
                              ratio) sizes ratios)) BUCKETS
             end = omap (bucket_line (sample <$> l)) BUCKETS).
  { intros [|r l]; [done|]. rewrite <- Hzip. done. }
  rewrite Hlines. clear Hlines Hzip.
  destruct (bucket_lines_counts (sample <$> compressed_samples entries) BUCKETS)
    as (-> & -> & Hall).
  assert (Hpos : Forall (λ c, 0 ≤ Sample.orig c)
                   (sample <$> compressed_samples entries)).
  { apply Forall_fmap, Forall_forall. intros r _. simpl.
    pose proof (get_int_nonneg (Rec.original_bytes r)). done. }
  split; [|split; [|done]].
  - rewrite (buckets_cover_all _ Hpos). by rewrite len_filter_fmap.
  - rewrite (buckets_cover (λ c, Py.fge (Sample.ratio c) 0.9%Q) _ Hpos).
    by rewrite len_filter_fmap.
Qed.

End BucketProperties.

(** *** Daily usage: range and total *)

Lemma sorted_head_least (l : list Z) (x : Z) :
  StronglySorted Z.le l → head l = Some x → Forall (λ y, x ≤ y) l.
Proof.
  destruct 1 as [|y l _ Hall]; [done|]. intros [= ->].
  constructor; [lia|done].
Qed.

Lemma sorted_last_greatest (l : list Z) (x : Z) :
  StronglySorted Z.le l → last l = Some x → Forall (λ y, y ≤ x) l.
Proof.
  induction 1 as [|y l Hsorted IH Hall]; [done|].
  destruct l as [|z l].
  - intros [= ->]. repeat constructor. lia.
  - rewrite last_cons_cons. intros Hlast. specialize (IH Hlast).
    constructor; [|done].
    apply Forall_cons in Hall as [Hyz _]. apply Forall_cons in IH as [Hzx _]. lia.
Qed.

Lemma sum_positive_part (l : list Z) :
  Forall (λ x, 0 ≤ x) l → Py.sum (filter (λ x, 0 < x) l) = Py.sum l.
Proof.
  induction 1 as [|x l Hx _ IH]; [done|].
  destruct (decide (0 < x)).
  - rewrite filter_cons_True by done. rewrite !sum_cons. lia.
  - rewrite filter_cons_False by done. rewrite sum_cons. lia.
Qed.

Section DailyTotals.

Variable isodate : string → option string.

(** The grouping loop keeps the totals non-negative and adds up the
    original tokens of the requests that have a timestamp. *)
Lemma daily_loop_sum (msgs : list Entry.t) (acc daily : gmap string Z) :
  daily_loop isodate acc msgs = Return daily →
  map_Forall (λ _ tokens, 0 ≤ tokens) acc →
  map_Forall (λ _ tokens, 0 ≤ tokens) daily
  ∧ dict_sum id daily
    = dict_sum id acc
      + Py.sum ((λ m, get_int (Entry.original_tokens m))
                <$> filter (λ m, stamp m ≠ ""%string) msgs).
Proof.
  revert acc. induction msgs as [|m msgs IH]; intros acc; simpl daily_loop.
  { intros [= <-] Hacc. split; [done|]. rewrite filter_nil, fmap_nil, sum_nil. lia. }
  fold (stamp m). case_bool_decide as Hts.
  - intros Hloop Hacc. rewrite filter_cons_False by tauto. by apply IH.
  - destruct (isodate _) as [date|]; [|done]. intros Hloop Hacc.
    pose proof (get_int_nonneg (Entry.original_tokens m)) as Hnn.
    assert (Hold : 0 ≤ default 0 (acc !! date)).
    { destruct (acc !! date) as [x|] eqn:Hx; simpl; [|lia]. by apply (Hacc date x). }
    destruct (IH _ Hloop) as [Hdaily Hsum].
    { apply map_Forall_insert_2; [lia|done]. }
    split; [done|]. rewrite Hsum, dict_sum_insert.
    rewrite filter_cons_True by done. rewrite fmap_cons, sum_cons. unfold id.
    destruct (acc !! date); simpl; lia.
Qed.

(** The active values that [analyze_daily] sorts. *)
Lemma analyze_daily_Some (entries : list Entry.t) (s : DailyStats.t) :
  analyze_daily isodate entries = Return (Some s) →
  ∃ daily v vs,
    daily_loop isodate ∅ (filter is_message entries) = Return daily
    ∧ filter (λ tokens, 0 < tokens) (dict_values daily) = v :: vs
    ∧ s = DailyStats.mk (Py.len (v :: vs)) (Py.mean (v :: vs)) (Py.min_of v vs)
            (Py.max_of v vs) (Py.median (v :: vs)) (Py.sorted (v :: vs))
            0 0%Q 0 0 ∅.
Proof.
  unfold analyze_daily. destruct (filter is_message entries) as [|m msgs]; [done|].
  destruct (daily_loop isodate ∅ (m :: msgs)) as [daily|]; [|done].
  destruct (filter _ (dict_values daily)) as [|v vs] eqn:Hvs; [done|].
  intros [= <-]. by exists daily, v, vs.
Qed.

(** X15. The daily values are sorted, start at the minimum and end at the
    maximum that the statistics report, and the minimum is positive:
    there is at least one active day, and none without tokens. *)
Theorem daily_range (entries : list Entry.t) (s : DailyStats.t) :
  analyze_daily isodate entries = Return (Some s) →
  head (DailyStats.daily_values s) = Some (DailyStats.min_tokens_per_day s)
  ∧ last (DailyStats.daily_values s) = Some (DailyStats.max_tokens_per_day s)
  ∧ 0 < DailyStats.min_tokens_per_day s ≤ DailyStats.max_tokens_per_day s
  ∧ StronglySorted Z.le (DailyStats.daily_values s)
  ∧ 1 ≤ DailyStats.active_days s.
Proof.
  intros Hs. apply analyze_daily_Some in Hs as (daily & v & vs & _ & Hvs & ->).
  cbn [DailyStats.daily_values DailyStats.min_tokens_per_day
       DailyStats.max_tokens_per_day DailyStats.active_days].
  destruct (min_of_least vs v) as [Hmin Hleast].
  destruct (max_of_greatest vs v) as [Hmax Hgreatest].
  assert (Hperm : Py.sorted (v :: vs) ≡ₚ v :: vs) by apply merge_sort_Permutation.
  assert (Hsorted : StronglySorted Z.le (Py.sorted (v :: vs)))
    by (apply StronglySorted_merge_sort; apply _).
  assert (Hpos : Forall (λ tokens, 0 < tokens) (v :: vs)).
  { rewrite <- Hvs, Forall_forall. intros t Ht.
    by apply list_elem_of_filter in Ht as [? _]. }
  rewrite <- Hperm in Hmin, Hleast, Hmax, Hgreatest, Hpos.
  rewrite Forall_forall in Hleast, Hgreatest, Hpos.
  destruct (Py.sorted (v :: vs)) as [|x l] eqn:Hl.
  { by apply Permutation_nil_cons in Hperm. }
  assert (Hlast : is_Some (last (x :: l))).
  { destruct (last (x :: l)) eqn:Hnone; [done|]. by apply last_None in Hnone. }
  destruct Hlast as [y Hy].
  pose proof (sorted_head_least (x :: l) x Hsorted eq_refl) as Hx.
  pose proof (sorted_last_greatest (x :: l) y Hsorted Hy) as Hyg.
  rewrite Forall_forall in Hx, Hyg.
  assert (Hxin : x ∈ x :: l) by (apply elem_of_cons; by left).
  assert (Hyin : y ∈ x :: l) by by apply last_Some_elem_of.
  pose proof (Hleast x Hxin). pose proof (Hx _ Hmin).
  pose proof (Hgreatest y Hyin). pose proof (Hyg _ Hmax).
  pose proof (Hpos _ Hmin). pose proof (Hleast _ Hmax).
  assert (Py.min_of v vs = x) as -> by lia.
  assert (Py.max_of v vs = y) as -> by lia.
  repeat split; try done; try lia.
  unfold Py.len. simpl length. lia.
Qed.

(** The daily values add up to the tokens that the grouping loop has
    gathered. *)
Lemma daily_values_dict (entries : list Entry.t) (r : option DailyStats.t) :
  analyze_daily isodate entries = Return r →
  ∃ daily,
    daily_loop isodate ∅ (filter is_message entries) = Return daily
    ∧ Py.sum (from_option DailyStats.daily_values [] r)
      = Py.sum ((λ m, get_int (Entry.original_tokens m))
                <$> filter (λ m, stamp m ≠ ""%string) (filter is_message entries)).
Proof.
  unfold analyze_daily.
  destruct (filter is_message entries) as [|m msgs] eqn:Hmsgs.
  { intros [= <-]. by exists ∅. }
  destruct (daily_loop isodate ∅ (m :: msgs)) as [daily|] eqn:Hloop; [|done].
  intros Hr. exists daily. split; [done|].
  destruct (daily_loop_sum _ _ _ Hloop) as [Hnn Hsum]; [apply map_Forall_empty|].
  rewrite dict_sum_empty, Z.add_0_l in Hsum. rewrite <- Hsum. unfold dict_sum.
  rewrite list_fmap_id. fold (dict_values daily).
  assert (Hall : Forall (λ x, 0 ≤ x) (dict_values daily)).
  { unfold dict_values. rewrite Forall_fmap, Forall_forall. intros [k x] Hkx.
    apply elem_of_map_to_list in Hkx. by apply (Hnn k x). }
  rewrite <- (sum_positive_part _ Hall). revert Hr.
  destruct (filter _ (dict_values daily)) as [|v vs]; intros [= <-]; [done|].
  simpl from_option. apply sum_permutation, merge_sort_Permutation.
Qed.

(** X16. The daily values add up to the original tokens of the requests that
    have a timestamp: a day without tokens takes nothing away, and the
    absent result stands for a total of 0. *)
Theorem daily_values_total (entries : list Entry.t) (r : option DailyStats.t) :
  analyze_daily isodate entries = Return r →
  Py.sum (from_option DailyStats.daily_values [] r)
  = Py.sum ((λ m, get_int (Entry.original_tokens m))
            <$> filter (λ m, is_message m ∧ stamp m ≠ ""%string) entries).
Proof.
  intros Hr. destruct (daily_values_dict _ _ Hr) as (_ & _ & ->).
  by rewrite (filter_filter_and is_message (λ m, stamp m ≠ ""%string)).
Qed.

Variable LIVE_PRICES : gmap string Q.

(** X25. The two analyses of one log agree: the daily values never add up to
    more than the original tokens that [analyze_tokens] reports, and add
    up to exactly these when every request has a timestamp. *)
Theorem daily_matches_tokens (entries : list Entry.t) (stats : TokenStats.t)
    (r : option DailyStats.t) :
  analyze_tokens LIVE_PRICES entries = Some stats →
  analyze_daily isodate entries = Return r →
  Py.sum (from_option DailyStats.daily_values [] r)
  ≤ TokenStats.total_orig_tokens stats
  ∧ (Forall (λ m, is_message m → stamp m ≠ ""%string) entries →
     Py.sum (from_option DailyStats.daily_values [] r)
     = TokenStats.total_orig_tokens stats).
Proof.
  intros Hstats Hr.
  destruct (daily_values_dict _ _ Hr) as (_ & _ & ->).
  destruct (analyze_tokens_fields LIVE_PRICES _ _ Hstats) as (_ & _ & _ & _ & -> & _).
  split.
  - etrans; [apply (sum_filter_mono _ (λ _, True))|by rewrite filter_all].
    + done.
    + intros m _. apply get_int_nonneg.
  - intros Hall. do 2 f_equal. clear Hstats Hr.
    induction Hall as [|m l Hm _ IH]; [done|].
    destruct (decide (is_message m)) as [Hmsg|Hmsg].
    + rewrite (filter_cons_True is_message) by done.
      rewrite filter_cons_True by auto. by rewrite IH.
    + by rewrite (filter_cons_False is_message).
Qed.

End DailyTotals.

(** *** The live price table *)

Lemma get_price_static (live : gmap string Q) (model : string) :
  live !! model = None → get_price live model = static_price model.
Proof.
  intros Hnone. unfold get_price, static_price.
  rewrite first_fallback_static, Hnone.
  destruct (bool_decide (live = ∅));
    repeat match goal with
           | |- context [Py.str_in ?key model] =>
               destruct (Py.str_in key model); try reflexivity
           end.
Qed.

Lemma get_price_live (live : gmap string Q) (model : string) (price : Q) :
  live !! model = Some price → get_price live model = price.
Proof.
  intros Hsome. unfold get_price. rewrite bool_decide_eq_false_2, Hsome; [done|].
  intros ->. by rewrite lookup_empty in Hsome.
Qed.

(** The prices that the loop of [fetch_prices] keeps. *)
Lemma fetch_prices_lookup (data : gmap string Catalogue.info) (model : string) :
  fetch_prices (Some data) !! model
  = info ← data !! model;
    cost ← Catalogue.input_cost_per_token info;
    if negb (Qeq_bool cost 0) && Py.str_in "claude" model
    then Some (cost * 1000000)%Q else None.
Proof.
  unfold fetch_prices.
  apply (map_fold_weak_ind (λ prices data, prices !! model = _ ← data !! model; _)).
  - by rewrite !lookup_empty.
  - intros k info m prices Hk IH. unfold fetch_step.
    destruct (decide (k = model)) as [->|Hne].
    + rewrite lookup_insert_eq. rewrite Hk in IH. simpl in IH. simpl.
      destruct (Catalogue.input_cost_per_token info) as [cost|]; simpl; [|done].
      destruct (negb (Qeq_bool cost 0) && Py.str_in "claude" model); [|done].
      by rewrite lookup_insert_eq.
    + rewrite lookup_insert_ne by done. rewrite <- IH.
      destruct (Catalogue.input_cost_per_token info) as [cost|]; [|done].
      destruct (negb (Qeq_bool cost 0) && Py.str_in "claude" k); [|done].
      by rewrite lookup_insert_ne.
Qed.

(** X17. The live table holds a price only for a model whose identifier
    contains "claude" and whose catalogue entry has a non-zero input cost;
    the price is that cost per token times 1e6.  A failed download leaves
    the table empty. *)
Theorem fetch_prices_claude_only (response : option (gmap string Catalogue.info))
    (model : string) (price : Q) :
  fetch_prices response !! model = Some price →
  Py.str_in "claude" model = true
  ∧ ∃ data info cost,
      response = Some data
      ∧ data !! model = Some info
      ∧ Catalogue.input_cost_per_token info = Some cost
      ∧ ¬ (cost == 0)%Q
      ∧ price = (cost * 1000000)%Q.
Proof.
  destruct response as [data|]; [|cbn [fetch_prices]; by rewrite lookup_empty].
  rewrite fetch_prices_lookup.
  destruct (data !! model) as [info|] eqn:Hinfo; [|done]. simpl.
  destruct (Catalogue.input_cost_per_token info) as [cost|] eqn:Hcost; [|done]. simpl.
  destruct (Qeq_bool cost 0) eqn:Hzero; [done|]. simpl.
  destruct (Py.str_in "claude" model); [|done].
  intros [= <-]. split; [done|]. exists data, info, cost. repeat split; try done.
  intros Heq. apply Qeq_bool_iff in Heq. congruence.
Qed.

(** X18. With a table built by [fetch_prices], a model that is in the table is
    priced by the table, before any static key; a model whose identifier
    does not contain "claude" is priced by the static table alone; and a
    request without a model is priced at the default 3.0 both under the
    key "" of the total and under the key "unknown" of the breakdown. *)
Theorem fetched_price (response : option (gmap string Catalogue.info))
    (model : string) :
  (∀ price, fetch_prices response !! model = Some price →
            get_price (fetch_prices response) model = price)
  ∧ (Py.str_in "claude" model = false →
     get_price (fetch_prices response) model = static_price model)
  ∧ get_price (fetch_prices None) model = static_price model
  ∧ get_price (fetch_prices response) "" = 3%Q
  ∧ get_price (fetch_prices response) "unknown" = 3%Q.
Proof.
  assert (Hother : ∀ name, Py.str_in "claude" name = false →
                           fetch_prices response !! name = None).
  { intros name Hname.
    destruct (fetch_prices response !! name) as [price|] eqn:Hprice; [|done].
    apply fetch_prices_claude_only in Hprice as [Hclaude _]. congruence. }
  split; [apply get_price_live|].
  split; [intros Hname; by apply get_price_static, Hother|].
  split; [apply get_price_static, lookup_empty|].
  split; (rewrite get_price_static; [done|by apply Hother]).
Qed.

(** *** Formatting: headers and bars *)

Lemma len_app {A} (l k : list A) : Py.len (l ++ k) = Py.len l + Py.len k.
Proof. unfold Py.len. rewrite length_app. lia. Qed.

Lemma len_nonneg {A} (l : list A) : 0 ≤ Py.len l.
Proof. unfold Py.len. lia. Qed.

Lemma len_times (c : N) (n : Z) : Py.len (times c n) = Z.max 0 n.
Proof. unfold Py.len, times. rewrite length_replicate. lia. Qed.

(** X19. A header is two characters wider than the width it is asked for, and
    wider still when the title does not fit: its length is the larger of
    [width + 2] and [len(title) + 6]. *)
Theorem header_length (title : text) (width : Z) :
  Py.len (header title width) = Z.max (width + 2) (Py.len title + 6).
Proof.
  unfold header. rewrite !len_app, !len_times.
  pose proof (len_nonneg title) as Htitle.
  set (pad := width - Py.len title - 4).
  pose proof (Z.div_mod pad 2 ltac:(lia)) as Hdiv.
  pose proof (Z.mod_pos_bound pad 2 ltac:(lia)) as Hmod.
  change (Py.len [Glyph.round_left]) with 1.
  change (Py.len [Glyph.round_right]) with 1.
  change (Py.len (ascii_text "  ")) with 2.
  subst pad. lia.
Qed.

Lemma float_to_int_unit (ratio : Q) (width : Z) :
  (0 <= ratio)%Q → (ratio <= 1)%Q → 0 ≤ width →
  0 ≤ float_to_int (ratio * inject_Z width) ≤ width.
Proof.
  destruct ratio as [n d]. unfold Qle, float_to_int. simpl.
  intros Hn Hd Hwidth. rewrite Pos.mul_1_r.
  assert (0 ≤ n ≤ Z.pos d) as [Hn0 Hnd] by lia.
  rewrite Z.quot_div_nonneg by nia. split.
  - apply Z.div_pos; nia.
  - apply Z.div_le_upper_bound; nia.
Qed.

(** X20. A bar is never shorter than its width.  For a ratio between 0 and 1
    it is exactly as long as its width, full blocks first; outside this
    range a part of negative length is empty, and the other part alone is
    longer than the width. *)
Theorem bar_length (ratio : Q) (width : Z) :
  0 ≤ width →
  let filled := float_to_int (ratio * inject_Z width) in
  width ≤ Py.len (bar ratio width)
  ∧ Py.len (bar ratio width) = Z.max 0 filled + Z.max 0 (width - filled)
  ∧ ((0 <= ratio)%Q → (ratio <= 1)%Q →
     Py.len (bar ratio width) = width ∧ 0 ≤ filled ≤ width).
Proof.
  intros Hwidth filled. unfold bar. fold filled.
  rewrite len_app, !len_times. split; [lia|]. split; [done|].
  intros Hlow Hhigh.
  pose proof (float_to_int_unit ratio width Hlow Hhigh Hwidth) as Hfilled.
  fold filled in Hfilled. lia.
Qed.

(** *** Formatting: tables *)

Lemma enlarges_refl (widths : list Z) : enlarges widths widths.
Proof. split; [done|]. intros j w Hw. exists w. split; [done|lia]. Qed.

Lemma enlarges_trans (ws1 ws2 ws3 : list Z) :
  enlarges ws1 ws2 → enlarges ws2 ws3 → enlarges ws1 ws3.
Proof.
  intros [Hlen1 H1] [Hlen2 H2]. split; [congruence|].
  intros j w Hw. destruct (H1 j w Hw) as (w' & Hw' & Hle).
  destruct (H2 j w' Hw') as (w'' & Hw'' & Hle'). exists w''. split; [done|lia].
Qed.

Lemma covers_enlarges (widths wider : list Z) (row : list text) :
  covers widths row → enlarges widths wider → covers wider row.
Proof.
  intros Hcov [_ Hmono] k cell Hcell.
  destruct (Hcov k cell Hcell) as (w & Hw & Hle).
  destruct (Hmono k w Hw) as (w' & Hw' & Hle'). exists w'. split; [done|lia].
Qed.

Lemma widen_enlarges (row : list text) (widths wider : list Z) (i : nat) :
  widen widths i row = Some wider →
  enlarges widths wider
  ∧ ∀ k cell, row !! k = Some cell →
              ∃ w, wider !! (i + k)%nat = Some w ∧ Py.len cell ≤ w.
Proof.
  revert widths i. induction row as [|cell row IH]; intros widths i; simpl.
  { intros [= <-]. split; [apply enlarges_refl|]. intros k c Hc. done. }
  destruct (widths !! i) as [w|] eqn:Hw; [|done]. intros Hwiden.
  apply IH in Hwiden as [[Hlen Hmono] Hcells].
  rewrite length_insert in Hlen.
  assert (Hi : (i < length widths)%nat) by by eapply lookup_lt_Some.
  assert (Hstep : ∀ j w0, widths !! j = Some w0 →
                          ∃ w', wider !! j = Some w' ∧ w0 ≤ w').
  { intros j w0 Hj. destruct (decide (i = j)) as [<-|Hne].
    - destruct (Hmono i (Z.max w (Py.len cell))) as (w' & Hw' & Hle).
      + by apply list_lookup_insert_eq.
      + exists w'. split; [done|]. assert (w0 = w) by congruence. lia.
    - apply Hmono. by rewrite list_lookup_insert_ne. }
  split; [by split|].
  intros [|k] c Hc; simpl in Hc.
  - injection Hc as <-. rewrite Nat.add_0_r.
    destruct (Hmono i (Z.max w (Py.len cell))) as (w' & Hw' & Hle).
    + by apply list_lookup_insert_eq.
    + exists w'. split; [done|lia].
  - replace (i + S k)%nat with (S i + k)%nat by lia. by apply Hcells.
Qed.

Lemma widen_fits (row : list text) (widths : list Z) (i : nat) :
  (i + length row ≤ length widths)%nat → is_Some (widen widths i row).
Proof.
  revert widths i. induction row as [|cell row IH]; intros widths i; simpl.
  { by eexists. }
  intros Hfit. destruct (lookup_lt_is_Some_2 widths i) as [w ->]; [lia|].
  apply IH. rewrite length_insert. lia.
Qed.

Lemma widen_overflows (row : list text) (widths : list Z) (i : nat) :
  (i ≤ length widths < i + length row)%nat → widen widths i row = None.
Proof.
  revert widths i. induction row as [|cell row IH]; intros widths i; simpl.
  { lia. }
  intros Hlong. destruct (widths !! i) as [w|] eqn:Hw; [|done].
  apply lookup_lt_Some in Hw. apply IH. rewrite length_insert. lia.
Qed.

Lemma widen_all_enlarges (rows : list (list text)) (widths wider : list Z) :
  widen_all widths rows = Some wider →
  enlarges widths wider ∧ Forall (covers wider) rows.
Proof.
  revert widths. induction rows as [|row rows IH]; intros widths; simpl.
  { intros [= <-]. split; [apply enlarges_refl|done]. }
  destruct (widen widths 0 row) as [widths'|] eqn:Hrow; [|done]. intros Hrows.
  apply widen_enlarges in Hrow as [Hfirst Hcells].
  apply IH in Hrows as [Hrest Hcov].
  split; [by eapply enlarges_trans|]. constructor; [|done].
  apply (covers_enlarges widths'); [|done]. exact Hcells.
Qed.

Lemma widen_all_fits (rows : list (list text)) (widths : list Z) :
  Forall (λ row, (length row ≤ length widths)%nat) rows →
  is_Some (widen_all widths rows).
Proof.
  intros Hall. revert widths Hall.
  induction rows as [|row rows IH]; intros widths Hall; simpl; [by eexists|].
  apply Forall_cons in Hall as [Hrow Hall].
  destruct (widen_fits row widths 0) as [widths' Hw]; [lia|]. rewrite Hw.
  apply widen_enlarges in Hw as [[Hlen _] _].
  apply IH. by rewrite Hlen.
Qed.

Lemma widen_all_overflows (rows : list (list text)) (widths : list Z) :
  Exists (λ row, (length widths < length row)%nat) rows →
  widen_all widths rows = None.
Proof.
  intros Hex. revert widths Hex.
  induction rows as [|row rows IH]; intros widths Hex; simpl.
  { by apply Exists_nil in Hex. }
  destruct (widen widths 0 row) as [widths'|] eqn:Hw; [|done].
  apply Exists_cons in Hex as [Hrow|Hex].
  - rewrite widen_overflows in Hw by lia. done.
  - apply widen_enlarges in Hw as [[Hlen _] _]. apply IH. by rewrite Hlen.
Qed.

Lemma len_ljust (s : text) (w : Z) (fill : N) :
  Py.len (ljust s w fill) = Z.max (Py.len s) w.
Proof. unfold ljust. rewrite len_app, len_times. lia. Qed.

Lemma len_rjust (s : text) (w : Z) (fill : N) :
  Py.len (rjust s w fill) = Z.max (Py.len s) w.
Proof. unfold rjust. rewrite len_app, len_times. lia. Qed.

Lemma len_join (sep : text) (parts : list text) :
  Py.len (join sep parts)
  = match parts with
    | [] => 0
    | _ => Py.sum (Py.len <$> parts) + Py.len sep * (Py.len parts - 1)
    end.
Proof.
  induction parts as [|part parts IH]; [done|].
  destruct parts as [|part' parts].
  - change (join sep [part]) with part. rewrite fmap_cons, sum_cons.
    change (Py.len [part]) with 1. change (Py.sum (Py.len <$> [])) with 0. lia.
  - change (join sep (part :: part' :: parts))
      with (part ++ sep ++ join sep (part' :: parts)).
    rewrite !len_app, IH, !fmap_cons, !sum_cons, !len_cons. lia.
Qed.

(** The parts of a row: one per cell, each as wide as its column. *)
Lemma fmt_cells_widths (aligns : text) (widths : list Z) (cells : list text) (i : nat) :
  (i + length cells ≤ length aligns)%nat →
  (∀ k cell, cells !! k = Some cell →
             ∃ w, widths !! (i + k)%nat = Some w ∧ Py.len cell ≤ w) →
  ∃ parts, fmt_cells aligns widths i cells = Some parts
           ∧ Py.len <$> parts = take (length cells) (drop i widths).
Proof.
  revert i. induction cells as [|cell cells IH]; intros i Haligns Hcov;
    cbn [fmt_cells].
  { by exists []. }
  change (length (cell :: cells)) with (S (length cells)) in *.
  destruct (lookup_lt_is_Some_2 aligns i) as [a ->]; [lia|].
  destruct (Hcov 0%nat cell eq_refl) as (w & Hw & Hle).
  rewrite Nat.add_0_r in Hw. rewrite Hw.
  destruct (IH (S i)) as (parts & -> & Hparts).
  - lia.
  - intros k c Hc. replace (S i + k)%nat with (i + S k)%nat by lia.
    by apply Hcov.
  - eexists. split; [reflexivity|].
    rewrite fmap_cons, Hparts, (drop_S _ _ _ Hw). cbn [take]. f_equal.
    destruct (bool_decide (a = Glyph.r)); rewrite ?len_ljust, ?len_rjust; lia.
Qed.

Lemma fmt_row_width (aligns : text) (widths : list Z) (cells : list text) :
  (length cells ≤ length aligns)%nat →
  covers widths cells →
  ∃ line, fmt_row aligns widths cells = Some line
          ∧ (length cells = length widths → Py.len line = table_width widths).
Proof.
  intros Haligns Hcov.
  destruct (fmt_cells_widths aligns widths cells 0) as (parts & Hparts & Hlens);
    [lia|exact Hcov|].
  unfold fmt_row. rewrite Hparts. eexists. split; [reflexivity|].
  intros Hfull. rewrite Hfull, drop_0, firstn_all in Hlens.
  rewrite (len_app (ascii_text "  ")), (len_app [Glyph.bar]),
    (len_app (ascii_text " ")), (len_app (join _ _)), (len_app (ascii_text " ")),
    len_join.
  unfold table_width.
  change (Py.len (ascii_text "  ")) with 2.
  change (Py.len (ascii_text " ")) with 1.
  change (Py.len [Glyph.bar]) with 1.
  change (Py.len (ascii_text " " ++ [Glyph.bar] ++ ascii_text " ")) with 3.
  assert (Hn : Py.len parts = Py.len widths).
  { unfold Py.len. by rewrite <- Hlens, length_fmap. }
  destruct parts as [|part parts], widths as [|w widths]; try done.
  rewrite Hlens, Hn. lia.
Qed.

Lemma rule_width (left mid right : N) (widths : list Z) :
  Forall (λ w, 0 ≤ w) widths →
  Py.len (rule left mid right widths) = table_width widths.
Proof.
  intros Hpos. unfold rule, table_width. rewrite !len_app, len_join.
  change (Py.len (ascii_text "  ")) with 2.
  assert (Hlens : Py.len <$> (times Glyph.dash <$> widths) = widths).
  { induction Hpos as [|w widths Hw _ IH]; [done|].
    rewrite !fmap_cons, IH, len_times. f_equal. lia. }
  assert (Hn : Py.len (times Glyph.dash <$> widths) = Py.len widths)
    by (unfold Py.len; by rewrite length_fmap).
  destruct widths as [|w widths]; [done|].
  rewrite fmap_cons in *. rewrite Hlens, Hn.
  change (Py.len [left; Glyph.dash]) with 2.
  change (Py.len [Glyph.dash; right]) with 2.
  change (Py.len [Glyph.dash; mid; Glyph.dash]) with 3. lia.
Qed.

Lemma print_rows_finishes (aligns : text) (widths : list Z)
    (pairs : list (list text * text)) (out : list text) :
  Forall (λ pair, (length pair.1 ≤ length aligns)%nat ∧ covers widths pair.1) pairs →
  ∃ lines,
    print_rows aligns widths pairs out = Finished (out ++ lines)
    ∧ length lines = length pairs
    ∧ (Forall (λ pair, length pair.1 = length widths ∧ pair.2 = []) pairs →
       Forall (λ line, Py.len line = table_width widths) lines).
Proof.
  intros Hall. revert out.
  induction Hall as [|[row ann] pairs [Hlen Hcov] _ IH]; intros out; simpl.
  { exists []. by rewrite app_nil_r. }
  destruct (fmt_row_width aligns widths row Hlen Hcov) as (line & -> & Hwidth).
  destruct (IH (out ++ [line ++ ann])) as (lines & -> & Hlines & Hwide).
  exists ((line ++ ann) :: lines). rewrite <- app_assoc. split; [done|].
  split; [simpl; lia|].
  intros Hfull. apply Forall_cons in Hfull as [[Hrow Hann] Hfull].
  simpl in Hrow, Hann. subst ann.
  constructor; [|by apply Hwide]. rewrite app_nil_r. by apply Hwidth.
Qed.

Lemma enlarges_nonneg (widths wider : list Z) :
  enlarges widths wider → Forall (λ w, 0 ≤ w) widths → Forall (λ w, 0 ≤ w) wider.
Proof.
  intros [Hlen Hmono] Hpos. apply Forall_lookup_2. intros j w' Hw'.
  destruct (lookup_lt_is_Some_2 widths j) as [w Hw].
  { rewrite <- Hlen. by eapply lookup_lt_Some. }
  destruct (Hmono j w Hw) as (w'' & Hw'' & Hle).
  pose proof (Forall_lookup_1 _ _ _ _ Hpos Hw). simpl in *.
  assert (w' = w'') by congruence. lia.
Qed.

Lemma covers_headers (headers : list text) : covers (Py.len <$> headers) headers.
Proof.
  intros k cell Hcell. exists (Py.len cell).
  split; [by rewrite list_lookup_fmap, Hcell|lia].
Qed.

(** X21. A row with more cells than there are headers makes [print_table]
    raise [IndexError] before it prints anything. *)
Theorem print_table_overflow (headers : list text) (rows : list (list text))
    (aligns : text) (annotations : list text) :
  Exists (λ row, (length headers < length row)%nat) rows →
  print_table headers rows aligns annotations = IndexError [].
Proof.
  intros Hex. unfold print_table.
  destruct rows as [|row rows]; [by apply Exists_nil in Hex|].
  rewrite widen_all_overflows; [done|].
  by rewrite length_fmap.
Qed.

(** X22. When no row has more cells than there are headers, [print_table]
    returns after printing the top rule, the headers, the divider, one
    line for each row that has an annotation to go with (all the rows
    when no annotations are given) and the bottom rule.  Without
    annotations and with rows as long as the headers all these lines are
    equally wide, and every cell fits in its column. *)
Theorem print_table_rectangular (headers : list text) (rows : list (list text))
    (aligns : text) (annotations : list text) :
  rows ≠ [] →
  Forall (λ row, (length row ≤ length headers)%nat) rows →
  ∃ lines widths,
    print_table headers rows aligns annotations = Finished lines
    ∧ length lines
      = (4 + match annotations with
             | [] => length rows
             | _ => length rows `min` length annotations
             end)%nat
    ∧ length widths = length headers
    ∧ Forall (covers widths) (headers :: rows)
    ∧ (annotations = [] →
       Forall (λ row, length row = length headers) rows →
       Forall (λ line, Py.len line = table_width widths) lines).
Proof.
  intros Hrows Hfit. unfold print_table.
  destruct rows as [|row0 rows0]; [done|]. clear Hrows.
  set (rows := row0 :: rows0) in *.
  set (aligned := ljust _ (Py.len headers) Glyph.l).
  set (notes := match annotations with [] => replicate (length rows) [] | _ => _ end).
  destruct (widen_all_fits rows (Py.len <$> headers)) as [widths Hwidths].
  { by rewrite length_fmap. }
  rewrite Hwidths. apply widen_all_enlarges in Hwidths as [Hlarger Hcov].
  assert (Hlen : length widths = length headers)
    by (destruct Hlarger as [-> _]; apply length_fmap).
  assert (Hhead : covers widths headers)
    by (eapply covers_enlarges; [apply covers_headers|done]).
  assert (Hpos : Forall (λ w, 0 ≤ w) widths).
  { eapply enlarges_nonneg; [done|]. apply Forall_fmap, Forall_forall.
    intros h _. apply len_nonneg. }
  assert (Haligned : (length headers ≤ length aligned)%nat).
  { pose proof (len_ljust (match aligns with
                           | [] => times Glyph.l (Py.len headers)
                           | _ => aligns end) (Py.len headers) Glyph.l) as Hl.
    fold aligned in Hl. unfold Py.len in Hl. lia. }
  destruct (fmt_row_width aligned widths headers Haligned Hhead)
    as (head & -> & Hhead_width).
  destruct (print_rows_finishes aligned widths (zip rows notes)
              [rule Glyph.top_left Glyph.tee_down Glyph.top_right widths; head;
               rule Glyph.tee_right Glyph.cross Glyph.tee_left widths])
    as (body & -> & Hbody & Hwide).
  { rewrite Forall_forall. intros [row ann] Hpair. apply elem_of_zip_l in Hpair.
    simpl. rewrite Forall_forall in Hfit, Hcov.
    split; [specialize (Hfit row Hpair); lia|by apply Hcov]. }
  eexists _, widths. split; [reflexivity|].
  split.
  { rewrite !length_app, Hbody, length_zip. subst notes rows.
    destruct annotations; [rewrite length_replicate|]; simpl length; lia. }
  split; [done|]. split; [by constructor|].
  intros -> Hfull. subst notes.
  repeat (apply Forall_app; split); repeat constructor.
  - by apply rule_width.
  - apply Hhead_width. lia.
  - by apply rule_width.
  - apply Hwide. rewrite Forall_forall. intros [row ann] Hpair. simpl.
    pose proof (elem_of_zip_l _ _ _ _ Hpair) as Hrow.
    apply elem_of_zip_r, elem_of_replicate_inv in Hpair.
    rewrite Forall_forall in Hfull. split; [|done].
    rewrite (Hfull row Hrow). lia.
  - by apply rule_width.
Qed.

(** *** The gateway toggle *)

Section ToggleProperties.

Variable json : Type.
Variable json_string : string → json.

(** X23. A run on settings whose ["env"] is an object, or is missing, flips the
    presence of the key: the key is set to the gateway address when it
    was absent and removed when it was present, whatever its value; every
    other variable and every other setting is kept, the message says
    which way the gateway went, and the backup holds the settings as they
    were. *)
Theorem toggle_flips (before : gmap string (Toggle.setting json))
    (env : gmap string json) :
  default (Toggle.Object ∅) (before !! "env"%string) = Toggle.Object env →
  ∃ after env',
    Toggle.settings (Toggle.toggle json_string before) = Some after
    ∧ Toggle.backup (Toggle.toggle json_string before) = before
    ∧ after !! "env"%string = Some (Toggle.Object env')
    ∧ (∀ name, name ≠ "env"%string → after !! name = before !! name)
    ∧ (∀ name, name ≠ Toggle.KEY → env' !! name = env !! name)
    ∧ (env !! Toggle.KEY = None →
       env' !! Toggle.KEY = Some (json_string Toggle.VALUE)
       ∧ Toggle.said (Toggle.toggle json_string before) = Some Toggle.Gateway_ON)
    ∧ (is_Some (env !! Toggle.KEY) →
       env' !! Toggle.KEY = None
       ∧ Toggle.said (Toggle.toggle json_string before) = Some Toggle.Gateway_OFF).
Proof.
  intros Henv. unfold Toggle.toggle. rewrite Henv.
  case_bool_decide as Hkey.
  - exists (<["env"%string := Toggle.Object (delete Toggle.KEY env)]> before),
      (delete Toggle.KEY env).
    cbn [Toggle.settings Toggle.backup Toggle.said].
    split; [done|]. split; [done|]. split; [apply lookup_insert_eq|].
    split; [intros name Hname; by apply lookup_insert_ne|].
    split; [intros name Hname; by apply lookup_delete_ne|].
    split; [intros Hnone; rewrite Hnone in Hkey; by destruct Hkey|].
    intros _. split; [apply lookup_delete_eq|done].
  - exists (<["env"%string :=
                Toggle.Object (<[Toggle.KEY := json_string Toggle.VALUE]> env)]> before),
      (<[Toggle.KEY := json_string Toggle.VALUE]> env).
    cbn [Toggle.settings Toggle.backup Toggle.said].
    split; [done|]. split; [done|]. split; [apply lookup_insert_eq|].
    split; [intros name Hname; by apply lookup_insert_ne|].
    split; [intros name Hname; by apply lookup_insert_ne|].
    split; [intros _; split; [apply lookup_insert_eq|done]|].
    intros Hsome. done.
Qed.

(** X24. Two runs in a row.  When the key was absent, the second run restores
    the settings of the first run's backup, but for an ["env"] object that
    stays behind, empty, if there was none.  When the key was present, the
    second run sets it to the gateway address, and its backup is the file
    without the key: a value that differed from the gateway address is in
    neither file any more. *)
Theorem toggle_twice (before : gmap string (Toggle.setting json))
    (env : gmap string json) :
  default (Toggle.Object ∅) (before !! "env"%string) = Toggle.Object env →
  ∃ once,
    Toggle.settings (Toggle.toggle json_string before) = Some once
    ∧ Toggle.backup (Toggle.toggle json_string once) = once
    ∧ (env !! Toggle.KEY = None →
       Toggle.settings (Toggle.toggle json_string once)
       = Some (<["env"%string := Toggle.Object env]> before)
       ∧ (before !! "env"%string = Some (Toggle.Object env) →
          Toggle.settings (Toggle.toggle json_string once) = Some before))
    ∧ (is_Some (env !! Toggle.KEY) →
       Toggle.settings (Toggle.toggle json_string once)
       = Some (<["env"%string :=
                   Toggle.Object (<[Toggle.KEY := json_string Toggle.VALUE]> env)]>
                 before)
       ∧ once !! "env"%string = Some (Toggle.Object (delete Toggle.KEY env))).
Proof.
  intros Henv.
  assert (Hrun : ∀ env0,
            Toggle.toggle json_string (<["env"%string := Toggle.Object env0]> before)
            = if bool_decide (is_Some (env0 !! Toggle.KEY))
              then Toggle.mk json (<["env"%string := Toggle.Object env0]> before)
                     (Some (<["env"%string := Toggle.Object (delete Toggle.KEY env0)]>
                              before))
                     (Some Toggle.Gateway_OFF)
              else Toggle.mk json (<["env"%string := Toggle.Object env0]> before)
                     (Some (<["env"%string :=
                                 Toggle.Object
                                   (<[Toggle.KEY := json_string Toggle.VALUE]> env0)]>
                              before))
                     (Some Toggle.Gateway_ON)).
  { intros env0. unfold Toggle.toggle. rewrite lookup_insert_eq. simpl.
    by rewrite !insert_insert_eq. }
  unfold Toggle.toggle at 1. rewrite Henv.
  case_bool_decide as Hkey; cbn [Toggle.settings]; eexists;
    (split; [reflexivity|]); rewrite Hrun.
  - rewrite bool_decide_eq_false_2
      by (rewrite lookup_delete_eq; by intros [? ?]).
    cbn [Toggle.settings Toggle.backup]. split; [done|].
    split; [intros Hnone; rewrite Hnone in Hkey; by destruct Hkey|].
    intros _. rewrite insert_delete_eq. split; [done|apply lookup_insert_eq].
  - rewrite bool_decide_eq_true_2 by (rewrite lookup_insert_eq; by eexists).
    cbn [Toggle.settings Toggle.backup]. split; [done|].
    split; [|done]. intros Hnone.
    rewrite delete_insert_eq, delete_id by done.
    split; [done|]. intros Hbefore. by rewrite insert_id.
Qed.

End ToggleProperties.

(** ** The properties on the sample logs *)

(** The breakdown of the three opus requests, in the order of the log and
    in the reverse order. *)
Lemma per_model_money_opus_log :
  passthrough_saves_nothing Samples.opus_log
  ∧ Samples.opus_log ≡ₚ reverse Samples.opus_log
  ∧ analyze_tokens ∅ Samples.opus_log = Some Samples.opus_stats
  ∧ TokenStats.models Samples.opus_stats !! "claude-opus-4"%string
    = Some Samples.opus_model
  ∧ ModelStats.money_saved Samples.opus_model
    = money (model_saved_compressed Samples.opus_log "claude-opus-4")
        (get_price ∅ "claude-opus-4")
  ∧ ∃ stats', analyze_tokens ∅ (reverse Samples.opus_log) = Some stats'
              ∧ TokenStats.models stats' = TokenStats.models Samples.opus_stats.
Proof.
  assert (Hmodel : passthrough_saves_nothing Samples.opus_log).
  { repeat constructor; intros Hmsg Hused; try reflexivity;
      try discriminate Hmsg; exfalso; apply Hused; reflexivity. }
  assert (Hperm : Samples.opus_log ≡ₚ reverse Samples.opus_log)
    by (symmetry; apply reverse_Permutation).
  assert (Hstats : analyze_tokens ∅ Samples.opus_log = Some Samples.opus_stats)
    by (vm_compute; reflexivity).
  assert (Hs : TokenStats.models Samples.opus_stats !! "claude-opus-4"%string
               = Some Samples.opus_model) by (vm_compute; reflexivity).
  split; [exact Hmodel|]. split; [exact Hperm|]. split; [exact Hstats|].
  split; [exact Hs|].
  exact (per_model_money ∅ Samples.opus_log (reverse Samples.opus_log)
           Samples.opus_stats "claude-opus-4"%string Samples.opus_model
           Hmodel Hperm Hstats Hs).
Defined.

(** Outside the data model, on a passthrough record that reports 7 saved
    tokens: the 7 tokens are in the breakdown of the model and not in the
    total of the compressed requests. *)
Example stray_breakdown :
  TokenStats.models <$> analyze_tokens ∅ Samples.stray_log
  = Some {[ "claude-opus-4"%string :=
              ModelStats.mk "claude-opus-4" 1 200 7 (money 7 15%Q) ]}
  ∧ TokenStats.total_saved_tokens <$> analyze_tokens ∅ Samples.stray_log = Some 0
  ∧ model_saved_compressed Samples.stray_log "claude-opus-4" = 0.
Proof. by vm_compute. Qed.

(** The sweet spot of the mixed log is 1024, the first threshold that
    leaves out the outputs that hardly shrink. *)
Lemma sweet_spot_smallest_mixed_log :
  analyze_sizes ∅ Samples.mixed_log = Some Samples.mixed_stats
  ∧ 10 ≤ Py.len (compressed_samples Samples.mixed_log)
  ∧ ((SizeStats.sweet_spot Samples.mixed_stats = 0
      ∧ Forall (λ r, ThresholdResult.wasted r ≠ 0)
          (SizeStats.thresholds Samples.mixed_stats))
     ∨ (SizeStats.sweet_spot Samples.mixed_stats ≠ 0
        ∧ ∃ r, r ∈ SizeStats.thresholds Samples.mixed_stats
               ∧ ThresholdResult.threshold r = SizeStats.sweet_spot Samples.mixed_stats
               ∧ ThresholdResult.wasted r = 0
               ∧ ∀ r', r' ∈ SizeStats.thresholds Samples.mixed_stats →
                       ThresholdResult.threshold r'
                         < SizeStats.sweet_spot Samples.mixed_stats →
                       ThresholdResult.wasted r' ≠ 0)).
Proof.
  assert (Hstats : analyze_sizes ∅ Samples.mixed_log = Some Samples.mixed_stats)
    by (vm_compute; reflexivity).
  assert (Hruns : 10 ≤ Py.len (compressed_samples Samples.mixed_log))
    by (vm_compute; discriminate).
  split; [exact Hstats|]. split; [exact Hruns|].
  exact (sweet_spot_smallest ∅ Samples.mixed_log Samples.mixed_stats Hstats Hruns).
Defined.

(** The wasted and saved fields of the results of the mixed log. *)
Lemma threshold_wasted_saved_mixed_log :
  analyze_sizes ∅ Samples.mixed_log = Some Samples.mixed_stats
  ∧ 10 ≤ Py.len (compressed_samples Samples.mixed_log)
  ∧ (∀ T, T ∈ CANDIDATES → eligible_samples Samples.mixed_log T ≠ [] →
          ∃ r, r ∈ SizeStats.thresholds Samples.mixed_stats
               ∧ ThresholdResult.threshold r = T)
  ∧ (∀ r, r ∈ SizeStats.thresholds Samples.mixed_stats →
          let T := ThresholdResult.threshold r in
          T ∈ CANDIDATES
          ∧ eligible_samples Samples.mixed_log T ≠ []
          ∧ ThresholdResult.wasted r = Py.len (wasted_samples Samples.mixed_log T)
          ∧ ThresholdResult.saved r
            = Py.sum ((λ rec, rec_orig rec - rec_comp rec)
                      <$> worthwhile_samples Samples.mixed_log T)).
Proof.
  assert (Hstats : analyze_sizes ∅ Samples.mixed_log = Some Samples.mixed_stats)
    by (vm_compute; reflexivity).
  assert (Hruns : 10 ≤ Py.len (compressed_samples Samples.mixed_log))
    by (vm_compute; discriminate).
  split; [exact Hstats|]. split; [exact Hruns|].
  exact (threshold_wasted_saved ∅ Samples.mixed_log Samples.mixed_stats Hstats Hruns).
Defined.

(** Nine compressed samples: no threshold analysis. *)
Lemma few_samples_skip_short_log :
  analyze_sizes ∅ Samples.short_log = Some Samples.short_stats
  ∧ Py.len (compressed_samples Samples.short_log) < 10
  ∧ SizeStats.thresholds Samples.short_stats = []
  ∧ SizeStats.sweet_spot Samples.short_stats = 0
  ∧ SizeStats.compression_cost Samples.short_stats = 0%Q.
Proof.
  assert (Hstats : analyze_sizes ∅ Samples.short_log = Some Samples.short_stats)
    by (vm_compute; reflexivity).
  assert (Hfew : Py.len (compressed_samples Samples.short_log) < 10)
    by (vm_compute; reflexivity).
  split; [exact Hstats|]. split; [exact Hfew|].
  exact (few_samples_skip ∅ Samples.short_log Samples.short_stats Hstats Hfew).
Defined.

(** Thirteen calls at threshold 256, one at threshold 1024. *)
Lemma calls_antitone_mixed_log :
  analyze_sizes ∅ Samples.mixed_log = Some Samples.mixed_stats
  ∧ 10 ≤ Py.len (compressed_samples Samples.mixed_log)
  ∧ Samples.mixed_at_256 ∈ SizeStats.thresholds Samples.mixed_stats
  ∧ Samples.mixed_at_1024 ∈ SizeStats.thresholds Samples.mixed_stats
  ∧ ThresholdResult.threshold Samples.mixed_at_256
    < ThresholdResult.threshold Samples.mixed_at_1024
  ∧ ThresholdResult.calls Samples.mixed_at_256
    = Py.len (eligible_samples Samples.mixed_log
                (ThresholdResult.threshold Samples.mixed_at_256))
  ∧ ThresholdResult.calls Samples.mixed_at_1024
    = Py.len (eligible_samples Samples.mixed_log
                (ThresholdResult.threshold Samples.mixed_at_1024))
  ∧ ThresholdResult.calls Samples.mixed_at_1024
    ≤ ThresholdResult.calls Samples.mixed_at_256.
Proof.
  assert (Hstats : analyze_sizes ∅ Samples.mixed_log = Some Samples.mixed_stats)
    by (vm_compute; reflexivity).
  assert (Hruns : 10 ≤ Py.len (compressed_samples Samples.mixed_log))
    by (vm_compute; discriminate).
  assert (Hr1 : Samples.mixed_at_256 ∈ SizeStats.thresholds Samples.mixed_stats)
    by (apply list_elem_of_lookup; exists 0%nat; vm_compute; reflexivity).
  assert (Hr2 : Samples.mixed_at_1024 ∈ SizeStats.thresholds Samples.mixed_stats)
    by (apply list_elem_of_lookup; exists 3%nat; vm_compute; reflexivity).
  assert (Hlt : ThresholdResult.threshold Samples.mixed_at_256
                < ThresholdResult.threshold Samples.mixed_at_1024)
    by (vm_compute; reflexivity).
  split; [exact Hstats|]. split; [exact Hruns|]. split; [exact Hr1|].
  split; [exact Hr2|]. split; [exact Hlt|].
  exact (calls_antitone ∅ Samples.mixed_log Samples.mixed_stats
           Samples.mixed_at_256 Samples.mixed_at_1024 Hstats Hruns Hr1 Hr2 Hlt).
Defined.

(** The results of the mixed log are in increasing order of threshold. *)
Lemma thresholds_invariant_mixed_log :
  analyze_sizes ∅ Samples.mixed_log = Some Samples.mixed_stats
  ∧ ascending (SizeStats.thresholds Samples.mixed_stats)
  ∧ ∀ r, r ∈ SizeStats.thresholds Samples.mixed_stats →
         let contributions :=
           (λ rec, rec_orig rec - rec_comp rec)
           <$> worthwhile_samples Samples.mixed_log (ThresholdResult.threshold r) in
         1 ≤ ThresholdResult.calls r
         ∧ 0 ≤ ThresholdResult.saved r
         ∧ ThresholdResult.saved r = Py.sum contributions
         ∧ Forall (λ x, 0 < x) contributions.
Proof.
  assert (Hstats : analyze_sizes ∅ Samples.mixed_log = Some Samples.mixed_stats)
    by (vm_compute; reflexivity).
  split; [exact Hstats|].
  exact (thresholds_invariant ∅ Samples.mixed_log Samples.mixed_stats Hstats).
Defined.



(** What the code does on that log. *)
Example yesterday_raises :
  active_totals IsoFormat.isodate Fixtures.yesterday_log = []
  ∧ analyze_daily IsoFormat.isodate Fixtures.yesterday_log = Raise ValueError.
Proof. by vm_compute. Qed.

(** The timestamp "yesterday" makes the daily aggregation raise. *)
Lemma analyze_daily_raises_broken_log :
  let m := Samples.request "claude-opus-4" true 200 100 "yesterday" in
  m ∈ Samples.broken_log
  ∧ Entry.path m = Some "/v1/messages"%string
  ∧ stamp m ≠ ""%string
  ∧ IsoFormat.isodate (Py.str_take 19 (stamp m)) = None
  ∧ analyze_daily IsoFormat.isodate Samples.broken_log = Raise ValueError.
Proof.
  intros m.
  assert (Hin : m ∈ Samples.broken_log)
    by (apply list_elem_of_lookup; exists 1%nat; reflexivity).
  assert (Hmsg : Entry.path m = Some "/v1/messages"%string) by reflexivity.
  assert (Hts : stamp m ≠ ""%string) by (vm_compute; discriminate).
  assert (Hbad : IsoFormat.isodate (Py.str_take 19 (stamp m)) = None)
    by (vm_compute; reflexivity).
  split; [exact Hin|]. split; [exact Hmsg|]. split; [exact Hts|]. split; [exact Hbad|].
  exact (analyze_daily_raises IsoFormat.isodate Samples.broken_log m Hin Hmsg Hts Hbad).
Defined.

(** ** The further properties on the sample logs *)

(** Three requests: two compressed and one passthrough. *)
Lemma requests_partition_opus_log :
  analyze_tokens ∅ Samples.opus_log = Some Samples.opus_stats
  ∧ TokenStats.total_requests Samples.opus_stats
    = TokenStats.compressed_requests Samples.opus_stats
      + TokenStats.passthrough_requests Samples.opus_stats
  ∧ 1 ≤ TokenStats.total_requests Samples.opus_stats
  ∧ 0 ≤ TokenStats.compressed_requests Samples.opus_stats
  ∧ 0 ≤ TokenStats.passthrough_requests Samples.opus_stats.
Proof.
  assert (Hstats : analyze_tokens ∅ Samples.opus_log = Some Samples.opus_stats)
    by (vm_compute; reflexivity).
  split; [exact Hstats|].
  exact (requests_partition ∅ Samples.opus_log Samples.opus_stats Hstats).
Defined.

Lemma breakdown_totals_opus_log :
  analyze_tokens ∅ Samples.opus_log = Some Samples.opus_stats
  ∧ dict_sum ModelStats.count (TokenStats.models Samples.opus_stats)
    = TokenStats.total_requests Samples.opus_stats
  ∧ dict_sum ModelStats.orig_tokens (TokenStats.models Samples.opus_stats)
    = TokenStats.total_orig_tokens Samples.opus_stats.
Proof.
  assert (Hstats : analyze_tokens ∅ Samples.opus_log = Some Samples.opus_stats)
    by (vm_compute; reflexivity).
  split; [exact Hstats|].
  exact (breakdown_totals ∅ Samples.opus_log Samples.opus_stats Hstats).
Defined.

(** The 7 tokens of the passthrough request are the difference between
    the breakdown and the total. *)
Lemma breakdown_saved_stray_log :
  analyze_tokens ∅ Samples.stray_log = Some Fixtures.stray_stats
  ∧ dict_sum ModelStats.saved_tokens (TokenStats.models Fixtures.stray_stats)
    = TokenStats.total_saved_tokens Fixtures.stray_stats
      + Py.sum ((λ m, get_int (Entry.tokens_saved m))
                <$> filter (λ m, ¬ compression_used m)
                      (filter is_message Samples.stray_log))
  ∧ TokenStats.total_saved_tokens Fixtures.stray_stats
    ≤ dict_sum ModelStats.saved_tokens (TokenStats.models Fixtures.stray_stats)
  ∧ (passthrough_saves_nothing Samples.stray_log →
     dict_sum ModelStats.saved_tokens (TokenStats.models Fixtures.stray_stats)
     = TokenStats.total_saved_tokens Fixtures.stray_stats).
Proof.
  assert (Hstats : analyze_tokens ∅ Samples.stray_log = Some Fixtures.stray_stats)
    by (vm_compute; reflexivity).
  split; [exact Hstats|].
  exact (breakdown_saved ∅ Samples.stray_log Fixtures.stray_stats Hstats).
Defined.

Lemma breakdown_entries_opus_log :
  analyze_tokens ∅ Samples.opus_log = Some Samples.opus_stats
  ∧ let requests :=
      filter (λ m, is_message m ∧ model_key m = "claude-opus-4"%string)
        Samples.opus_log in
    (requests = [] →
     TokenStats.models Samples.opus_stats !! "claude-opus-4"%string = None)
    ∧ (requests ≠ [] →
       ∃ s, TokenStats.models Samples.opus_stats !! "claude-opus-4"%string = Some s
            ∧ ModelStats.name s = "claude-opus-4"%string
            ∧ ModelStats.count s = Py.len requests
            ∧ 1 ≤ ModelStats.count s
            ∧ ModelStats.orig_tokens s
              = Py.sum ((λ m, get_int (Entry.original_tokens m)) <$> requests)).
Proof.
  assert (Hstats : analyze_tokens ∅ Samples.opus_log = Some Samples.opus_stats)
    by (vm_compute; reflexivity).
  split; [exact Hstats|].
  exact (breakdown_entries ∅ Samples.opus_log Samples.opus_stats
           "claude-opus-4"%string Hstats).
Defined.

(** Nine compressed sizes and a passthrough one. *)
Lemma size_lists_short_log :
  analyze_sizes ∅ Samples.short_log = Some Samples.short_stats
  ∧ SizeStats.all_sizes Samples.short_stats
    ≡ₚ SizeStats.compressed_sizes Samples.short_stats
       ++ SizeStats.passthrough_sizes Samples.short_stats
  ∧ Forall (λ size, 0 < size) (SizeStats.all_sizes Samples.short_stats)
  ∧ SizeStats.compressed_sizes Samples.short_stats
    = rec_orig <$> compressed_samples Samples.short_log
  ∧ SizeStats.ratios Samples.short_stats
    = rec_ratio <$> compressed_samples Samples.short_log
  ∧ Py.len (SizeStats.ratios Samples.short_stats)
    = Py.len (SizeStats.compressed_sizes Samples.short_stats).
Proof.
  assert (Hstats : analyze_sizes ∅ Samples.short_log = Some Samples.short_stats)
    by (vm_compute; reflexivity).
  split; [exact Hstats|].
  exact (size_lists ∅ Samples.short_log Samples.short_stats Hstats).
Defined.

Lemma tool_totals_short_log :
  analyze_sizes ∅ Samples.short_log = Some Samples.short_stats
  ∧ dict_sum ToolStats.total (SizeStats.tools Samples.short_stats)
    = Py.len (SizeStats.all_sizes Samples.short_stats)
  ∧ dict_sum ToolStats.compressed (SizeStats.tools Samples.short_stats)
    = Py.len (SizeStats.compressed_sizes Samples.short_stats)
  ∧ dict_sum ToolStats.orig_bytes (SizeStats.tools Samples.short_stats)
    = Py.sum (SizeStats.all_sizes Samples.short_stats)
  ∧ dict_sum ToolStats.saved_bytes (SizeStats.tools Samples.short_stats)
    = Py.sum ((λ rec, rec_orig rec - rec_comp rec)
              <$> compressed_samples Samples.short_log)
  ∧ dict_sum id (SizeStats.status_counts Samples.short_stats)
    = Py.len (SizeStats.all_sizes Samples.short_stats).
Proof.
  assert (Hstats : analyze_sizes ∅ Samples.short_log = Some Samples.short_stats)
    by (vm_compute; reflexivity).
  split; [exact Hstats|].
  exact (tool_totals ∅ Samples.short_log Samples.short_stats Hstats).
Defined.

(** Every record of the mixed log carries the threshold 512. *)
Lemma current_threshold_latest_mixed_log :
  analyze_sizes ∅ Samples.mixed_log = Some Samples.mixed_stats
  ∧ ((SizeStats.current_threshold Samples.mixed_stats = 0
      ∧ Forall (λ rec, get_int (Rec.min_threshold rec) = 0) Samples.mixed_log)
     ∨ (∃ earlier rec later,
           Samples.mixed_log = earlier ++ rec :: later
           ∧ Forall (λ rec, get_int (Rec.min_threshold rec) = 0) later
           ∧ 0 < SizeStats.current_threshold Samples.mixed_stats
           ∧ SizeStats.current_threshold Samples.mixed_stats
             = get_int (Rec.min_threshold rec))).
Proof.
  assert (Hstats : analyze_sizes ∅ Samples.mixed_log = Some Samples.mixed_stats)
    by (vm_compute; reflexivity).
  split; [exact Hstats|].
  exact (current_threshold_latest ∅ Samples.mixed_log Samples.mixed_stats Hstats).
Defined.

(** The results of the mixed log are those of the candidates up to 4096. *)
Lemma thresholds_prefix_mixed_log :
  analyze_sizes ∅ Samples.mixed_log = Some Samples.mixed_stats
  ∧ ThresholdResult.threshold <$> SizeStats.thresholds Samples.mixed_stats
    `prefix_of` CANDIDATES.
Proof.
  assert (Hstats : analyze_sizes ∅ Samples.mixed_log = Some Samples.mixed_stats)
    by (vm_compute; reflexivity).
  split; [exact Hstats|].
  exact (thresholds_prefix ∅ Samples.mixed_log Samples.mixed_stats Hstats).
Defined.

(** Six of the thirteen calls at threshold 256 are wasted. *)
Lemma waste_within_calls_mixed_log :
  analyze_sizes ∅ Samples.mixed_log = Some Samples.mixed_stats
  ∧ Samples.mixed_at_256 ∈ SizeStats.thresholds Samples.mixed_stats
  ∧ let T := ThresholdResult.threshold Samples.mixed_at_256 in
    ThresholdResult.calls Samples.mixed_at_256
    = ThresholdResult.wasted Samples.mixed_at_256
      + Py.len (worthwhile_samples Samples.mixed_log T)
    ∧ 0 ≤ ThresholdResult.wasted Samples.mixed_at_256
        ≤ ThresholdResult.calls Samples.mixed_at_256
    ∧ ThresholdResult.saved Samples.mixed_at_256
      ≤ Py.sum (rec_orig <$> worthwhile_samples Samples.mixed_log T)
    ∧ (ThresholdResult.wasted Samples.mixed_at_256
       = ThresholdResult.calls Samples.mixed_at_256 →
       ThresholdResult.saved Samples.mixed_at_256 = 0).
Proof.
  assert (Hstats : analyze_sizes ∅ Samples.mixed_log = Some Samples.mixed_stats)
    by (vm_compute; reflexivity).
  assert (Hr : Samples.mixed_at_256 ∈ SizeStats.thresholds Samples.mixed_stats)
    by (apply list_elem_of_lookup; exists 0%nat; vm_compute; reflexivity).
  split; [exact Hstats|]. split; [exact Hr|].
  exact (waste_within_calls ∅ Samples.mixed_log Samples.mixed_stats
           Samples.mixed_at_256 Hstats Hr).
Defined.

(** Six wasted calls at threshold 256, none at threshold 1024. *)
Lemma waste_antitone_mixed_log :
  analyze_sizes ∅ Samples.mixed_log = Some Samples.mixed_stats
  ∧ Samples.mixed_at_256 ∈ SizeStats.thresholds Samples.mixed_stats
  ∧ Samples.mixed_at_1024 ∈ SizeStats.thresholds Samples.mixed_stats
  ∧ ThresholdResult.threshold Samples.mixed_at_256
    ≤ ThresholdResult.threshold Samples.mixed_at_1024
  ∧ ThresholdResult.wasted Samples.mixed_at_1024
    ≤ ThresholdResult.wasted Samples.mixed_at_256
  ∧ ThresholdResult.saved Samples.mixed_at_1024
    ≤ ThresholdResult.saved Samples.mixed_at_256.
Proof.
  assert (Hstats : analyze_sizes ∅ Samples.mixed_log = Some Samples.mixed_stats)
    by (vm_compute; reflexivity).
  assert (Hr1 : Samples.mixed_at_256 ∈ SizeStats.thresholds Samples.mixed_stats)
    by (apply list_elem_of_lookup; exists 0%nat; vm_compute; reflexivity).
  assert (Hr2 : Samples.mixed_at_1024 ∈ SizeStats.thresholds Samples.mixed_stats)
    by (apply list_elem_of_lookup; exists 3%nat; vm_compute; reflexivity).
  assert (Hle : ThresholdResult.threshold Samples.mixed_at_256
                ≤ ThresholdResult.threshold Samples.mixed_at_1024)
    by (vm_compute; discriminate).
  split; [exact Hstats|]. split; [exact Hr1|]. split; [exact Hr2|].
  split; [exact Hle|].
  exact (waste_antitone ∅ Samples.mixed_log Samples.mixed_stats
           Samples.mixed_at_256 Samples.mixed_at_1024 Hstats Hr1 Hr2 Hle).
Defined.

(** The sweet spot of the mixed log is 1024, and no call is wasted there. *)
Lemma no_waste_above_sweet_spot_mixed_log :
  analyze_sizes ∅ Samples.mixed_log = Some Samples.mixed_stats
  ∧ SizeStats.sweet_spot Samples.mixed_stats ≠ 0
  ∧ Samples.mixed_at_1024 ∈ SizeStats.thresholds Samples.mixed_stats
  ∧ SizeStats.sweet_spot Samples.mixed_stats
    ≤ ThresholdResult.threshold Samples.mixed_at_1024
  ∧ ThresholdResult.wasted Samples.mixed_at_1024 = 0.
Proof.
  assert (Hstats : analyze_sizes ∅ Samples.mixed_log = Some Samples.mixed_stats)
    by (vm_compute; reflexivity).
  assert (Hspot : SizeStats.sweet_spot Samples.mixed_stats ≠ 0)
    by (vm_compute; discriminate).
  assert (Hr : Samples.mixed_at_1024 ∈ SizeStats.thresholds Samples.mixed_stats)
    by (apply list_elem_of_lookup; exists 3%nat; vm_compute; reflexivity).
  assert (Hle : SizeStats.sweet_spot Samples.mixed_stats
                ≤ ThresholdResult.threshold Samples.mixed_at_1024)
    by (vm_compute; discriminate).
  split; [exact Hstats|]. split; [exact Hspot|]. split; [exact Hr|].
  split; [exact Hle|].
  exact (no_waste_above_sweet_spot ∅ Samples.mixed_log Samples.mixed_stats
           Samples.mixed_at_1024 Hstats Hspot Hr Hle).
Defined.

(** The current threshold of the mixed log, 512, is one of the results. *)
Lemma compression_cost_current_mixed_log :
  analyze_sizes ∅ Samples.mixed_log = Some Samples.mixed_stats
  ∧ let current := SizeStats.current_threshold Samples.mixed_stats in
    ((∃ r, r ∈ SizeStats.thresholds Samples.mixed_stats
           ∧ ThresholdResult.threshold r = current) →
     SizeStats.compression_cost Samples.mixed_stats
     = (Py.truediv (Py.sum (rec_orig <$> eligible_samples Samples.mixed_log current)) 4
        / 1000000 * get_price ∅ HAIKU)%Q)
    ∧ (¬ (∃ r, r ∈ SizeStats.thresholds Samples.mixed_stats
               ∧ ThresholdResult.threshold r = current) →
       SizeStats.compression_cost Samples.mixed_stats = 0%Q).
Proof.
  assert (Hstats : analyze_sizes ∅ Samples.mixed_log = Some Samples.mixed_stats)
    by (vm_compute; reflexivity).
  split; [exact Hstats|].
  exact (compression_cost_current ∅ Samples.mixed_log Samples.mixed_stats Hstats).
Defined.

(** The thirteen outputs of the mixed log are smaller than 65536 bytes,
    and six of them are wasted. *)
Lemma size_buckets_counts_mixed_log :
  analyze_sizes ∅ Samples.mixed_log = Some Samples.mixed_stats
  ∧ let lines := print_size_buckets Samples.mixed_stats in
    Py.sum (BucketLine.n <$> lines)
    = Py.len (filter (λ rec, rec_orig rec < 65536)
                (compressed_samples Samples.mixed_log))
    ∧ Py.sum (BucketLine.bad <$> lines)
      = Py.len (filter (λ rec, rec_orig rec < 65536
                               ∧ Py.fge (rec_ratio rec) 0.9%Q)
                  (compressed_samples Samples.mixed_log))
    ∧ Forall (λ line, 1 ≤ BucketLine.n line
                      ∧ 0 ≤ BucketLine.bad line ≤ BucketLine.n line) lines.
Proof.
  assert (Hstats : analyze_sizes ∅ Samples.mixed_log = Some Samples.mixed_stats)
    by (vm_compute; reflexivity).
  split; [exact Hstats|].
  exact (size_buckets_counts ∅ Samples.mixed_log Samples.mixed_stats Hstats).
Defined.

(** Two active days, of 250 and 300 tokens. *)
Lemma daily_range_idle_day_log :
  analyze_daily IsoFormat.isodate Samples.idle_day_log
  = Return (Some Fixtures.idle_day_stats)
  ∧ head (DailyStats.daily_values Fixtures.idle_day_stats)
    = Some (DailyStats.min_tokens_per_day Fixtures.idle_day_stats)
  ∧ last (DailyStats.daily_values Fixtures.idle_day_stats)
    = Some (DailyStats.max_tokens_per_day Fixtures.idle_day_stats)
  ∧ 0 < DailyStats.min_tokens_per_day Fixtures.idle_day_stats
      ≤ DailyStats.max_tokens_per_day Fixtures.idle_day_stats
  ∧ StronglySorted Z.le (DailyStats.daily_values Fixtures.idle_day_stats)
  ∧ 1 ≤ DailyStats.active_days Fixtures.idle_day_stats.
Proof.
  assert (Hstats : analyze_daily IsoFormat.isodate Samples.idle_day_log
                   = Return (Some Fixtures.idle_day_stats))
    by (vm_compute; reflexivity).
  split; [exact Hstats|].
  exact (daily_range IsoFormat.isodate Samples.idle_day_log
           Fixtures.idle_day_stats Hstats).
Defined.

Lemma daily_values_total_idle_day_log :
  analyze_daily IsoFormat.isodate Samples.idle_day_log
  = Return (Some Fixtures.idle_day_stats)
  ∧ Py.sum (from_option DailyStats.daily_values [] (Some Fixtures.idle_day_stats))
    = Py.sum ((λ m, get_int (Entry.original_tokens m))
              <$> filter (λ m, is_message m ∧ stamp m ≠ ""%string)
                    Samples.idle_day_log).
Proof.
  assert (Hstats : analyze_daily IsoFormat.isodate Samples.idle_day_log
                   = Return (Some Fixtures.idle_day_stats))
    by (vm_compute; reflexivity).
  split; [exact Hstats|].
  exact (daily_values_total IsoFormat.isodate Samples.idle_day_log
           (Some Fixtures.idle_day_stats) Hstats).
Defined.

(** The 600 tokens of the three opus requests, on two days. *)
Lemma daily_matches_tokens_opus_log :
  analyze_tokens ∅ Samples.opus_log = Some Samples.opus_stats
  ∧ analyze_daily IsoFormat.isodate Samples.opus_log = Return Fixtures.opus_daily
  ∧ Py.sum (from_option DailyStats.daily_values [] Fixtures.opus_daily)
    ≤ TokenStats.total_orig_tokens Samples.opus_stats
  ∧ (Forall (λ m, is_message m → stamp m ≠ ""%string) Samples.opus_log →
     Py.sum (from_option DailyStats.daily_values [] Fixtures.opus_daily)
     = TokenStats.total_orig_tokens Samples.opus_stats).
Proof.
  assert (Hstats : analyze_tokens ∅ Samples.opus_log = Some Samples.opus_stats)
    by (vm_compute; reflexivity).
  assert (Hdaily : analyze_daily IsoFormat.isodate Samples.opus_log
                   = Return Fixtures.opus_daily)
    by (vm_compute; reflexivity).
  split; [exact Hstats|]. split; [exact Hdaily|].
  exact (daily_matches_tokens IsoFormat.isodate ∅ Samples.opus_log
           Samples.opus_stats Fixtures.opus_daily Hstats Hdaily).
Defined.

(** The price of the catalogue's opus entry, for a million tokens. *)
Lemma fetch_prices_claude_only_catalogue :
  let price := ((15 # 1000000) * 1000000)%Q in
  fetch_prices (Some Fixtures.catalogue) !! "claude-opus-4"%string = Some price
  ∧ Py.str_in "claude" "claude-opus-4" = true
  ∧ ∃ data info cost,
      Some Fixtures.catalogue = Some data
      ∧ data !! "claude-opus-4"%string = Some info
      ∧ Catalogue.input_cost_per_token info = Some cost
      ∧ ¬ (cost == 0)%Q
      ∧ price = (cost * 1000000)%Q.
Proof.
  intros price.
  assert (Hprice : fetch_prices (Some Fixtures.catalogue) !! "claude-opus-4"%string
                   = Some price) by (vm_compute; reflexivity).
  split; [exact Hprice|].
  exact (fetch_prices_claude_only (Some Fixtures.catalogue) "claude-opus-4"%string
           price Hprice).
Defined.

(** A quarter of a bar of twelve characters. *)
Lemma bar_length_quarter :
  0 ≤ 12
  ∧ let filled := float_to_int (0.25 * inject_Z 12) in
    12 ≤ Py.len (bar 0.25 12)
    ∧ Py.len (bar 0.25 12) = Z.max 0 filled + Z.max 0 (12 - filled)
    ∧ ((0 <= 0.25)%Q → (0.25 <= 1)%Q →
       Py.len (bar 0.25 12) = 12 ∧ 0 ≤ filled ≤ 12).
Proof.
  assert (Hwidth : 0 ≤ 12) by lia.
  split; [exact Hwidth|].
  exact (bar_length 0.25%Q 12 Hwidth).
Defined.

(** A row of three cells in a table of two columns. *)
Lemma print_table_overflow_long_row :
  Exists (λ row, (length Fixtures.headers < length row)%nat)
    (Fixtures.rows ++ [Fixtures.long_row])
  ∧ print_table Fixtures.headers (Fixtures.rows ++ [Fixtures.long_row]) [] []
    = IndexError [].
Proof.
  assert (Hlong : Exists (λ row, (length Fixtures.headers < length row)%nat)
                    (Fixtures.rows ++ [Fixtures.long_row]))
    by (apply Exists_app; right; constructor; simpl; lia).
  split; [exact Hlong|].
  exact (print_table_overflow Fixtures.headers (Fixtures.rows ++ [Fixtures.long_row])
           [] [] Hlong).
Defined.

(** Two rows of two cells under two headers. *)
Lemma print_table_rectangular_tools :
  Fixtures.rows ≠ []
  ∧ Forall (λ row, (length row ≤ length Fixtures.headers)%nat) Fixtures.rows
  ∧ ∃ lines widths,
      print_table Fixtures.headers Fixtures.rows (ascii_text "lr") [] = Finished lines
      ∧ length lines = (4 + length Fixtures.rows)%nat
      ∧ length widths = length Fixtures.headers
      ∧ Forall (covers widths) (Fixtures.headers :: Fixtures.rows)
      ∧ (@nil text = [] →
         Forall (λ row, length row = length Fixtures.headers) Fixtures.rows →
         Forall (λ line, Py.len line = table_width widths) lines).
Proof.
  assert (Hrows : Fixtures.rows ≠ []) by discriminate.
  assert (Hfits : Forall (λ row, (length row ≤ length Fixtures.headers)%nat)
                    Fixtures.rows)
    by (repeat constructor).
  split; [exact Hrows|]. split; [exact Hfits|].
  exact (print_table_rectangular Fixtures.headers Fixtures.rows (ascii_text "lr") []
           Hrows Hfits).
Defined.

(** A run on the settings without the gateway adds it. *)
Lemma toggle_flips_direct :
  let env : gmap string string := {[ "EDITOR"%string := "vi"%string ]} in
  default (Toggle.Object ∅) (Fixtures.direct !! "env"%string) = Toggle.Object env
  ∧ ∃ after env',
      Toggle.settings (Toggle.toggle id Fixtures.direct) = Some after
      ∧ Toggle.backup (Toggle.toggle id Fixtures.direct) = Fixtures.direct
      ∧ after !! "env"%string = Some (Toggle.Object env')
      ∧ (∀ name, name ≠ "env"%string → after !! name = Fixtures.direct !! name)
      ∧ (∀ name, name ≠ Toggle.KEY → env' !! name = env !! name)
      ∧ (env !! Toggle.KEY = None →
         env' !! Toggle.KEY = Some (id Toggle.VALUE)
         ∧ Toggle.said (Toggle.toggle id Fixtures.direct) = Some Toggle.Gateway_ON)
      ∧ (is_Some (env !! Toggle.KEY) →
         env' !! Toggle.KEY = None
         ∧ Toggle.said (Toggle.toggle id Fixtures.direct) = Some Toggle.Gateway_OFF).
Proof.
  intros env.
  assert (Henv : default (Toggle.Object ∅) (Fixtures.direct !! "env"%string)
                 = Toggle.Object env) by (vm_compute; reflexivity).
  split; [exact Henv|].
  exact (toggle_flips string id Fixtures.direct env Henv).
Defined.

(** Two runs on the settings with the gateway give them back. *)
Lemma toggle_twice_proxied :
  let env : gmap string string :=
    {[ "EDITOR"%string := "vi"%string; Toggle.KEY := Toggle.VALUE ]} in
  default (Toggle.Object ∅) (Fixtures.proxied !! "env"%string) = Toggle.Object env
  ∧ ∃ once,
      Toggle.settings (Toggle.toggle id Fixtures.proxied) = Some once
      ∧ Toggle.backup (Toggle.toggle id once) = once
      ∧ (env !! Toggle.KEY = None →
         Toggle.settings (Toggle.toggle id once)
         = Some (<["env"%string := Toggle.Object env]> Fixtures.proxied)
         ∧ (Fixtures.proxied !! "env"%string = Some (Toggle.Object env) →
            Toggle.settings (Toggle.toggle id once) = Some Fixtures.proxied))
      ∧ (is_Some (env !! Toggle.KEY) →
         Toggle.settings (Toggle.toggle id once)
         = Some (<["env"%string :=
                     Toggle.Object (<[Toggle.KEY := id Toggle.VALUE]> env)]>
                   Fixtures.proxied)
         ∧ once !! "env"%string = Some (Toggle.Object (delete Toggle.KEY env))).
Proof.
  intros env.
  assert (Henv : default (Toggle.Object ∅) (Fixtures.proxied !! "env"%string)
                 = Toggle.Object env) by (vm_compute; reflexivity).
  split; [exact Henv|].
  exact (toggle_twice string id Fixtures.proxied env Henv).
Defined.

(** ** The scenarios of the specification *)

(** Three requests of one model, saving 100, 0 and 50 tokens, the two
    savings being compressed requests. *)
Example opus_scenario :
  TokenStats.total_requests <$> analyze_tokens ∅ Samples.opus_log = Some 3
  ∧ TokenStats.compressed_requests <$> analyze_tokens ∅ Samples.opus_log = Some 2
  ∧ TokenStats.total_saved_tokens <$> analyze_tokens ∅ Samples.opus_log = Some 150.
Proof. by vm_compute. Qed.

(** Twelve compressed outputs, six under 256 bytes and six of 1000 bytes
    compressed to 990: six wasted calls at threshold 256, no sweet spot. *)
Example wasteful_scenario :
  (λ stats, (ThresholdResult.threshold <$> head (SizeStats.thresholds stats),
             ThresholdResult.wasted <$> head (SizeStats.thresholds stats),
             SizeStats.sweet_spot stats))
    <$> analyze_sizes ∅ Samples.wasteful_log
  = Some (Some 256, Some 6, 0).
Proof. by vm_compute. Qed.

(** An empty request log has nothing to report. *)
Example empty_scenario :
  analyze_tokens ∅ [] = None ∧ analyze_daily IsoFormat.isodate [] = Return None.
Proof. by vm_compute. Qed.

(** The day without tokens is in none of the daily statistics. *)
Example idle_day_scenario :
  match analyze_daily IsoFormat.isodate Samples.idle_day_log with
  | Return (Some s) =>
      DailyStats.daily_values s = [250; 300] ∧ DailyStats.active_days s = 2
  | _ => False
  end.
Proof. by vm_compute. Qed.
